(** * Warmy: commit change extraction and focus classification

    A shallow embedding of the Go packages [types], [config], [focus],
    [git] and [main] of Warmy, followed by the properties of the diff
    synthesizer, the diff parser, the focus classifier, the change
    aggregator, the commit report and the command line.

    Conventions of the embedding:
    - a Go [string] is a sequence of bytes: [string] of the standard library
      ([len] is [String.length], slicing is on bytes);
    - a Go [int] is a [Z]; every counter below is bounded by the number of
      objects held in memory, so the 64-bit wrap-around is never reached and
      is not written out;
    - a Go slice is a [list]; [nil] and the empty slice are both [[]];
    - a Go [error] is the [string] of its message, [(T, error)] results are
      [error + T] or a pair with an [option error] where the code returns
      both;
    - package-level variables ([globalConfig], [compiledPatterns]) are passed
      explicitly; log calls have no effect on any returned value and are
      left out. *)

From Stdlib Require Import String Ascii List ZArith Lia Bool DecimalString.
Import ListNotations.
Local Open Scope list_scope.
Local Open Scope string_scope.

Set Implicit Arguments.

Definition error := string.

(** The functions of the Go standard library and of go-git that the code
    calls and whose results it only passes on. *)
Class GoLib := {
  Regexp : Type;
  Compile : string -> error + Regexp;        (* regexp.Compile *)
  MatchString : Regexp -> string -> bool;    (* Regexp.MatchString *)
  ToLower : string -> string;                (* strings.ToLower *)
  TrimSpace : string -> string;              (* strings.TrimSpace *)
  GoTime : Type;                             (* time.Time *)
  Format : GoTime -> string -> string;       (* time.Time.Format *)
  Unix : GoTime -> Z;                        (* time.Time.Unix *)
  NewHash : string -> string;                (* plumbing.NewHash, as hex text *)
  IsBranch : string -> bool;                 (* plumbing.ReferenceName.IsBranch *)
  IsTag : string -> bool;                    (* plumbing.ReferenceName.IsTag *)
  Short : string -> string                   (* plumbing.ReferenceName.Short *)
}.

(** ** Package strings (byte-level functions) and fmt verbs *)

Module strings.

Definition nl : ascii := ascii_of_nat 10.

  (** [strings.Split(s, sep)] for a one-byte separator. *)
Fixpoint Split (s : string) (sep : ascii) : list string :=
    match s with
    | EmptyString => [EmptyString]
    | String c rest =>
        if Ascii.eqb c sep then EmptyString :: Split rest sep
        else match Split rest sep with
             | [] => [String c EmptyString]
             | hd :: tl => String c hd :: tl
             end
    end.

Definition HasPrefix (s p : string) : bool := String.prefix p s.

  (** [strings.Join(elems, sep)]. *)
Definition Join (elems : list string) (sep : string) : string :=
    String.concat sep elems.

End strings.

Definition len (s : string) : Z := Z.of_nat (String.length s).
Definition llen {A} (l : list A) : Z := Z.of_nat (List.length l).

(** The [%d] verb of [fmt.Sprintf]. *)
Definition fmt_d (n : Z) : string := NilZero.string_of_int (Z.to_int n).

Definition LF : string := String strings.nl EmptyString.

(** ** Package types *)

Module types.

Module LineChange.
Record t := mk {
      Type_ : string;     (* "add" or "delete" *)
      Content : string
    }.
End LineChange.

Module ChangeInfo.
Record t := mk {
      Action : string;
      Filepath : string;
      OldPath : string;
      NewPath : string;
      Additions : Z;
      Deletions : Z;
      DiffContent : string;
      Extension : string;
      FileSize : Z;
      IsBinary : bool;
      AdditionsList : list LineChange.t;
      DeletionsList : list LineChange.t;
      IsFocus : bool;
      FocusReason : string
    }.

    (** The zero value [types.ChangeInfo{}]. *)
Definition zero : t := mk "" "" "" "" 0 0 "" "" 0 false [] [] false "".

    (** [change.IsFocus = true; change.FocusReason = reason]. *)
Definition markFocus (c : t) (reason : string) : t :=
      mk (Action c) (Filepath c) (OldPath c) (NewPath c) (Additions c)
         (Deletions c) (DiffContent c) (Extension c) (FileSize c) (IsBinary c)
         (AdditionsList c) (DeletionsList c) true reason.

Definition setDiffContent (c : t) (d : string) : t :=
      mk (Action c) (Filepath c) (OldPath c) (NewPath c) (Additions c)
         (Deletions c) d (Extension c) (FileSize c) (IsBinary c)
         (AdditionsList c) (DeletionsList c) (IsFocus c) (FocusReason c).

Definition setAdditionsList (c : t) (l : list LineChange.t) : t :=
      mk (Action c) (Filepath c) (OldPath c) (NewPath c) (Additions c)
         (Deletions c) (DiffContent c) (Extension c) (FileSize c) (IsBinary c)
         l (DeletionsList c) (IsFocus c) (FocusReason c).
End ChangeInfo.

Module FocusFileInfo.
Record t := mk {
      Filepath : string;
      Action : string;
      Reason : string;
      MatchCount : Z;
      MatchLines : list string
    }.
End FocusFileInfo.

Module AuthorInfo.
Record t := mk { Name : string; Email : string; When : string }.
End AuthorInfo.

Module StatsInfo.
Record t := mk {
      TotalAdditions : Z;
      TotalDeletions : Z;
      TotalFiles : Z;
      AddFiles : Z;
      DeleteFiles : Z;
      ModifyFiles : Z;
      RenameFiles : Z;
      CopyFiles : Z;
      BinaryFiles : Z
    }.

Definition zero : t := mk 0 0 0 0 0 0 0 0 0.

Definition addTotalAdditions (s : t) (n : Z) : t :=
      mk (TotalAdditions s + n) (TotalDeletions s) (TotalFiles s) (AddFiles s)
         (DeleteFiles s) (ModifyFiles s) (RenameFiles s) (CopyFiles s)
         (BinaryFiles s).
Definition addTotalDeletions (s : t) (n : Z) : t :=
      mk (TotalAdditions s) (TotalDeletions s + n) (TotalFiles s) (AddFiles s)
         (DeleteFiles s) (ModifyFiles s) (RenameFiles s) (CopyFiles s)
         (BinaryFiles s).
Definition setTotalFiles (s : t) (n : Z) : t :=
      mk (TotalAdditions s) (TotalDeletions s) n (AddFiles s)
         (DeleteFiles s) (ModifyFiles s) (RenameFiles s) (CopyFiles s)
         (BinaryFiles s).
Definition incAddFiles (s : t) : t :=
      mk (TotalAdditions s) (TotalDeletions s) (TotalFiles s) (AddFiles s + 1)
         (DeleteFiles s) (ModifyFiles s) (RenameFiles s) (CopyFiles s)
         (BinaryFiles s).
Definition incDeleteFiles (s : t) : t :=
      mk (TotalAdditions s) (TotalDeletions s) (TotalFiles s) (AddFiles s)
         (DeleteFiles s + 1) (ModifyFiles s) (RenameFiles s) (CopyFiles s)
         (BinaryFiles s).
Definition incModifyFiles (s : t) : t :=
      mk (TotalAdditions s) (TotalDeletions s) (TotalFiles s) (AddFiles s)
         (DeleteFiles s) (ModifyFiles s + 1) (RenameFiles s) (CopyFiles s)
         (BinaryFiles s).
Definition incRenameFiles (s : t) : t :=
      mk (TotalAdditions s) (TotalDeletions s) (TotalFiles s) (AddFiles s)
         (DeleteFiles s) (ModifyFiles s) (RenameFiles s + 1) (CopyFiles s)
         (BinaryFiles s).
Definition incBinaryFiles (s : t) : t :=
      mk (TotalAdditions s) (TotalDeletions s) (TotalFiles s) (AddFiles s)
         (DeleteFiles s) (ModifyFiles s) (RenameFiles s) (CopyFiles s)
         (BinaryFiles s + 1).
End StatsInfo.

Module FocusStats.
Record t := mk {
      TotalFocusFiles : Z;
      AddFocusFiles : Z;
      ModifyFocusFiles : Z;
      DeleteFocusFiles : Z;
      MatchPatternFiles : Z;
      MatchContentFiles : Z
    }.

Definition zero : t := mk 0 0 0 0 0 0.
End FocusStats.

Module DiffSummary.
Record t := mk {
      TotalDiffSize : Z;
      DiffTooLarge : bool;
      MaxDiffSize : Z;
      FullDiff : string
    }.

Definition zero : t := mk 0 false 0 "".

Definition setTotalDiffSize (d : t) (n : Z) : t :=
  mk n (DiffTooLarge d) (MaxDiffSize d) (FullDiff d).
Definition setDiffTooLarge (d : t) (b : bool) : t :=
  mk (TotalDiffSize d) b (MaxDiffSize d) (FullDiff d).
Definition setFullDiff (d : t) (s : string) : t :=
  mk (TotalDiffSize d) (DiffTooLarge d) (MaxDiffSize d) s.
End DiffSummary.

Module CommitInfo.
Record t := mk {
      Hash : string;
      ShortHash : string;
      Author : AuthorInfo.t;
      Committer : AuthorInfo.t;
      Message : string;
      Description : string;
      FullMessage : string;
      ParentHashes : list string;
      Changes : list ChangeInfo.t;
      FocusFiles : list FocusFileInfo.t;
      Timestamp : Z;
      TreeHash : string;
      FilesChanged : list string;
      Stats : StatsInfo.t;
      DiffSummary : DiffSummary.t;
      Branches : list string;
      Tags : list string;
      OutputFile : string;
      AnalyzeTime : string;
      FocusStats : FocusStats.t
    }.
End CommitInfo.

Section WithGoLib.
Context `{GoLib}.

    (** [SplitCommitMessage]: first line as subject, the rest as
        description. [strings.Split] never returns an empty slice, so the
        [len(lines) == 0] branch is the [[]] case below. *)
Definition SplitCommitMessage (message : string) : string * string :=
      let lines := strings.Split message strings.nl in
      match lines with
      | [] => ("", "")
      | l0 :: rest =>
          let subject := TrimSpace l0 in
          let description :=
            match rest with
            | [] => ""
            | l1 :: rest' =>
                let from_start := if String.eqb l1 "" then rest' else rest in
                strings.Join (map TrimSpace from_start) LF
            end in
          (subject, description)
      end.
End WithGoLib.

  (** [GetFileExtension]: the part after the last dot, if there is a dot. *)
Definition GetFileExtension (filename : string) : string :=
    let parts := strings.Split filename "."%char in
    if (1 <? llen parts)%Z then last parts "" else "".

Definition binaryExtensions : list string :=
    [ "exe"; "dll"; "so"; "dylib";
      "bin"; "class"; "jar"; "war";
      "png"; "jpg"; "jpeg"; "gif";
      "bmp"; "ico"; "pdf"; "doc";
      "docx"; "xls"; "xlsx"; "ppt";
      "pptx"; "zip"; "tar"; "gz";
      "7z"; "rar"; "mp3"; "mp4";
      "avi"; "mkv"; "mov"; "wav";
      "iso"; "img"; "dmg"; "pkg";
      "o"; "obj"; "lib"; "a" ].

  (** [Contains]: linear search in a string slice. *)
Fixpoint Contains (slice : list string) (item : string) : bool :=
    match slice with
    | [] => false
    | s :: rest => if String.eqb s item then true else Contains rest item
    end.

Section WithGoLib.
Context `{GoLib}.

    (** [IsLikelyBinaryFile]: lookup of the lower-cased extension in the
        [binaryExtensions] map (every key maps to [true]). *)
Definition IsLikelyBinaryFile (filename : string) : bool :=
      let ext := GetFileExtension filename in
      let ext := ToLower ext in
      Contains binaryExtensions ext.
End WithGoLib.

Definition truncationMarker : string := LF ++ "... [content truncated]".

  (** [TruncateString]: [s] itself when it fits, else its first [maxLen]
      bytes followed by the marker. [maxLen] is never negative at the call
      sites. *)
Definition TruncateString (s : string) (maxLen : Z) : string :=
    if (len s <=? maxLen)%Z then s
    else String.substring 0 (Z.to_nat maxLen) s ++ truncationMarker.

End types.

(** ** Package config *)

Module config.

Module FocusConfig.
Record t := mk {
  Enable : bool;
  AddFiles : bool;
  ModifyFiles : bool;
  DeleteFiles : bool;
  FilePatterns : list string;
  IgnorePatterns : list string
}.
End FocusConfig.

Module Config.
Record t := mk {
  RepoPath : string;
  CommitHash : string;
  OutputFormat : string;
  PrettyJSON : bool;
  MaxDiffSize : Z;
  IncludeFullDiff : bool;
  Verbose : bool;
  ParseDiff : bool;
  OutputDir : string;
  NoFile : bool;
  NoConsole : bool;
  LogLevel : string;
  ConfigFile : string;
  Focus : FocusConfig.t
}.
End Config.

(** The initial value of [globalConfig]. *)
Definition globalConfig : Config.t :=
  Config.mk "" "" "" true (1024 * 1024) false false true "." false false
            "info" ""
            (FocusConfig.mk true true true true [] []).

(** [SetConfigFile]: the value of [globalConfig] afterwards. *)
Definition SetConfigFile (g : Config.t) (filename : string) : Config.t :=
  Config.mk (Config.RepoPath g) (Config.CommitHash g) (Config.OutputFormat g)
            (Config.PrettyJSON g) (Config.MaxDiffSize g)
            (Config.IncludeFullDiff g) (Config.Verbose g) (Config.ParseDiff g)
            (Config.OutputDir g) (Config.NoFile g) (Config.NoConsole g)
            (Config.LogLevel g) filename (Config.Focus g).

(** What the package reads from outside the program: whether [os.Stat]
    succeeds on a path, the result of [os.ReadFile], and the result of
    [json.Unmarshal] into a zero [Config]. *)
Record Files := mkFiles {
  Stat : string -> bool;
  ReadFile : string -> error + string;
  Unmarshal : string -> error + Config.t
}.

(** [findConfigFile], for the value [g] of [globalConfig]. *)
Definition findConfigFile (fs : Files) (g : Config.t) : error + string :=
  if negb (String.eqb (Config.ConfigFile g) "") then
    if Stat fs (Config.ConfigFile g) then inr (Config.ConfigFile g)
    else inl ("specified config file does not exist: " ++ Config.ConfigFile g)
  else
    let configFile := "config.json" in
    if Stat fs configFile then inr configFile
    else inl ("config file not found: " ++ configFile).

Definition loadConfigFromFile (fs : Files) (filename : string)
    : error + Config.t :=
  match ReadFile fs filename with
  | inl err => inl err
  | inr data =>
      match Unmarshal fs data with
      | inl err => inl err
      | inr config => inr config
      end
  end.

(** [LoadConfig]: the value of [globalConfig] afterwards and the result;
    the pointer returned is the address of [globalConfig]. *)
Definition LoadConfig (fs : Files) (g : Config.t)
    : Config.t * (error + Config.t) :=
  match findConfigFile fs g with
  | inl err => (g, inl err)
  | inr configFile =>
      match loadConfigFromFile fs configFile with
      | inl err => (g, inl ("failed to load config file: " ++ err))
      | inr fileConfig =>
          let g' := SetConfigFile fileConfig configFile in
          (g', inr g')
      end
  end.

End config.

(** ** Package focus *)

Module focus.
Import types config.

Section WithGoLib.
Context `{GoLib}.

Record CompiledPatterns := mkCompiledPatterns {
  FilePatterns : list Regexp;
  IgnorePatterns : list Regexp
}.

(** One of the two compile loops of [compilePatterns]; [what] is "file" or
    "ignore", the word of the error message. *)
Fixpoint compileList (what : string) (patterns : list string)
    (compiled : list Regexp) : error + list Regexp :=
  match patterns with
  | [] => inr compiled
  | pattern :: rest =>
      match Compile pattern with
      | inl err =>
          inl ("failed to compile " ++ what ++ " pattern: " ++ pattern
               ++ ", error: " ++ err)
      | inr re => compileList what rest (compiled ++ [re])
      end
  end.

Definition compilePatterns (focusConfig : FocusConfig.t)
    : error + CompiledPatterns :=
  match compileList "file" (FocusConfig.FilePatterns focusConfig) [] with
  | inl err => inl err
  | inr filePatterns =>
      match compileList "ignore" (FocusConfig.IgnorePatterns focusConfig) []
      with
      | inl err => inl err
      | inr ignorePatterns =>
          inr (mkCompiledPatterns filePatterns ignorePatterns)
      end
  end.

(** [Init]: the first component is the value of the package variable
    [compiledPatterns] afterwards ([None] is the nil pointer), the second
    the returned error. *)
Definition Init (cfg : Config.t) (compiledPatterns : option CompiledPatterns)
    : option CompiledPatterns * option error :=
  if negb (FocusConfig.Enable (Config.Focus cfg)) then (compiledPatterns, None)
  else
    match compilePatterns (Config.Focus cfg) with
    | inl err =>
        (None, Some ("failed to compile regular expressions: " ++ err))
    | inr compiled => (Some compiled, None)
    end.

Fixpoint isIgnoredByFilePatterns (filepath : string) (patterns : list Regexp)
    : bool :=
  match patterns with
  | [] => false
  | pattern :: rest =>
      if MatchString pattern filepath then true
      else isIgnoredByFilePatterns filepath rest
  end.

Fixpoint isLineIgnored (content : string) (patterns : list Regexp) : bool :=
  match patterns with
  | [] => false
  | pattern :: rest =>
      if MatchString pattern content then true
      else isLineIgnored content rest
  end.

(** The body shared by the two loops of the modify branch: the state is
    [(matchedLines, matchCount)]. *)
Definition scanLine (ignore : list Regexp) (st : list string * Z)
    (line : LineChange.t) : list string * Z :=
  let '(matchedLines, matchCount) := st in
  if negb (isLineIgnored (LineChange.Content line) ignore) then
    let matchCount := (matchCount + 1)%Z in
    let lineSummary := TruncateString (LineChange.Content line) 100 in
    if (0 <? len lineSummary)%Z && negb (Contains matchedLines lineSummary)
    then ((matchedLines ++ [lineSummary])%list, matchCount)
    else (matchedLines, matchCount)
  else st.

(** The two loops of the modify branch, over the additions and then over
    the deletions. *)
Definition scanChange (ignore : list Regexp) (change : ChangeInfo.t)
    : list string * Z :=
  let st := fold_left (scanLine ignore) (ChangeInfo.AdditionsList change)
                      ([], 0%Z) in
  fold_left (scanLine ignore) (ChangeInfo.DeletionsList change) st.

Definition modifyReason (matchCount : Z) : string :=
  "Content doesn't match ignore patterns, match count: " ++ fmt_d matchCount.

(** [CheckFocusChange]. The result is [None] when the code dereferences the
    nil [compiledPatterns]; otherwise the change record as the call leaves
    it and the returned pair. *)
Definition CheckFocusChange (cfg : Config.t)
    (compiledPatterns : option CompiledPatterns) (change : ChangeInfo.t)
    : option (ChangeInfo.t * (option FocusFileInfo.t * bool)) :=
  let fc := Config.Focus cfg in
  if negb (FocusConfig.Enable fc) then Some (change, (None, false))
  else
    match compiledPatterns with
    | None => None
    | Some cp =>
        if isIgnoredByFilePatterns (ChangeInfo.Filepath change)
                                   (IgnorePatterns cp)
        then Some (change, (None, false))
        else
          let isTargetFile :=
            existsb (fun pattern =>
                       MatchString pattern (ChangeInfo.Filepath change))
                    (FilePatterns cp) in
          if negb isTargetFile then Some (change, (None, false))
          else
            let filepath := ChangeInfo.Filepath change in
            let action := ChangeInfo.Action change in
            if FocusConfig.AddFiles fc && String.eqb action "add" then
              Some (ChangeInfo.markFocus change "New file",
                    (Some (FocusFileInfo.mk filepath action "New file" 0 []),
                     true))
            else if FocusConfig.DeleteFiles fc && String.eqb action "delete"
            then
              Some (ChangeInfo.markFocus change "Deleted file",
                    (Some (FocusFileInfo.mk filepath action "Deleted file"
                                            0 []),
                     true))
            else if FocusConfig.ModifyFiles fc && String.eqb action "modify"
            then
              let '(matchedLines, matchCount) :=
                scanChange (IgnorePatterns cp) change in
              if (0 <? matchCount)%Z then
                Some (ChangeInfo.markFocus change (modifyReason matchCount),
                      (Some (FocusFileInfo.mk filepath action
                                              (modifyReason matchCount)
                                              matchCount matchedLines),
                       true))
              else Some (change, (None, false))
            else Some (change, (None, false))
    end.

End WithGoLib.
End focus.

(** ** The go-git objects the code reads

    Each record holds what the calls made by package [git] return; a hash is
    the text of [Hash.String()]. *)

Module diff.

(** [diff.Operation]. *)
Inductive Operation := Equal | Add | Delete.

(** [diff.File], of which only [Path()] is read. *)
Record File := mkFile { Path : string }.

(** [diff.Chunk]. *)
Record Chunk := mkChunk { Content : string; Type_ : Operation }.

(** [diff.FilePatch]: [Files()] is [(From, To)], either of which may be
    nil. *)
Record FilePatch := mkFilePatch {
  From : option File;
  To : option File;
  Chunks : list Chunk
}.

End diff.

Module object.

(** [object.File]: [Contents()] is the content or an error. *)
Record File := mkFile {
  Name : string;
  Size : Z;
  Contents : error + string
}.

(** [object.Tree]: [Files().ForEach] yields [Files] and then fails with
    [FilesErr] if it is set. *)
Record Tree := mkTree {
  TreeHash : string;
  Files : list File;
  FilesErr : option error
}.

(** [tree.File(path)]. *)
Definition TreeFile (t : Tree) (path : string) : error + File :=
  match find (fun f => String.eqb (Name f) path) (Files t) with
  | Some f => inr f
  | None => inl "file not found"
  end.

Section WithGoLib.
Context `{GoLib}.

Record Signature := mkSignature {
  SigName : string;
  SigEmail : string;
  SigWhen : GoTime
}.

(** [object.Commit] with the results of its methods: [GetTree] is
    [Tree()], [Parents] the hashes that [Parents().ForEach] yields and the
    error it ends with, [Parent0Tree] is [Parent(0)] followed by [Tree()]
    (the outer error is that of [Parent(0)]), and [Patch] is the result of
    [parentTree.Patch(currentTree)]. *)
Record Commit := mkCommit {
  Hash : string;
  Author : Signature;
  Committer : Signature;
  Message : string;
  NumParents : Z;
  Parents : list string * option error;
  GetTree : error + Tree;
  Parent0Tree : error + (error + Tree);
  Patch : error + list diff.FilePatch
}.

End WithGoLib.
End object.

Module gogit.
Import object.

Section WithGoLib.
Context `{GoLib}.

(** [plumbing.Reference]. *)
Record Reference := mkReference { RefName : string; RefHash : string }.

(** The three outcomes of [repo.TagObject] that the code tells apart. *)
Inductive TagLookup :=
| TagFound (target : string)
| TagNotFound
| TagFailed (err : error).

(** [git.Repository]: iterations are the items yielded and the error the
    iteration ends with, if any. *)
Record Repository := mkRepository {
  Head : error + Reference;
  CommitObject : string -> error + Commit;
  CommitObjects : error + (list Commit * option error);
  References : error + (list Reference * option error);
  TagObject : string -> TagLookup
}.

End WithGoLib.
End gogit.

(** ** Package git *)

Module git.
Import types config.

(** *** parseDiffContent *)

(** The test made on every line by both loops of [parseDiffContent]:
    the line belongs to the file header of a diff. *)
Definition isDiffHeaderLine (line : string) : bool :=
  strings.HasPrefix line "diff --git" ||
  strings.HasPrefix line "index " ||
  strings.HasPrefix line "--- " ||
  strings.HasPrefix line "+++ " ||
  strings.HasPrefix line "new file mode" ||
  strings.HasPrefix line "deleted file mode" ||
  strings.HasPrefix line "rename from" ||
  strings.HasPrefix line "rename to".

(** The variables of a parsing loop: [flag] is [inHunk] in the loop with
    hunk headers and [skipHeader] in the loop without. *)
Record parseState := mkParseState {
  flag : bool;
  additions : list LineChange.t;
  deletions : list LineChange.t
}.

(** Body of the loop taken when the text has a hunk header. *)
Definition hunkStep (st : parseState) (line : string) : parseState :=
  if isDiffHeaderLine line then st
  else if strings.HasPrefix line "@@" then
    mkParseState true (additions st) (deletions st)
  else if flag st && (0 <? len line)%Z then
    match line with
    | EmptyString => st
    | String prefix content =>
        if Ascii.eqb prefix "+" then
          if negb (strings.HasPrefix content "++ b/") then
            mkParseState (flag st)
              (additions st ++ [LineChange.mk "add" content]) (deletions st)
          else st
        else if Ascii.eqb prefix "-" then
          if negb (strings.HasPrefix content "-- a/") then
            mkParseState (flag st) (additions st)
              (deletions st ++ [LineChange.mk "delete" content])
          else st
        else st
    end
  else st.

(** Body of the loop taken when the text has no hunk header. *)
Definition plainStep (st : parseState) (line : string) : parseState :=
  if (len line =? 0)%Z then st
  else if isDiffHeaderLine line then
    mkParseState true (additions st) (deletions st)
  else if flag st && (0 <? len line)%Z then
    match line with
    | EmptyString => st
    | String prefix content =>
        if Ascii.eqb prefix "+" then
          if negb (strings.HasPrefix content "++ b/") then
            mkParseState (flag st)
              (additions st ++ [LineChange.mk "add" content]) (deletions st)
          else st
        else if Ascii.eqb prefix "-" then
          if negb (strings.HasPrefix content "-- a/") then
            mkParseState (flag st) (additions st)
              (deletions st ++ [LineChange.mk "delete" content])
          else st
        else st
    end
  else st.

Definition parseDiffContent (diffContent : string)
    : list LineChange.t * list LineChange.t :=
  if String.eqb diffContent "" then ([], [])
  else
    let lines := strings.Split diffContent strings.nl in
    if (llen lines <? 3)%Z then ([], [])
    else
      let hasHunkHeader :=
        existsb (fun line => strings.HasPrefix line "@@") lines in
      let st :=
        if hasHunkHeader
        then fold_left hunkStep lines (mkParseState false [] [])
        else fold_left plainStep lines (mkParseState false [] []) in
      (additions st, deletions st).

(** *** getCommitChanges: the diff text of one file patch *)

(** The header written before the chunks are processed. *)
Definition diffHeader (fromFile toFile : option diff.File)
    (fromPath toPath : string) : string :=
  match fromFile, toFile with
  | None, Some _ =>
      "diff --git a/" ++ toPath ++ " b/" ++ toPath ++ LF
      ++ "new file mode 100644" ++ LF
      ++ "--- /dev/null" ++ LF
      ++ "+++ b/" ++ toPath ++ LF
  | Some _, None =>
      "diff --git a/" ++ fromPath ++ " b/" ++ fromPath ++ LF
      ++ "deleted file mode 100644" ++ LF
      ++ "--- a/" ++ fromPath ++ LF
      ++ "+++ /dev/null" ++ LF
  | Some _, Some _ =>
      if String.eqb fromPath toPath then
        "diff --git a/" ++ fromPath ++ " b/" ++ toPath ++ LF
        ++ "--- a/" ++ fromPath ++ LF
        ++ "+++ b/" ++ toPath ++ LF
      else
        "diff --git a/" ++ fromPath ++ " b/" ++ toPath ++ LF
        ++ "rename from " ++ fromPath ++ LF
        ++ "rename to " ++ toPath ++ LF
  | None, None => ""
  end.

(** The lines of a chunk: its content split at newlines, without the
    trailing empty string. *)
Definition chunkLines (content : string) : list string :=
  let lines := strings.Split content strings.nl in
  if (0 <? llen lines)%Z && String.eqb (last lines "") "" then removelast lines
  else lines.

(** The inner loop over the lines of a chunk: every non-empty line is
    written with its sign. *)
Definition writeLines (sign : string) (lines : list string)
    (builder : string) : string :=
  fold_left
    (fun b line => if negb (String.eqb line "") then b ++ sign ++ line ++ LF
                   else b)
    lines builder.

(** The variables updated by the loop over the chunks. *)
Record chunkState := mkChunkState {
  cs_additions : Z;
  cs_deletions : Z;
  cs_stats : StatsInfo.t;
  cs_builder : string
}.

Definition chunkStep (st : chunkState) (chunk : diff.Chunk) : chunkState :=
  let lines := chunkLines (diff.Content chunk) in
  let lineCount := llen lines in
  match diff.Type_ chunk with
  | diff.Add =>
      mkChunkState (cs_additions st + lineCount) (cs_deletions st)
        (StatsInfo.addTotalAdditions (cs_stats st) lineCount)
        (writeLines "+" lines (cs_builder st))
  | diff.Delete =>
      mkChunkState (cs_additions st) (cs_deletions st + lineCount)
        (StatsInfo.addTotalDeletions (cs_stats st) lineCount)
        (writeLines "-" lines (cs_builder st))
  | diff.Equal => st
  end.

Definition pathOf (f : option diff.File) : string :=
  match f with
  | Some f => diff.Path f
  | None => ""
  end.

(** The diff text that the loop body builds for a file patch. *)
Definition synthesizeDiff (fp : diff.FilePatch) : string :=
  let fromPath := pathOf (diff.From fp) in
  let toPath := pathOf (diff.To fp) in
  cs_builder
    (fold_left chunkStep (diff.Chunks fp)
       (mkChunkState 0 0 StatsInfo.zero
          (diffHeader (diff.From fp) (diff.To fp) fromPath toPath))).

Definition truncatedPlaceholder (diffSize : Z) : string :=
  "// Diff content too large (" ++ fmt_d diffSize ++ " bytes), truncated".

Section WithGoLib.
Context `{GoLib}.
Import object.

(** *** getCommitChanges: initial commit *)

(** The variables captured by the callback of [tree.Files().ForEach]. *)
Record rootState := mkRootState {
  rs_changes : list ChangeInfo.t;
  rs_stats : StatsInfo.t;
  rs_diffSummary : DiffSummary.t;
  rs_fileCount : Z;
  rs_totalDiffSize : Z
}.

(** The callback of [tree.Files().ForEach]. The record is appended to
    [changes] before the size check, and [append] stores a copy: the
    assignment to [change.DiffContent] that follows changes the local
    variable [change_local] only. *)
Definition rootFileStep (cfg : Config.t) (st : rootState) (f : File)
    : rootState :=
  let size := Size f in
  let '(content, err) :=
    match Contents f with
    | inr content => (content, None)
    | inl err => ("", Some err)
    end in
  let '(diffContent, stats) :=
    match err with
    | Some e =>
        ("// Unable to read file content: " ++ e ++ LF,
         StatsInfo.incBinaryFiles (rs_stats st))
    | None =>
        ("+++ b/" ++ Name f ++ LF
         ++ "@@ -0,0 +1," ++ fmt_d (llen (strings.Split content strings.nl))
         ++ " @@" ++ LF ++ content,
         rs_stats st)
    end in
  let change :=
    ChangeInfo.mk "add" (Name f) "" ""
      (llen (strings.Split content strings.nl)) 0 diffContent
      (GetFileExtension (Name f)) size
      (match err with Some _ => true | None => false end)
      [] [] false "" in
  let change :=
    if Config.ParseDiff cfg && negb (ChangeInfo.IsBinary change) then
      ChangeInfo.setAdditionsList change (fst (parseDiffContent diffContent))
    else change in
  let changes := (rs_changes st ++ [change])%list in
  let stats := StatsInfo.incAddFiles stats in
  let fileCount := (rs_fileCount st + 1)%Z in
  let diffSize := len diffContent in
  let totalDiffSize := (rs_totalDiffSize st + diffSize)%Z in
  let '(change_local, diffSummary) :=
    if (diffSize >? Config.MaxDiffSize cfg)%Z then
      (ChangeInfo.setDiffContent change (truncatedPlaceholder diffSize),
       DiffSummary.setDiffTooLarge (rs_diffSummary st) true)
    else (change, rs_diffSummary st) in
  mkRootState changes stats diffSummary fileCount totalDiffSize.

(** *** getCommitChanges: commit with a parent *)

(** The variables updated by the loop over [patch.FilePatches()]. *)
Record patchState := mkPatchState {
  ps_changes : list ChangeInfo.t;
  ps_stats : StatsInfo.t;
  ps_diffSummary : DiffSummary.t;
  ps_fullDiff : string;
  ps_totalDiffSize : Z
}.

(** Body of the loop over [patch.FilePatches()]. *)
Definition patchStep (cfg : Config.t) (currentTree : Tree) (st : patchState)
    (filePatch : diff.FilePatch) : patchState :=
  let fromFile := diff.From filePatch in
  let toFile := diff.To filePatch in
  let fromPath := pathOf fromFile in
  let toPath := pathOf toFile in
  (* change type and file path *)
  let '(action, filePath, oldPath, newPath, stats) :=
    match fromFile, toFile with
    | None, Some _ =>
        ("add", toPath, "", "", StatsInfo.incAddFiles (ps_stats st))
    | Some _, None =>
        ("delete", fromPath, "", "", StatsInfo.incDeleteFiles (ps_stats st))
    | Some _, Some _ =>
        if negb (String.eqb fromPath toPath) then
          ("rename", toPath, fromPath, toPath,
           StatsInfo.incRenameFiles (ps_stats st))
        else
          ("modify", fromPath, "", "", StatsInfo.incModifyFiles (ps_stats st))
    | None, None => ("", "", "", "", ps_stats st)
    end in
  let extension := GetFileExtension filePath in
  (* header and chunks *)
  let cs :=
    fold_left chunkStep (diff.Chunks filePatch)
      (mkChunkState 0 0 stats (diffHeader fromFile toFile fromPath toPath)) in
  let additions := cs_additions cs in
  let deletions := cs_deletions cs in
  let stats := cs_stats cs in
  match toFile, fromFile with
  | Some _, _ =>
      let fileSize :=
        match TreeFile currentTree filePath with
        | inr file => Size file
        | inl _ => 0%Z
        end in
      let isBinary := IsLikelyBinaryFile filePath in
      let fileDiff := cs_builder cs in
      let '(stats, additionsList, deletionsList) :=
        if isBinary then (StatsInfo.incBinaryFiles stats, [], [])
        else if Config.ParseDiff cfg then
          let '(additions, deletions) := parseDiffContent fileDiff in
          (stats, additions, deletions)
        else (stats, [], []) in
      let diffSize := len fileDiff in
      let totalDiffSize := (ps_totalDiffSize st + diffSize)%Z in
      let '(diffContent, diffSummary) :=
        if (diffSize >? Config.MaxDiffSize cfg)%Z then
          (truncatedPlaceholder diffSize,
           DiffSummary.setDiffTooLarge (ps_diffSummary st) true)
        else (fileDiff, ps_diffSummary st) in
      let fullDiff :=
        if Config.IncludeFullDiff cfg
        then ps_fullDiff st ++ fileDiff ++ LF ++ LF
        else ps_fullDiff st in
      let change :=
        ChangeInfo.mk action filePath oldPath newPath additions deletions
          diffContent extension fileSize isBinary additionsList deletionsList
          false "" in
      mkPatchState (ps_changes st ++ [change]) stats diffSummary fullDiff
                   totalDiffSize
  | None, Some _ =>
      let isBinary := IsLikelyBinaryFile filePath in
      let '(stats, deletionsList) :=
        if isBinary then (StatsInfo.incBinaryFiles stats, [])
        else if Config.ParseDiff cfg then
          (stats, snd (parseDiffContent (cs_builder cs)))
        else (stats, []) in
      let fileDiff := cs_builder cs in
      let diffSize := len fileDiff in
      let totalDiffSize := (ps_totalDiffSize st + diffSize)%Z in
      let fullDiff :=
        if Config.IncludeFullDiff cfg
        then ps_fullDiff st ++ fileDiff ++ LF ++ LF
        else ps_fullDiff st in
      let change :=
        ChangeInfo.mk action filePath oldPath newPath additions deletions
          fileDiff extension 0 isBinary [] deletionsList false "" in
      mkPatchState (ps_changes st ++ [change]) stats (ps_diffSummary st)
                   fullDiff totalDiffSize
  | None, None =>
      let change :=
        ChangeInfo.mk action filePath oldPath newPath additions deletions
          "" extension 0 false [] [] false "" in
      mkPatchState (ps_changes st ++ [change]) stats (ps_diffSummary st)
                   (ps_fullDiff st) (ps_totalDiffSize st)
  end.

(** [getCommitChanges]: the three results and the error. *)
Definition getCommitChanges (cfg : Config.t) (commit : Commit)
    : list ChangeInfo.t * StatsInfo.t * DiffSummary.t * option error :=
  let changes : list ChangeInfo.t := [] in
  let stats := StatsInfo.zero in
  let diffSummary := DiffSummary.mk 0 false (Config.MaxDiffSize cfg) "" in
  if (NumParents commit =? 0)%Z then
    match GetTree commit with
    | inl err => (changes, stats, diffSummary, Some err)
    | inr tree =>
        let st :=
          fold_left (rootFileStep cfg) (Files tree)
                    (mkRootState changes stats diffSummary 0 0) in
        match FilesErr tree with
        | Some err =>
            (rs_changes st, rs_stats st, rs_diffSummary st, Some err)
        | None =>
            (rs_changes st,
             StatsInfo.setTotalFiles (rs_stats st) (llen (rs_changes st)),
             DiffSummary.setTotalDiffSize (rs_diffSummary st)
                                          (rs_totalDiffSize st),
             None)
        end
    end
  else
    match Parent0Tree commit with
    | inl err => (changes, stats, diffSummary, Some err)
    | inr (inl err) => (changes, stats, diffSummary, Some err)
    | inr (inr parentTree) =>
        match GetTree commit with
        | inl err => (changes, stats, diffSummary, Some err)
        | inr currentTree =>
            match Patch commit with
            | inl err => (changes, stats, diffSummary, Some err)
            | inr filePatches =>
                let st :=
                  fold_left (patchStep cfg currentTree) filePatches
                            (mkPatchState changes stats diffSummary "" 0) in
                let stats :=
                  StatsInfo.setTotalFiles (ps_stats st)
                                          (llen (ps_changes st)) in
                let diffSummary :=
                  DiffSummary.setTotalDiffSize (ps_diffSummary st)
                                               (ps_totalDiffSize st) in
                let diffSummary :=
                  if Config.IncludeFullDiff cfg
                  then DiffSummary.setFullDiff diffSummary (ps_fullDiff st)
                  else diffSummary in
                (ps_changes st, stats, diffSummary, None)
            end
        end
    end.

(** *** Branches and tags *)

Import gogit.

(** [getBranchesContainingCommit]: the slice and the error returned. *)
Definition getBranchesContainingCommit (repo : Repository) (hash : string)
    : list string * option error :=
  match References repo with
  | inl err => ([], Some err)
  | inr (refs, iterErr) =>
      let branches :=
        fold_left
          (fun branches ref =>
             if IsBranch (RefName ref)
                || strings.HasPrefix (RefName ref) "refs/remotes/"
             then
               if String.eqb (RefHash ref) hash
               then (branches ++ [Short (RefName ref)])%list
               else branches
             else branches)
          refs [] in
      (branches, iterErr)
  end.

(** The [ForEach] of [getTagsContainingCommit]: its callback returns the
    error of [repo.TagObject] when that is not [ErrObjectNotFound], which
    ends the iteration. *)
Fixpoint tagsForEach (repo : Repository) (hash : string)
    (refs : list Reference) (iterErr : option error) (tags : list string)
    : list string * option error :=
  match refs with
  | [] => (tags, iterErr)
  | ref :: rest =>
      if IsTag (RefName ref) then
        match TagObject repo (RefHash ref) with
        | TagFailed err => (tags, Some err)
        | TagFound target =>
            if String.eqb target hash
            then tagsForEach repo hash rest iterErr
                             (tags ++ [Short (RefName ref)])
            else tagsForEach repo hash rest iterErr tags
        | TagNotFound =>
            if String.eqb (RefHash ref) hash
            then tagsForEach repo hash rest iterErr
                             (tags ++ [Short (RefName ref)])
            else tagsForEach repo hash rest iterErr tags
        end
      else tagsForEach repo hash rest iterErr tags
  end.

Definition getTagsContainingCommit (repo : Repository) (hash : string)
    : list string * option error :=
  match References repo with
  | inl err => ([], Some err)
  | inr (refs, iterErr) => tagsForEach repo hash refs iterErr []
  end.

(** *** GetCommit *)

(** What [GetCommit] reads from outside the program: the repositories
    [git.PlainOpen] finds and the clock. *)
Record World := mkWorld {
  PlainOpen : string -> error + Repository;
  Now : GoTime
}.

(** A call ends with a value, with an error, or in a run-time panic (nil
    dereference, slice out of range). *)
Inductive result (A : Type) :=
| Ok (a : A)
| Err (e : error)
| Panic.
Arguments Ok {A} a.
Arguments Err {A} e.
Arguments Panic {A}.

(** The first part of [GetCommit]: the commit object for [commitHash], the
    latest commit when it is empty, the first commit whose hash starts
    with it when it is not a full hash. *)
Definition resolveCommit (repo : Repository) (commitHash : string)
    : error + Commit :=
  if String.eqb commitHash "" then
    match Head repo with
    | inl err => inl ("failed to get HEAD reference: " ++ err)
    | inr ref =>
        match CommitObject repo (RefHash ref) with
        | inl err => inl ("failed to get commit object: " ++ err)
        | inr commit => inr commit
        end
    end
  else
    match CommitObject repo (NewHash commitHash) with
    | inr commit => inr commit
    | inl _ =>
        match CommitObjects repo with
        | inl err => inl ("failed to iterate commit objects: " ++ err)
        | inr (commits, iterErr) =>
            match find (fun c => strings.HasPrefix (Hash c) commitHash)
                       commits with
            | Some foundCommit => inr foundCommit
            | None =>
                match iterErr with
                | Some err =>
                    if negb (String.eqb err "found")
                    then inl ("failed to find commit: " ++ err)
                    else inl ("specified commit not found: " ++ commitHash)
                | None => inl ("specified commit not found: " ++ commitHash)
                end
            end
        end
    end.

(** The variables updated by the loop over [changes] in [GetCommit];
    [fs_changes] are the elements of [changes] already visited, as
    [CheckFocusChange] left them. *)
Record focusState := mkFocusState {
  fs_changes : list ChangeInfo.t;
  fs_filesChanged : list string;
  fs_focusFiles : list FocusFileInfo.t;
  fs_focusStats : FocusStats.t
}.

(** The statistics update made for a focus file. *)
Definition countFocus (fs : FocusStats.t) (action : string) : FocusStats.t :=
  let total := (FocusStats.TotalFocusFiles fs + 1)%Z in
  if String.eqb action "add" then
    FocusStats.mk total (FocusStats.AddFocusFiles fs + 1)
      (FocusStats.ModifyFocusFiles fs) (FocusStats.DeleteFocusFiles fs)
      (FocusStats.MatchPatternFiles fs + 1) (FocusStats.MatchContentFiles fs)
  else if String.eqb action "modify" then
    FocusStats.mk total (FocusStats.AddFocusFiles fs)
      (FocusStats.ModifyFocusFiles fs + 1) (FocusStats.DeleteFocusFiles fs)
      (FocusStats.MatchPatternFiles fs) (FocusStats.MatchContentFiles fs + 1)
  else if String.eqb action "delete" then
    FocusStats.mk total (FocusStats.AddFocusFiles fs)
      (FocusStats.ModifyFocusFiles fs) (FocusStats.DeleteFocusFiles fs)
      (FocusStats.MatchPatternFiles fs + 1) (FocusStats.MatchContentFiles fs)
  else
    FocusStats.mk total (FocusStats.AddFocusFiles fs)
      (FocusStats.ModifyFocusFiles fs) (FocusStats.DeleteFocusFiles fs)
      (FocusStats.MatchPatternFiles fs) (FocusStats.MatchContentFiles fs).

(** The loop over [changes]; [None] when an iteration panics. *)
Fixpoint focusLoop (cfg : Config.t)
    (compiledPatterns : option focus.CompiledPatterns)
    (changes : list ChangeInfo.t) (st : focusState) : option focusState :=
  match changes with
  | [] => Some st
  | change :: rest =>
      let filesChanged :=
        (fs_filesChanged st ++ [ChangeInfo.Filepath change])%list in
      match focus.CheckFocusChange cfg compiledPatterns change with
      | None => None
      | Some (change, (focusFile, isFocus)) =>
          if isFocus then
            match focusFile with
            | None => None
            | Some focusFile =>
                focusLoop cfg compiledPatterns rest
                  (mkFocusState
                     (fs_changes st ++ [change]) filesChanged
                     (fs_focusFiles st ++ [focusFile])
                     (countFocus (fs_focusStats st)
                                 (ChangeInfo.Action change)))
            end
          else
            focusLoop cfg compiledPatterns rest
              (mkFocusState (fs_changes st ++ [change]) filesChanged
                            (fs_focusFiles st) (fs_focusStats st))
      end
  end.

Definition authorInfo (s : Signature) : AuthorInfo.t :=
  AuthorInfo.mk (SigName s) (SigEmail s)
                (Format (SigWhen s) "2006-01-02 15:04:05 -0700").

(** [GetCommit]; [compiledPatterns] is the value of the package variable
    of [focus] at the call. *)
Definition GetCommit (w : World) (cfg : Config.t)
    (compiledPatterns : option focus.CompiledPatterns)
    (repoPath commitHash : string) : result CommitInfo.t :=
  match PlainOpen w repoPath with
  | inl err => Err ("failed to open local repository: " ++ err)
  | inr repo =>
  match resolveCommit repo commitHash with
  | inl err => Err err
  | inr commit =>
  let branches :=
    match getBranchesContainingCommit repo (Hash commit) with
    | (_, Some _) => []
    | (branches, None) => branches
    end in
  let tags :=
    match getTagsContainingCommit repo (Hash commit) with
    | (_, Some _) => []
    | (tags, None) => tags
    end in
  let message := TrimSpace (Message commit) in
  let '(subject, description) := SplitCommitMessage message in
  let parentHashes :=
    if (0 <? NumParents commit)%Z then fst (Parents commit) else [] in
  match GetTree commit with
  | inl err => Err ("failed to get tree object: " ++ err)
  | inr tree =>
  let '(changes, stats, diffSummary) :=
    match getCommitChanges cfg commit with
    | (_, _, _, Some _) => ([], StatsInfo.zero, DiffSummary.zero)
    | (changes, stats, diffSummary, None) => (changes, stats, diffSummary)
    end in
  let looped :=
    match focus.Init cfg compiledPatterns with
    | (_, Some _) => Some (mkFocusState changes [] [] FocusStats.zero)
    | (compiledPatterns, None) =>
        focusLoop cfg compiledPatterns changes
                  (mkFocusState [] [] [] FocusStats.zero)
    end in
  match looped with
  | None => Panic
  | Some st =>
  let analyzeTime := Format (Now w) "20060102-150405" in
  if (len (Hash commit) <? 8)%Z then Panic
  else
    Ok (CommitInfo.mk
          (Hash commit)
          (String.substring 0 8 (Hash commit))
          (authorInfo (Author commit))
          (authorInfo (Committer commit))
          subject description message parentHashes
          (fs_changes st) (fs_focusFiles st)
          (Unix (SigWhen (Committer commit)))
          (TreeHash tree)
          (fs_filesChanged st)
          stats diffSummary branches tags
          "" analyzeTime
          (fs_focusStats st))
  end end end end.

End WithGoLib.
End git.

(** ** Package main *)

Module main.
Import config.

(** The loop of [parseArgs] from index [i]: [args] are the elements of
    [os.Args] from [i] on, [g] is the value of [globalConfig]. The result
    is the value of [globalConfig] afterwards and the error returned. *)
Fixpoint parseArgsFrom (args : list string) (g : Config.t)
    : Config.t * option error :=
  match args with
  | [] => (g, None)
  | arg :: rest =>
      if String.eqb arg "-h" || String.eqb arg "--help"
      then (g, Some "show_help")
      else if String.eqb arg "-v" || String.eqb arg "--version"
      then (g, Some "show_version")
      else if String.eqb arg "--config"
      then match rest with
           | next :: rest' => parseArgsFrom rest' (SetConfigFile g next)
           | [] =>
               (g, Some "--config parameter requires specifying config file path")
           end
      else parseArgsFrom rest g
  end.

(** [parseArgs]: the loop starts at index 1, after the program name. *)
Definition parseArgs (osArgs : list string) (g : Config.t)
    : Config.t * option error :=
  parseArgsFrom (tl osArgs) g.

End main.

(** * Vocabulary of the properties *)

Module spec.
Import types.

(** [s] contains the byte [c]. *)
Fixpoint hasByte (c : ascii) (s : string) : bool :=
  match s with
  | EmptyString => false
  | String a rest => Ascii.eqb a c || hasByte c rest
  end.

(** [s] has no line break. *)
Definition singleLine (s : string) : bool := negb (hasByte strings.nl s).

(** The lines that follow the first file-header line, none when there is
    no file-header line. *)
Fixpoint afterFirstHeader (lines : list string) : list string :=
  match lines with
  | [] => []
  | line :: rest =>
      if git.isDiffHeaderLine line then rest else afterFirstHeader rest
  end.

(** The records for the lines that begin with [sign] and are no file-header
    line, in order: the content is the line without its first byte. *)
Definition signedLines (sign : ascii) (kind : string) (lines : list string)
    : list LineChange.t :=
  flat_map
    (fun line =>
       match line with
       | EmptyString => []
       | String c content =>
           if Ascii.eqb c sign && negb (git.isDiffHeaderLine line)
           then [LineChange.mk kind content]
           else []
       end)
    lines.

Definition isAdd (c : diff.Chunk) : bool :=
  match diff.Type_ c with diff.Add => true | _ => false end.

Definition isDelete (c : diff.Chunk) : bool :=
  match diff.Type_ c with diff.Delete => true | _ => false end.

(** The text lines of the Add chunks of a file patch, in order. *)
Definition addedLines (fp : diff.FilePatch) : list string :=
  flat_map (fun c => git.chunkLines (diff.Content c))
           (filter isAdd (diff.Chunks fp)).

(** The text lines of the Delete chunks of a file patch, in order. *)
Definition deletedLines (fp : diff.FilePatch) : list string :=
  flat_map (fun c => git.chunkLines (diff.Content c))
           (filter isDelete (diff.Chunks fp)).

(** A file patch names a file on at least one side. The loop of
    [getCommitChanges] has a branch for each kind of such a patch (added,
    deleted, modified or renamed); [Files] may also return nil on both
    sides, for a changed entry that is no file, and the loop has no branch
    for that. *)
Definition hasSide (fp : diff.FilePatch) : bool :=
  match diff.From fp, diff.To fp with
  | None, None => false
  | _, _ => true
  end.

(** The text made of the given lines, each ended by a newline. *)
Definition unlines (lines : list string) : string :=
  fold_right (fun line text => line ++ LF ++ text) "" lines.

(** The lines of the header of a synthesized diff. *)
Definition headerLines (fp : diff.FilePatch) : list string :=
  let fromPath := git.pathOf (diff.From fp) in
  let toPath := git.pathOf (diff.To fp) in
  match diff.From fp, diff.To fp with
  | None, Some _ =>
      [ "diff --git a/" ++ toPath ++ " b/" ++ toPath;
        "new file mode 100644";
        "--- /dev/null";
        "+++ b/" ++ toPath ]
  | Some _, None =>
      [ "diff --git a/" ++ fromPath ++ " b/" ++ fromPath;
        "deleted file mode 100644";
        "--- a/" ++ fromPath;
        "+++ /dev/null" ]
  | Some _, Some _ =>
      if String.eqb fromPath toPath then
        [ "diff --git a/" ++ fromPath ++ " b/" ++ toPath;
          "--- a/" ++ fromPath;
          "+++ b/" ++ toPath ]
      else
        [ "diff --git a/" ++ fromPath ++ " b/" ++ toPath;
          "rename from " ++ fromPath;
          "rename to " ++ toPath ]
  | None, None => []
  end.

Definition nonEmpty (line : string) : bool := negb (String.eqb line "").

(** The signed lines written for a list of chunks. *)
Definition writtenLines (chunks : list diff.Chunk) : list string :=
  flat_map
    (fun c =>
       match diff.Type_ c with
       | diff.Add =>
           map (String "+") (filter nonEmpty (git.chunkLines (diff.Content c)))
       | diff.Delete =>
           map (String "-") (filter nonEmpty (git.chunkLines (diff.Content c)))
       | diff.Equal => []
       end)
    chunks.

(** An added line survives the round trip when it is not empty and does
    not begin with "++ " (its written form would begin with "+++ "). *)
Definition keptAdded (line : string) : bool :=
  nonEmpty line && negb (strings.HasPrefix line "++ ").

(** A deleted line survives the round trip when it is not empty and does
    not begin with "-- ". *)
Definition keptDeleted (line : string) : bool :=
  nonEmpty line && negb (strings.HasPrefix line "-- ").

(** The invariant of the two loops of the modify branch of the focus
    classifier: the summaries are distinct, and each is the summary of one
    of the lines. *)
Definition summariesOf (lines : list LineChange.t) (matched : list string)
    : Prop :=
  NoDup matched
  /\ Forall (fun s =>
               (len s <= 124)%Z
               /\ exists line,
                    In line lines
                    /\ s = TruncateString (LineChange.Content line) 100)
            matched.

(** The sum of the per-action file counters. *)
Definition actionSum (s : StatsInfo.t) : Z :=
  (StatsInfo.AddFiles s + StatsInfo.DeleteFiles s + StatsInfo.ModifyFiles s
   + StatsInfo.RenameFiles s + StatsInfo.CopyFiles s)%Z.

(** The sum of the per-action focus counters. *)
Definition focusActionSum (s : FocusStats.t) : Z :=
  (FocusStats.AddFocusFiles s + FocusStats.ModifyFocusFiles s
   + FocusStats.DeleteFocusFiles s)%Z.

Section WithGoLib.
Context `{GoLib}.

(** The number of file changes of a commit: the files of its tree when it
    has no parent, the file patches against its first parent otherwise. *)
Definition fileChanges (commit : object.Commit) : Z :=
  if (object.NumParents commit =? 0)%Z then
    match object.GetTree commit with
    | inr tree => llen (object.Files tree)
    | inl _ => 0%Z
    end
  else
    match object.Patch commit with
    | inr filePatches => llen filePatches
    | inl _ => 0%Z
    end.

End WithGoLib.

(** The lines that follow the first hunk-header line (a line beginning
    with "@@"), none when there is no such line. *)
Fixpoint afterFirstHunk (lines : list string) : list string :=
  match lines with
  | [] => []
  | line :: rest =>
      if strings.HasPrefix line "@@" then rest else afterFirstHunk rest
  end.

(** The text [getCommitChanges] builds for a readable file of an initial
    commit. *)
Definition rootDiffText (name content : string) : string :=
  "+++ b/" ++ name ++ LF
  ++ "@@ -0,0 +1," ++ fmt_d (llen (strings.Split content strings.nl))
  ++ " @@" ++ LF ++ content.

(** *** The change aggregator, file by file *)

Definition b2z (b : bool) : Z := if b then 1%Z else 0%Z.

(** The sum of a list of integers. *)
Definition sumZ (l : list Z) : Z := fold_right Z.add 0%Z l.

(** The number of elements that satisfy a test. *)
Definition countZ {A} (f : A -> bool) (l : list A) : Z :=
  llen (filter f l).

(** The action of a file patch: by the sides that are present and, when
    both are, by whether the paths differ. *)
Definition patchAction (fp : diff.FilePatch) : string :=
  match diff.From fp, diff.To fp with
  | None, Some _ => "add"
  | Some _, None => "delete"
  | Some f, Some t =>
      if String.eqb (diff.Path f) (diff.Path t) then "modify" else "rename"
  | None, None => ""
  end.

(** The path of the changed file: the new path when the file is in the
    new tree, the old path otherwise. *)
Definition changedPath (fp : diff.FilePatch) : string :=
  match diff.To fp with
  | Some t => diff.Path t
  | None => git.pathOf (diff.From fp)
  end.

Definition isRename (fp : diff.FilePatch) : bool :=
  String.eqb (patchAction fp) "rename".

Definition hasTo (fp : diff.FilePatch) : bool :=
  match diff.To fp with Some _ => true | None => false end.

(** The diff text of the file patch exceeds the limit, in the branch that
    tests it. *)
Definition oversize (cfg : config.Config.t) (fp : diff.FilePatch) : bool :=
  hasTo fp
  && (len (git.synthesizeDiff fp) >? config.Config.MaxDiffSize cfg)%Z.

Section WithGoLib.
Context `{GoLib}.

Definition patchBinary (fp : diff.FilePatch) : bool :=
  hasSide fp && IsLikelyBinaryFile (changedPath fp).

(** The record that the loop over the file patches appends for a file
    patch. *)
Definition changeOf (cfg : config.Config.t) (currentTree : object.Tree)
    (fp : diff.FilePatch) : ChangeInfo.t :=
  let parsed := negb (patchBinary fp) && config.Config.ParseDiff cfg in
  ChangeInfo.mk
    (patchAction fp) (changedPath fp)
    (if isRename fp then git.pathOf (diff.From fp) else "")
    (if isRename fp then git.pathOf (diff.To fp) else "")
    (llen (addedLines fp)) (llen (deletedLines fp))
    (if oversize cfg fp
     then git.truncatedPlaceholder (len (git.synthesizeDiff fp))
     else if hasSide fp then git.synthesizeDiff fp else "")
    (GetFileExtension (changedPath fp))
    (if hasTo fp
     then match object.TreeFile currentTree (changedPath fp) with
          | inr file => object.Size file
          | inl _ => 0%Z
          end
     else 0%Z)
    (patchBinary fp)
    (if hasTo fp && parsed
     then fst (git.parseDiffContent (git.synthesizeDiff fp)) else [])
    (if hasSide fp && parsed
     then snd (git.parseDiffContent (git.synthesizeDiff fp)) else [])
    false "".

(** The statistics after the iteration for a file patch. *)
Definition statsAfter (fp : diff.FilePatch) (s : StatsInfo.t) : StatsInfo.t :=
  StatsInfo.mk
    (StatsInfo.TotalAdditions s + llen (addedLines fp))
    (StatsInfo.TotalDeletions s + llen (deletedLines fp))
    (StatsInfo.TotalFiles s)
    (StatsInfo.AddFiles s + b2z (String.eqb (patchAction fp) "add"))
    (StatsInfo.DeleteFiles s + b2z (String.eqb (patchAction fp) "delete"))
    (StatsInfo.ModifyFiles s + b2z (String.eqb (patchAction fp) "modify"))
    (StatsInfo.RenameFiles s + b2z (String.eqb (patchAction fp) "rename"))
    (StatsInfo.CopyFiles s)
    (StatsInfo.BinaryFiles s + b2z (patchBinary fp)).

(** The text stored for a file of an initial commit. *)
Definition rootText (f : object.File) : string :=
  match object.Contents f with
  | inr content => rootDiffText (object.Name f) content
  | inl err => "// Unable to read file content: " ++ err ++ LF
  end.

Definition unreadable (f : object.File) : bool :=
  match object.Contents f with inr _ => false | inl _ => true end.

(** The record that the callback of an initial commit appends for a
    file. *)
Definition rootChangeOf (cfg : config.Config.t) (f : object.File)
    : ChangeInfo.t :=
  let content :=
    match object.Contents f with inr content => content | inl _ => "" end in
  ChangeInfo.mk "add" (object.Name f) "" ""
    (llen (strings.Split content strings.nl)) 0 (rootText f)
    (GetFileExtension (object.Name f)) (object.Size f) (unreadable f)
    (if config.Config.ParseDiff cfg && negb (unreadable f)
     then fst (git.parseDiffContent (rootText f)) else [])
    [] false "".

End WithGoLib.

(** *** The focus classifier *)

Section WithGoLib.
Context `{GoLib}.

(** The number of added and deleted lines of a change that match no
    ignore pattern. *)
Definition unignoredLines (ignore : list Regexp) (change : ChangeInfo.t)
    : Z :=
  countZ (fun line => negb (focus.isLineIgnored (LineChange.Content line)
                                                ignore))
         (ChangeInfo.AdditionsList change ++ ChangeInfo.DeletionsList change).

(** The focus decision as one condition: the feature is on, the path
    matches no ignore pattern and some file pattern, and the action is one
    that the configuration enables; a modification needs a line that
    matches no ignore pattern. *)
Definition focusDecision (cfg : config.Config.t)
    (cp : focus.CompiledPatterns) (change : ChangeInfo.t) : bool :=
  let fc := config.Config.Focus cfg in
  let action := ChangeInfo.Action change in
  config.FocusConfig.Enable fc
  && negb (focus.isIgnoredByFilePatterns (ChangeInfo.Filepath change)
                                         (focus.IgnorePatterns cp))
  && existsb (fun pattern => MatchString pattern (ChangeInfo.Filepath change))
             (focus.FilePatterns cp)
  && ((config.FocusConfig.AddFiles fc && String.eqb action "add")
      || (config.FocusConfig.DeleteFiles fc && String.eqb action "delete")
      || (config.FocusConfig.ModifyFiles fc && String.eqb action "modify"
          && (0 <? unignoredLines (focus.IgnorePatterns cp) change)%Z)).

(** The focus reason for a change that is a focus change. *)
Definition focusReason (cfg : config.Config.t) (cp : focus.CompiledPatterns)
    (change : ChangeInfo.t) : string :=
  let fc := config.Config.Focus cfg in
  let action := ChangeInfo.Action change in
  if config.FocusConfig.AddFiles fc && String.eqb action "add"
  then "New file"
  else if config.FocusConfig.DeleteFiles fc && String.eqb action "delete"
  then "Deleted file"
  else focus.modifyReason (unignoredLines (focus.IgnorePatterns cp) change).

(** A reference is a branch, local or remote, whose tip is [hash]. *)
Definition branchAt (hash : string) (ref : gogit.Reference) : bool :=
  (IsBranch (gogit.RefName ref)
   || strings.HasPrefix (gogit.RefName ref) "refs/remotes/")
  && String.eqb (gogit.RefHash ref) hash.

(** A reference is a tag of [hash]: an annotated tag whose target is
    [hash], or a lightweight tag that points to [hash]. *)
Definition tagAt (repo : gogit.Repository) (hash : string)
    (ref : gogit.Reference) : bool :=
  IsTag (gogit.RefName ref)
  && match gogit.TagObject repo (gogit.RefHash ref) with
     | gogit.TagFound target => String.eqb target hash
     | gogit.TagNotFound => String.eqb (gogit.RefHash ref) hash
     | gogit.TagFailed _ => false
     end.

(** The lookup of the tag object of a tag reference fails with an error
    other than "object not found". *)
Definition tagLookupFails (repo : gogit.Repository) (ref : gogit.Reference)
    : bool :=
  IsTag (gogit.RefName ref)
  && match gogit.TagObject repo (gogit.RefHash ref) with
     | gogit.TagFailed _ => true
     | _ => false
     end.

End WithGoLib.

(** *** GetCommit *)

(** The focus statistics that belong to a list of focus records: the
    total, the records by action, and the two match kinds (an added or a
    deleted file counts as a pattern match, a modified file as a content
    match); the counter of deleted focus files is never incremented. *)
Definition focusStatsOf (ffs : list FocusFileInfo.t) : FocusStats.t :=
  let count action :=
    countZ (fun ff => String.eqb (FocusFileInfo.Action ff) action) ffs in
  FocusStats.mk (llen ffs) (count "add") (count "modify") 0
                (count "add" + count "delete")%Z (count "modify").

(** A change record after the focus loop: as before, or with the focus
    flag set and a reason. *)
Definition focusMarked (before after : ChangeInfo.t) : Prop :=
  after = before \/ exists reason, after = ChangeInfo.markFocus before reason.

(** *** The command line *)

(** [arg] is one of the arguments [parseArgs] reacts to. *)
Definition isOption (arg : string) : bool :=
  Contains ["-h"; "--help"; "-v"; "--version"; "--config"] arg.

End spec.

(** * Concrete inputs *)

Module examples.
Import types config.

(** [needle] occurs in [hay]. *)
Definition occursIn (needle hay : string) : bool :=
  match String.index 0 needle hay with
  | Some _ => true
  | None => false
  end.

(** A library instance for the concrete runs: a pattern is a literal text
    and matches where it occurs; the texts of the runs are lower-case and
    trimmed already; a time is its Unix value. *)
Definition literalLib : GoLib := {|
  Regexp := string;
  Compile := fun pattern => inr pattern;
  MatchString := fun re s => occursIn re s;
  ToLower := fun s => s;
  TrimSpace := fun s => s;
  GoTime := Z;
  Format := fun _ layout => layout;
  Unix := fun t => t;
  NewHash := fun s => s;
  IsBranch := fun name => strings.HasPrefix name "refs/heads/";
  IsTag := fun name => strings.HasPrefix name "refs/tags/";
  Short := fun name => name
|}.

(** The default configuration with the focus patterns of the README. *)
Definition readmeConfig : Config.t :=
  Config.mk "./" "" "" true (1024 * 1024) false false true "./analysis"
            false true "info" "config.json"
            (FocusConfig.mk true true true true [".yaml"; ".json"]
                            ["digest"]).

(** A modification of [f] that adds the lines "a", "" and "b". *)
Definition blankLinePatch : diff.FilePatch :=
  diff.mkFilePatch (Some (diff.mkFile "f")) (Some (diff.mkFile "f"))
    [diff.mkChunk ("a" ++ LF ++ LF ++ "b" ++ LF) diff.Add].

(** A modification of [f] that adds the line "++ x". *)
Definition plusPlusPatch : diff.FilePatch :=
  diff.mkFilePatch (Some (diff.mkFile "f")) (Some (diff.mkFile "f"))
    [diff.mkChunk ("++ x" ++ LF) diff.Add].

(** The modification of the README: one line removed, one line added. *)
Definition severityPatch : diff.FilePatch :=
  diff.mkFilePatch (Some (diff.mkFile "config.yaml"))
                   (Some (diff.mkFile "config.yaml"))
    [diff.mkChunk ("id: x" ++ LF) diff.Equal;
     diff.mkChunk ("  severity: critical" ++ LF) diff.Delete;
     diff.mkChunk ("  severity: high" ++ LF) diff.Add].

(** A modification, without content change, of a file whose name holds a
    line break. *)
Definition brokenPathPatch : diff.FilePatch :=
  diff.mkFilePatch (Some (diff.mkFile ("x" ++ LF ++ "+y")))
                   (Some (diff.mkFile ("x" ++ LF ++ "+y"))) [].

(** A file patch without file on either side. *)
Definition sidelessPatch : diff.FilePatch :=
  diff.mkFilePatch None None [diff.mkChunk ("a" ++ LF) diff.Add].

(** The file patch of a changed entry that is no file, a submodule:
    neither side holds a file and there are no chunks. *)
Definition submodulePatch : diff.FilePatch := diff.mkFilePatch None None [].

(** The compiled patterns of [readmeConfig] under [literalLib]. *)
Definition readmePatterns : @focus.CompiledPatterns literalLib :=
  @focus.mkCompiledPatterns literalLib [".yaml"; ".json"] ["digest"].

(** A text line of 101 bytes. *)
Definition longLine : string := string_of_list_ascii (repeat "x"%char 101).

(** A modified YAML file whose only added line is [longLine]. *)
Definition longLineChange : ChangeInfo.t :=
  ChangeInfo.mk "modify" "rules/a.yaml" "" "" 1 0 "" "yaml" 0 false
                [LineChange.mk "add" longLine] [] false "".

(** An added YAML file whose path holds the ignore pattern. *)
Definition ignoredChange : ChangeInfo.t :=
  ChangeInfo.mk "add" "digest/a.yaml" "" "" 1 0 "" "yaml" 0 false
                [LineChange.mk "add" "k: v"] [] false "".

Definition emptyTree : object.Tree := object.mkTree "t0" [] None.

#[local] Existing Instance literalLib.

Definition ann : object.Signature :=
  object.mkSignature "Ann" "ann@example.org" 1767787973%Z.

Definition hash1 : string := "18d7144648d7474cac9dee02b104bc78ce47fc3d".
Definition hash0 : string := "11d7a52653799333b5a2062393cef5a2f2b95b39".

(** The tree of an initial commit: the file [a.txt] with the three lines
    "l1", "l2" and "l3", each ended by a newline. *)
Definition threeLineFile : object.File :=
  object.mkFile "a.txt" 9
    (inr ("l1" ++ LF ++ "l2" ++ LF ++ "l3" ++ LF)).

Definition threeLineTree : object.Tree :=
  object.mkTree "ac7a748a48b495212a87d544d7a6132e4a9d058a" [threeLineFile]
                None.

(** An initial commit with that tree. *)
Definition initialCommit : object.Commit :=
  object.mkCommit hash0 ann ann "Add a.txt" 0 ([], None)
    (inr threeLineTree) (inl "object not found") (inl "no parent").

(** An initial commit whose file [a.txt] has no newline after its third
    line. *)
Definition unterminatedCommit : object.Commit :=
  object.mkCommit hash0 ann ann "Add a.txt" 0 ([], None)
    (inr (object.mkTree "ac7a748a48b495212a87d544d7a6132e4a9d058a"
            [object.mkFile "a.txt" 8 (inr ("l1" ++ LF ++ "l2" ++ LF ++ "l3"))]
            None))
    (inl "object not found") (inl "no parent").

(** The same file added by a commit that has a parent. *)
Definition addThreeLinePatch : diff.FilePatch :=
  diff.mkFilePatch None (Some (diff.mkFile "a.txt"))
    [diff.mkChunk ("l1" ++ LF ++ "l2" ++ LF ++ "l3" ++ LF) diff.Add].

(** The removal of the file [old.yaml], which had one line. *)
Definition deletePatch : diff.FilePatch :=
  diff.mkFilePatch (Some (diff.mkFile "old.yaml")) None
    [diff.mkChunk ("severity: critical" ++ LF) diff.Delete].

Definition renamePatch : diff.FilePatch :=
  diff.mkFilePatch (Some (diff.mkFile "a.json")) (Some (diff.mkFile "b.json"))
    [].

(** A commit with one parent and the given result of the tree
    comparison. *)
Definition childCommit (patch : error + list diff.FilePatch)
    : object.Commit :=
  object.mkCommit hash1 ann ann "Change severity" 1 ([hash0], None)
    (inr threeLineTree) (inr (inr emptyTree)) patch.

(** A commit that removes [old.yaml]. *)
Definition deleteCommit : object.Commit := childCommit (inr [deletePatch]).

(** A commit that modifies [config.yaml] and moves a submodule to another
    commit. *)
Definition submoduleCommit : object.Commit :=
  childCommit (inr [severityPatch; submodulePatch]).

(** A commit with one change of each action. *)
Definition mixedCommit : object.Commit :=
  childCommit (inr [addThreeLinePatch; deletePatch; severityPatch;
                    renamePatch]).

(** [readmeConfig] with a maximal diff size of ten bytes. *)
Definition smallLimitConfig : Config.t :=
  Config.mk "./" "" "" true 10 false false true "./analysis"
            false true "info" "config.json"
            (FocusConfig.mk true true true true [".yaml"; ".json"]
                            ["digest"]).

(** A repository whose latest commit is [commit], with the given result
    of [References()]. *)
Definition repositoryOf (commit : object.Commit)
    (refs : error + (list gogit.Reference * option error))
    : gogit.Repository :=
  gogit.mkRepository
    (inr (gogit.mkReference "refs/heads/main" (object.Hash commit)))
    (fun hash => if String.eqb hash (object.Hash commit) then inr commit
                 else inl "object not found")
    (inr ([commit], None))
    refs
    (fun _ => gogit.TagNotFound).

Definition mainRefs : error + (list gogit.Reference * option error) :=
  inr ([gogit.mkReference "refs/heads/main" hash1;
        gogit.mkReference "refs/tags/v1" hash1], None).

(** A world with one repository, in which [deleteCommit] is the latest
    commit. *)
Definition deleteWorld : git.World :=
  git.mkWorld (fun _ => inr (repositoryOf deleteCommit mainRefs))
              1767900000%Z.

(** A world in which the references cannot be listed and the tree
    comparison fails. *)
Definition failingWorld : git.World :=
  git.mkWorld
    (fun _ => inr (repositoryOf (childCommit (inl "patch failed"))
                                (inl "reference storage unreadable")))
    1767900000%Z.

(** The addition of the image [logo.png]; go-git gives no chunks for a
    file it finds binary. *)
Definition binaryPatch : diff.FilePatch :=
  diff.mkFilePatch None (Some (diff.mkFile "img/logo.png")) [].

(** A commit with an added text file, a removed file, a modified file, a
    renamed file and an added image. *)
Definition richCommit : object.Commit :=
  childCommit (inr [addThreeLinePatch; deletePatch; severityPatch;
                    renamePatch; binaryPatch]).

(** [readmeConfig] with a maximal diff size of 100 bytes and the full
    diff included. *)
Definition fullDiffConfig : Config.t :=
  Config.mk "./" "" "" true 100 true false true "./analysis"
            false true "info" "config.json"
            (FocusConfig.mk true true true true [".yaml"; ".json"]
                            ["digest"]).

(** A world with one repository, in which [richCommit] is the latest
    commit. *)
Definition richWorld : git.World :=
  git.mkWorld (fun _ => inr (repositoryOf richCommit mainRefs))
              1767900000%Z.

(** The zero value of [Config], which decoding the JSON object without
    fields leaves as it is. *)
Definition zeroConfig : Config.t :=
  Config.mk "" "" "" false 0 false false false "" false false "" ""
            (FocusConfig.mk false false false false [] []).

(** A directory with the one file warmy.json, which holds the JSON object
    without fields. *)
Definition oneConfigFile : Files :=
  mkFiles (fun path => String.eqb path "warmy.json")
          (fun path => if String.eqb path "warmy.json" then inr "{}"
                       else inl "no such file or directory")
          (fun data => if String.eqb data "{}" then inr zeroConfig
                       else inl "invalid character").

End examples.

(** * Properties *)

(** ** Strings *)

Section StringFacts.

Lemma prefix_String a p b s :
  String.prefix (String a p) (String b s) = Ascii.eqb a b && String.prefix p s.
Proof.
  simpl. destruct (ascii_dec a b) as [->|Hne].
  - now rewrite Ascii.eqb_refl.
  - apply Ascii.eqb_neq in Hne. now rewrite Hne.
Qed.

Lemma prefix_app_weaken p q s :
  String.prefix (p ++ q) s = true -> String.prefix p s = true.
Proof.
  revert s. induction p as [|a p IH]; intros s Hs.
  - now destruct s.
  - destruct s as [|b s]; [discriminate|].
    change ((String a p) ++ q) with (String a (p ++ q)) in Hs.
    rewrite prefix_String in *.
    apply andb_true_iff in Hs as [-> Hp]. simpl. now apply IH.
Qed.

Lemma Split_not_nil s sep : strings.Split s sep <> [].
Proof.
  destruct s as [|c s]; simpl; [discriminate|].
  destruct (Ascii.eqb c sep); [discriminate|].
  destruct (strings.Split s sep); discriminate.
Qed.

(** A piece without the separator, followed by the separator, is the first
    element of the split. *)
Lemma Split_app_sep l rest sep :
  spec.hasByte sep l = false ->
  strings.Split (l ++ String sep rest) sep = l :: strings.Split rest sep.
Proof.
  induction l as [|a l IH]; simpl; intros Hl.
  - now rewrite Ascii.eqb_refl.
  - apply orb_false_iff in Hl as [Ha Hl]. rewrite Ha, (IH Hl). reflexivity.
Qed.

(** No element of a split contains the separator. *)
Lemma Split_no_sep s sep :
  Forall (fun l => spec.hasByte sep l = false) (strings.Split s sep).
Proof.
  induction s as [|c s IH]; simpl.
  - constructor; [reflexivity|constructor].
  - destruct (Ascii.eqb c sep) eqn:Hc.
    + constructor; [reflexivity|exact IH].
    + destruct (strings.Split s sep) as [|hd tl].
      * constructor; [simpl; now rewrite Hc|constructor].
      * inversion IH; subst. constructor; [simpl; now rewrite Hc|assumption].
Qed.

Lemma len_String c s : len (String c s) = (len s + 1)%Z.
Proof. unfold len. simpl String.length. lia. Qed.

Lemma len_nonneg s : (0 <= len s)%Z.
Proof. unfold len. lia. Qed.

Lemma length_app_string s t :
  String.length (s ++ t) = (String.length s + String.length t)%nat.
Proof. induction s as [|c s IH]; simpl; [reflexivity|now rewrite IH]. Qed.

Lemma len_app s t : len (s ++ t) = (len s + len t)%Z.
Proof. unfold len. rewrite length_app_string. lia. Qed.

End StringFacts.

(** ** The diff parser *)

Section Parser.
Import types git.

Lemma header_not_empty : isDiffHeaderLine "" = false.
Proof. reflexivity. Qed.

(** The second test made on an added line never fails on a line that
    passed the header test. *)
Lemma plus_line_inner_check content :
  isDiffHeaderLine (String "+" content) = false ->
  strings.HasPrefix content "++ b/" = false.
Proof.
  unfold isDiffHeaderLine, strings.HasPrefix. intros Hh.
  repeat (apply orb_false_iff in Hh as [Hh ?]).
  destruct (String.prefix "++ b/" content) eqn:Hp; [|reflexivity].
  apply (prefix_app_weaken "++ " "b/") in Hp.
  match goal with
  | H : String.prefix "+++ " _ = false |- _ =>
      rewrite prefix_String, Hp in H; discriminate H
  end.
Qed.

Lemma minus_line_inner_check content :
  isDiffHeaderLine (String "-" content) = false ->
  strings.HasPrefix content "-- a/" = false.
Proof.
  unfold isDiffHeaderLine, strings.HasPrefix. intros Hh.
  repeat (apply orb_false_iff in Hh as [Hh ?]).
  destruct (String.prefix "-- a/" content) eqn:Hp; [|reflexivity].
  apply (prefix_app_weaken "-- " "a/") in Hp.
  match goal with
  | H : String.prefix "--- " _ = false |- _ =>
      rewrite prefix_String, Hp in H; discriminate H
  end.
Qed.

(** Once [skipHeader] is set, the loop without hunk headers appends the
    record of every signed line that is no header line. *)
Lemma plainStep_started lines : forall adds dels,
  fold_left plainStep lines (mkParseState true adds dels)
  = mkParseState true (adds ++ spec.signedLines "+" "add" lines)
                      (dels ++ spec.signedLines "-" "delete" lines).
Proof.
  induction lines as [|line lines IH]; intros adds dels.
  - simpl. now rewrite !app_nil_r.
  - change (fold_left plainStep (line :: lines) ?st)
      with (fold_left plainStep lines (plainStep st line)).
    unfold spec.signedLines at 1 2. simpl flat_map.
    fold (spec.signedLines "+" "add" lines).
    fold (spec.signedLines "-" "delete" lines).
    destruct line as [|c content].
    + simpl. apply IH.
    + unfold plainStep. rewrite len_String.
      pose proof (len_nonneg content) as Hlen.
      replace (len content + 1 =? 0)%Z with false by lia.
      replace (0 <? len content + 1)%Z with true by lia.
      destruct (isDiffHeaderLine (String c content)) eqn:Hh.
      * rewrite !andb_false_r. simpl. apply IH.
      * rewrite !andb_true_r. cbn [flag additions deletions andb].
        destruct (Ascii.eqb c "+") eqn:Hplus.
        -- apply Ascii.eqb_eq in Hplus. subst c.
           rewrite (plus_line_inner_check _ Hh). simpl negb. cbv iota.
           change (Ascii.eqb "+" "-") with false. cbv iota.
           rewrite IH. cbn [app]. now rewrite <- app_assoc.
        -- destruct (Ascii.eqb c "-") eqn:Hminus.
           ++ apply Ascii.eqb_eq in Hminus. subst c.
              rewrite (minus_line_inner_check _ Hh). simpl negb. cbv iota.
              rewrite IH. cbn [app]. now rewrite <- app_assoc.
           ++ rewrite IH. reflexivity.
Qed.

(** Until the first file-header line the loop without hunk headers
    collects nothing. *)
Lemma plainStep_waiting lines :
  fold_left plainStep lines (mkParseState false [] [])
  = if existsb isDiffHeaderLine lines
    then fold_left plainStep (spec.afterFirstHeader lines)
                   (mkParseState true [] [])
    else mkParseState false [] [].
Proof.
  induction lines as [|line lines IH]; [reflexivity|].
  change (fold_left plainStep (line :: lines) ?st)
    with (fold_left plainStep lines (plainStep st line)).
  simpl existsb. simpl spec.afterFirstHeader.
  destruct line as [|c content].
  - rewrite header_not_empty. simpl. apply IH.
  - unfold plainStep. rewrite len_String.
    pose proof (len_nonneg content) as Hlen.
    replace (len content + 1 =? 0)%Z with false by lia.
    destruct (isDiffHeaderLine (String c content)) eqn:Hh.
    + reflexivity.
    + simpl. apply IH.
Qed.

Lemma afterFirstHeader_none lines :
  existsb isDiffHeaderLine lines = false -> spec.afterFirstHeader lines = [].
Proof.
  induction lines as [|line lines IH]; simpl; [reflexivity|].
  intros Hl. apply orb_false_iff in Hl as [-> Hl]. now apply IH.
Qed.

(** The result of the loop without hunk headers, for a text given by its
    lines. *)
Lemma parseDiffContent_plain diffContent lines :
  strings.Split diffContent strings.nl = lines ->
  (3 <= List.length lines)%nat ->
  existsb (fun line => strings.HasPrefix line "@@") lines = false ->
  parseDiffContent diffContent
  = (spec.signedLines "+" "add" (spec.afterFirstHeader lines),
     spec.signedLines "-" "delete" (spec.afterFirstHeader lines)).
Proof.
  intros Hsplit Hlen Hhunk. unfold parseDiffContent.
  destruct (String.eqb diffContent "") eqn:He.
  - apply String.eqb_eq in He. subst diffContent lines. simpl in Hlen. lia.
  - rewrite Hsplit. unfold llen.
    replace (Z.of_nat (List.length lines) <? 3)%Z with false by lia.
    rewrite Hhunk, plainStep_waiting.
    destruct (existsb isDiffHeaderLine lines) eqn:Hex.
    + rewrite plainStep_started. reflexivity.
    + rewrite (afterFirstHeader_none _ Hex). reflexivity.
Qed.

End Parser.

Section ParserClaims.
Import types git.

(** C10. A text that splits into fewer than three lines at its newlines,
    the empty text included, parses to no additions and no deletions,
    whatever its lines begin with. *)
Theorem parseDiffContent_fewer_than_three_lines (diffContent : string) :
  (List.length (strings.Split diffContent strings.nl) < 3)%nat ->
  parseDiffContent diffContent = ([], []).
Proof.
  intros Hshort. unfold parseDiffContent.
  destruct (String.eqb diffContent ""); [reflexivity|].
  unfold llen.
  replace (Z.of_nat (List.length (strings.Split diffContent strings.nl)) <? 3)%Z
    with true by lia.
  reflexivity.
Qed.

Lemma parseDiffContent_fewer_than_three_lines_witness :
  (List.length (strings.Split ("+a" ++ LF ++ "-b") strings.nl) < 3)%nat
  /\ parseDiffContent ("+a" ++ LF ++ "-b") = ([], []).
Proof.
  split.
  - vm_compute. lia.
  - apply parseDiffContent_fewer_than_three_lines. vm_compute. lia.
Defined.

(** C7, as the spec states it, fails: three signed lines without any
    file-header line form a text in headerless mode, each line is
    non-empty and no header line, and yet nothing is collected. *)
Lemma headerless_without_header_collects_nothing :
  let diffContent := "+a" ++ LF ++ "-b" ++ LF ++ "+c" in
  let lines := strings.Split diffContent strings.nl in
  (3 <= List.length lines)%nat
  /\ existsb (fun line => strings.HasPrefix line "@@") lines = false
  /\ In "+a" lines /\ isDiffHeaderLine "+a" = false
  /\ In "-b" lines /\ isDiffHeaderLine "-b" = false
  /\ ~ In (LineChange.mk "add" "a") (fst (parseDiffContent diffContent))
  /\ ~ In (LineChange.mk "delete" "b") (snd (parseDiffContent diffContent)).
Proof.
  vm_compute. repeat split; try lia; try tauto.
Qed.

(** C7, amended. In headerless mode (at least three lines, none beginning
    with "@@") accumulation starts after the first file-header line: the
    additions (deletions) are the lines after that header line that begin
    with '+' ('-') and are no file-header line, in order, each without its
    first byte; lines before the first header line are dropped, and a text
    without any header line yields nothing. *)
Theorem parseDiffContent_headerless (diffContent : string) :
  let lines := strings.Split diffContent strings.nl in
  (3 <= List.length lines)%nat ->
  existsb (fun line => strings.HasPrefix line "@@") lines = false ->
  parseDiffContent diffContent
  = (spec.signedLines "+" "add" (spec.afterFirstHeader lines),
     spec.signedLines "-" "delete" (spec.afterFirstHeader lines)).
Proof.
  intros lines Hlen Hhunk.
  now apply parseDiffContent_plain.
Qed.

Lemma parseDiffContent_headerless_witness :
  let diffContent :=
    "+early" ++ LF ++ "--- a/f" ++ LF ++ "+a" ++ LF ++ "-b" ++ LF ++ " c" in
  let lines := strings.Split diffContent strings.nl in
  (3 <= List.length lines)%nat
  /\ existsb (fun line => strings.HasPrefix line "@@") lines = false
  /\ parseDiffContent diffContent
     = (spec.signedLines "+" "add" (spec.afterFirstHeader lines),
        spec.signedLines "-" "delete" (spec.afterFirstHeader lines))
  /\ spec.signedLines "+" "add" (spec.afterFirstHeader lines)
     = [LineChange.mk "add" "a"]
  /\ spec.signedLines "-" "delete" (spec.afterFirstHeader lines)
     = [LineChange.mk "delete" "b"].
Proof.
  intros diffContent lines.
  split; [vm_compute; lia|].
  split; [reflexivity|].
  split; [apply (parseDiffContent_headerless diffContent);
          [vm_compute; lia|reflexivity]|].
  split; reflexivity.
Defined.

End ParserClaims.

(** ** The diff synthesizer *)

Section Synthesizer.
Import types git.

Lemma append_assoc_string (a b c : string) : (a ++ b) ++ c = a ++ (b ++ c).
Proof. induction a as [|x a IH]; simpl; [reflexivity|now rewrite IH]. Qed.

Lemma append_nil_r (a : string) : a ++ "" = a.
Proof. induction a as [|x a IH]; simpl; [reflexivity|now rewrite IH]. Qed.

Lemma hasByte_app c (s t : string) :
  spec.hasByte c (s ++ t) = spec.hasByte c s || spec.hasByte c t.
Proof.
  induction s as [|a s IH]; simpl; [reflexivity|].
  now rewrite IH, orb_assoc.
Qed.

Lemma unlines_app (a b : list string) :
  spec.unlines (a ++ b) = spec.unlines a ++ spec.unlines b.
Proof.
  induction a as [|l a IH]; simpl; [reflexivity|].
  now rewrite IH, !append_assoc_string.
Qed.

(** Splitting a text of newline-ended single lines gives the lines back,
    followed by the split of what comes after. *)
Lemma Split_unlines lines rest :
  Forall (fun l => spec.singleLine l = true) lines ->
  strings.Split (spec.unlines lines ++ rest) strings.nl
  = (lines ++ strings.Split rest strings.nl)%list.
Proof.
  induction 1 as [|l lines Hl _ IH]; simpl; [reflexivity|].
  rewrite !append_assoc_string.
  change (String strings.nl (spec.unlines lines) ++ rest)
    with (String strings.nl (spec.unlines lines ++ rest)).
  rewrite Split_app_sep, IH; [reflexivity|].
  unfold spec.singleLine in Hl. now apply negb_true_iff in Hl.
Qed.

(** The inner loop over the lines of a chunk. *)
Lemma writeLines_unlines (sign : ascii) lines builder :
  writeLines (String sign "") lines builder
  = builder ++ spec.unlines (map (String sign) (filter spec.nonEmpty lines)).
Proof.
  unfold writeLines. revert builder.
  induction lines as [|l lines IH]; intros builder; simpl.
  - now rewrite append_nil_r.
  - unfold spec.nonEmpty at 1. destruct (negb (String.eqb l "")); simpl.
    + rewrite IH, append_assoc_string. f_equal. simpl.
      now rewrite append_assoc_string.
    + apply IH.
Qed.

(** The builder after the loop over the chunks. *)
Lemma chunks_builder chunks : forall st,
  cs_builder (fold_left chunkStep chunks st)
  = cs_builder st ++ spec.unlines (spec.writtenLines chunks).
Proof.
  induction chunks as [|c chunks IH]; intros st.
  - simpl. now rewrite append_nil_r.
  - change (fold_left chunkStep (c :: chunks) st)
      with (fold_left chunkStep chunks (chunkStep st c)).
    rewrite IH. unfold spec.writtenLines. simpl flat_map.
    fold (spec.writtenLines chunks).
    rewrite unlines_app, <- append_assoc_string. f_equal.
    unfold chunkStep.
    destruct (diff.Type_ c); cbn [cs_builder spec.unlines fold_right].
    + now rewrite append_nil_r.
    + apply writeLines_unlines.
    + apply writeLines_unlines.
Qed.

(** The two counters after the loop over the chunks. *)
Lemma chunks_counters chunks : forall st,
  let st' := fold_left chunkStep chunks st in
  cs_additions st'
  = (cs_additions st
     + llen (flat_map (fun c => chunkLines (diff.Content c))
                      (filter spec.isAdd chunks)))%Z
  /\ cs_deletions st'
     = (cs_deletions st
        + llen (flat_map (fun c => chunkLines (diff.Content c))
                         (filter spec.isDelete chunks)))%Z.
Proof.
  unfold llen.
  induction chunks as [|c chunks IH]; intros st; simpl.
  - split; lia.
  - destruct (IH (chunkStep st c)) as [Ha Hd]. rewrite Ha, Hd.
    unfold chunkStep, spec.isAdd, spec.isDelete, llen.
    destruct (diff.Type_ c); cbn [cs_additions cs_deletions flat_map];
      rewrite ?length_app; split; lia.
Qed.

Lemma diffHeader_unlines fp :
  diffHeader (diff.From fp) (diff.To fp) (pathOf (diff.From fp))
             (pathOf (diff.To fp))
  = spec.unlines (spec.headerLines fp).
Proof.
  unfold diffHeader, spec.headerLines.
  destruct (diff.From fp), (diff.To fp);
    try destruct (String.eqb _ _);
    cbn [spec.unlines fold_right];
    rewrite ?append_assoc_string, ?append_nil_r; reflexivity.
Qed.

(** The synthesized text, line by line. *)
Lemma synthesizeDiff_unlines fp :
  synthesizeDiff fp
  = spec.unlines (spec.headerLines fp ++ spec.writtenLines (diff.Chunks fp)).
Proof.
  unfold synthesizeDiff. rewrite chunks_builder. cbn [cs_builder].
  now rewrite diffHeader_unlines, unlines_app.
Qed.

End Synthesizer.

(** ** Synthesizer followed by parser *)

Section RoundTrip.
Import types git.
Local Open Scope list_scope.

Lemma written_plus_header l :
  isDiffHeaderLine (String "+" l) = strings.HasPrefix l "++ ".
Proof.
  unfold isDiffHeaderLine, strings.HasPrefix.
  rewrite !prefix_String. cbn. now rewrite !orb_false_r.
Qed.

Lemma written_minus_header l :
  isDiffHeaderLine (String "-" l) = strings.HasPrefix l "-- ".
Proof.
  unfold isDiffHeaderLine, strings.HasPrefix.
  rewrite !prefix_String. cbn. now rewrite !orb_false_r.
Qed.

Lemma signedLines_app sign kind (a b : list string) :
  spec.signedLines sign kind (a ++ b)
  = spec.signedLines sign kind a ++ spec.signedLines sign kind b.
Proof. apply flat_map_app. Qed.

Lemma signed_plus_of_added ls :
  spec.signedLines "+" "add" (map (String "+") (filter spec.nonEmpty ls))
  = map (LineChange.mk "add") (filter spec.keptAdded ls).
Proof.
  induction ls as [|l ls IH]; [reflexivity|].
  unfold spec.keptAdded at 1. cbn [filter].
  destruct (spec.nonEmpty l); cbn [andb map]; [|exact IH].
  change (spec.signedLines "+" "add" (String "+" l :: ?r))
    with ((if Ascii.eqb "+" "+" && negb (isDiffHeaderLine (String "+" l))
           then [LineChange.mk "add" l] else [])
          ++ spec.signedLines "+" "add" r).
  rewrite written_plus_header, IH.
  destruct (strings.HasPrefix l "++ "); reflexivity.
Qed.

Lemma signed_minus_of_deleted ls :
  spec.signedLines "-" "delete" (map (String "-") (filter spec.nonEmpty ls))
  = map (LineChange.mk "delete") (filter spec.keptDeleted ls).
Proof.
  induction ls as [|l ls IH]; [reflexivity|].
  unfold spec.keptDeleted at 1. cbn [filter].
  destruct (spec.nonEmpty l); cbn [andb map]; [|exact IH].
  change (spec.signedLines "-" "delete" (String "-" l :: ?r))
    with ((if Ascii.eqb "-" "-" && negb (isDiffHeaderLine (String "-" l))
           then [LineChange.mk "delete" l] else [])
          ++ spec.signedLines "-" "delete" r).
  rewrite written_minus_header, IH.
  destruct (strings.HasPrefix l "-- "); reflexivity.
Qed.

(** Lines written with one sign give no record of the other kind. *)
Lemma signed_other sign other kind ls :
  Ascii.eqb other sign = false ->
  spec.signedLines sign kind (map (String other) ls) = [].
Proof.
  intros Hne. induction ls as [|l ls IH]; [reflexivity|].
  cbn [map]. unfold spec.signedLines in *. cbn [flat_map].
  now rewrite Hne, IH.
Qed.

Lemma signed_written chunks :
  spec.signedLines "+" "add" (spec.writtenLines chunks)
  = map (LineChange.mk "add")
        (filter spec.keptAdded
           (flat_map (fun c => chunkLines (diff.Content c))
                     (filter spec.isAdd chunks)))
  /\ spec.signedLines "-" "delete" (spec.writtenLines chunks)
     = map (LineChange.mk "delete")
           (filter spec.keptDeleted
              (flat_map (fun c => chunkLines (diff.Content c))
                        (filter spec.isDelete chunks))).
Proof.
  induction chunks as [|c chunks [IHa IHd]]; [split; reflexivity|].
  unfold spec.writtenLines. cbn [flat_map]. fold (spec.writtenLines chunks).
  rewrite !signedLines_app, IHa, IHd.
  unfold spec.isAdd, spec.isDelete. cbn [filter].
  destruct (diff.Type_ c); cbn [flat_map].
  - split; reflexivity.
  - rewrite signed_plus_of_added, (signed_other "-" "+") by reflexivity.
    rewrite filter_app, map_app. split; reflexivity.
  - rewrite signed_minus_of_deleted, (signed_other "+" "-") by reflexivity.
    rewrite filter_app, map_app. split; reflexivity.
Qed.


Lemma Forall_removelast {A} (P : A -> Prop) (l : list A) :
  Forall P l -> Forall P (removelast l).
Proof.
  induction 1 as [|x l Hx Hl IH]; [constructor|].
  simpl. destruct l; [constructor|]. constructor; assumption.
Qed.

(** The lines of a chunk hold no line break. *)
Lemma chunkLines_single content :
  Forall (fun l => spec.singleLine l = true) (chunkLines content).
Proof.
  assert (Hs : Forall (fun l => spec.singleLine l = true)
                      (strings.Split content strings.nl)).
  { eapply Forall_impl; [|apply Split_no_sep].
    intros l Hl. unfold spec.singleLine. now rewrite Hl. }
  unfold chunkLines.
  destruct ((0 <? llen _)%Z && _); [now apply Forall_removelast|exact Hs].
Qed.

Lemma writtenLines_single chunks :
  Forall (fun l => spec.singleLine l = true) (spec.writtenLines chunks).
Proof.
  assert (Hsign : forall (sign : ascii) ls,
             Ascii.eqb sign strings.nl = false ->
             Forall (fun l => spec.singleLine l = true) ls ->
             Forall (fun l => spec.singleLine l = true)
                    (map (String sign) (filter spec.nonEmpty ls))).
  { intros sign ls Hsign Hls. apply Forall_forall. intros x Hx.
    apply in_map_iff in Hx as (l & <- & Hl). apply filter_In in Hl as [Hl _].
    rewrite Forall_forall in Hls. specialize (Hls l Hl).
    unfold spec.singleLine in *. simpl. now rewrite Hsign. }
  induction chunks as [|c chunks IH]; [constructor|].
  unfold spec.writtenLines. cbn [flat_map]. fold (spec.writtenLines chunks).
  apply Forall_app. split; [|exact IH].
  destruct (diff.Type_ c).
  - constructor.
  - apply Hsign; [reflexivity|apply chunkLines_single].
  - apply Hsign; [reflexivity|apply chunkLines_single].
Qed.

Lemma singleLine_app (s t : string) :
  spec.singleLine (s ++ t)%string = spec.singleLine s && spec.singleLine t.
Proof. unfold spec.singleLine. now rewrite hasByte_app, negb_orb. Qed.

Lemma headerLines_single fp :
  spec.singleLine (pathOf (diff.From fp)) = true ->
  spec.singleLine (pathOf (diff.To fp)) = true ->
  Forall (fun l => spec.singleLine l = true) (spec.headerLines fp).
Proof.
  intros Hfrom Hto. unfold spec.headerLines.
  destruct (diff.From fp), (diff.To fp);
    try destruct (String.eqb _ _);
    repeat constructor;
    rewrite ?singleLine_app, ?Hfrom, ?Hto; reflexivity.
Qed.

Lemma writtenLines_no_hunk chunks :
  existsb (fun line => strings.HasPrefix line "@@") (spec.writtenLines chunks)
  = false.
Proof.
  assert (Hsign : forall (sign : ascii) ls,
             Ascii.eqb "@" sign = false ->
             existsb (fun line => strings.HasPrefix line "@@")
                     (map (String sign) ls) = false).
  { intros sign ls Hsign. induction ls as [|l ls IH]; [reflexivity|].
    cbn [map existsb]. unfold strings.HasPrefix at 1.
    now rewrite prefix_String, Hsign, IH. }
  induction chunks as [|c chunks IH]; [reflexivity|].
  unfold spec.writtenLines. cbn [flat_map]. fold (spec.writtenLines chunks).
  rewrite existsb_app, IH, orb_false_r.
  destruct (diff.Type_ c); [reflexivity| |]; now apply Hsign.
Qed.

Lemma headerLines_no_hunk fp :
  existsb (fun line => strings.HasPrefix line "@@") (spec.headerLines fp)
  = false.
Proof.
  unfold spec.headerLines.
  destruct (diff.From fp), (diff.To fp);
    try destruct (String.eqb _ _); reflexivity.
Qed.

(** The first header line starts the accumulation; the other header lines
    give no record. *)
Lemma headerLines_skipped fp rest :
  spec.hasSide fp = true ->
  (3 <= List.length (spec.headerLines fp))%nat
  /\ spec.signedLines "+" "add" (spec.afterFirstHeader (spec.headerLines fp ++ rest))
     = spec.signedLines "+" "add" rest
  /\ spec.signedLines "-" "delete"
       (spec.afterFirstHeader (spec.headerLines fp ++ rest))
     = spec.signedLines "-" "delete" rest.
Proof.
  unfold spec.hasSide, spec.headerLines.
  destruct (diff.From fp), (diff.To fp); try discriminate;
    try destruct (String.eqb _ _); intros _;
    (split; [simpl; lia|split; reflexivity]).
Qed.

(** What the parser recovers from a synthesized diff: the added lines that
    are not empty and do not begin with "++ ", and the deleted lines that
    are not empty and do not begin with "-- ". *)
Lemma parse_synthesized fp :
  spec.hasSide fp = true ->
  spec.singleLine (pathOf (diff.From fp)) = true ->
  spec.singleLine (pathOf (diff.To fp)) = true ->
  parseDiffContent (synthesizeDiff fp)
  = (map (LineChange.mk "add") (filter spec.keptAdded (spec.addedLines fp)),
     map (LineChange.mk "delete")
         (filter spec.keptDeleted (spec.deletedLines fp))).
Proof.
  intros Hside Hfrom Hto.
  destruct (headerLines_skipped fp (spec.writtenLines (diff.Chunks fp) ++ [""%string])
              Hside) as (Hlen & Hadd & Hdel).
  destruct (signed_written (diff.Chunks fp)) as [Ha Hd].
  rewrite parseDiffContent_plain
    with (lines := spec.headerLines fp
                   ++ spec.writtenLines (diff.Chunks fp) ++ [""%string]).
  - rewrite Hadd, Hdel, !signedLines_app, Ha, Hd.
    cbn [spec.signedLines flat_map]. now rewrite !app_nil_r.
  - rewrite synthesizeDiff_unlines, <- (append_nil_r (spec.unlines _)).
    rewrite Split_unlines, <- app_assoc; [reflexivity|].
    apply Forall_app. split;
      [now apply headerLines_single|apply writtenLines_single].
  - rewrite length_app. lia.
  - rewrite !existsb_app, headerLines_no_hunk, writtenLines_no_hunk.
    reflexivity.
Qed.

Lemma filter_all {A} (f : A -> bool) (l : list A) :
  Forall (fun x => f x = true) l -> filter f l = l.
Proof.
  induction 1 as [|x l Hx _ IH]; [reflexivity|].
  simpl. now rewrite Hx, IH.
Qed.

End RoundTrip.

Section RoundTripClaim.
Context `{GoLib}.
Import types git config.
Local Open Scope list_scope.

(** The diff text built by the loop body does not depend on the counters
    the loop carries along. *)
Lemma chunks_builder_synthesize fp stats :
  cs_builder
    (fold_left chunkStep (diff.Chunks fp)
       (mkChunkState 0 0 stats
          (diffHeader (diff.From fp) (diff.To fp) (pathOf (diff.From fp))
                      (pathOf (diff.To fp)))))
  = synthesizeDiff fp.
Proof. unfold synthesizeDiff. now rewrite !chunks_builder. Qed.

(** The record that one iteration of the loop over the file patches
    appends: its counters are the numbers of lines of the Add and of the
    Delete chunks, and its line lists, when they are filled, are the parse
    of the synthesized text. *)
Lemma patchStep_change cfg currentTree st fp :
  exists change,
    ps_changes (patchStep cfg currentTree st fp) = ps_changes st ++ [change]
    /\ ChangeInfo.Additions change = llen (spec.addedLines fp)
    /\ ChangeInfo.Deletions change = llen (spec.deletedLines fp)
    /\ (spec.hasSide fp = true ->
        Config.ParseDiff cfg = true -> ChangeInfo.IsBinary change = false ->
        ChangeInfo.DeletionsList change
        = snd (parseDiffContent (synthesizeDiff fp))
        /\ (diff.To fp <> None ->
            ChangeInfo.AdditionsList change
            = fst (parseDiffContent (synthesizeDiff fp)))).
Proof.
  unfold patchStep, spec.hasSide.
  destruct (diff.From fp) as [f|] eqn:HF, (diff.To fp) as [t|] eqn:HT.
  all: try destruct (negb (String.eqb _ _)).
  all: cbv zeta.
  all: match goal with
       | |- context [fold_left chunkStep _ ?s0] =>
           pose proof (chunks_counters (diff.Chunks fp) s0) as [Ha Hd];
           pose proof (chunks_builder_synthesize fp (cs_stats s0)) as Hb;
           rewrite HF, HT in Hb; cbn [cs_stats cs_additions cs_deletions] in *;
           set (cs := fold_left chunkStep (diff.Chunks fp) s0) in *
       end.
  all: rewrite ?Hb.
  all: try (destruct (IsLikelyBinaryFile _) eqn:Hbin).
  all: try (destruct (Config.ParseDiff cfg) eqn:Hparse).
  all: try (destruct (parseDiffContent (synthesizeDiff fp)) as [pa pd] eqn:Hp).
  all: try (destruct (_ >? _)%Z).
  all: eexists; split; [reflexivity|].
  all: cbn [ChangeInfo.Additions ChangeInfo.Deletions ChangeInfo.IsBinary
            ChangeInfo.DeletionsList ChangeInfo.AdditionsList fst snd].
  all: rewrite Ha, Hd; unfold spec.addedLines, spec.deletedLines.
  all: split; [reflexivity|split; [reflexivity|]].
  all: intros; try discriminate; try (split; [reflexivity|]); try congruence;
       try reflexivity.
Qed.


(** C1, as the spec states it, fails: the synthesizer writes no line for
    an empty text line, and the parser takes the written form "+++ x" of
    the added line "++ x" for a file-header line. In both file patches the
    parsed additions differ from the lines of the Add chunk. The last two
    parts show what a line break in a path and a patch without any file
    do: the parser then reads additions out of the header, or never
    starts. *)
Lemma roundtrip_loses_lines :
  (spec.addedLines examples.blankLinePatch = ["a"; ""; "b"]%string
   /\ fst (parseDiffContent (synthesizeDiff examples.blankLinePatch))
      = [LineChange.mk "add" "a"; LineChange.mk "add" "b"]
   /\ parseDiffContent (synthesizeDiff examples.blankLinePatch)
      <> (map (LineChange.mk "add") (spec.addedLines examples.blankLinePatch),
          map (LineChange.mk "delete")
              (spec.deletedLines examples.blankLinePatch)))
  /\ (spec.addedLines examples.plusPlusPatch = ["++ x"]%string
      /\ fst (parseDiffContent (synthesizeDiff examples.plusPlusPatch)) = []
      /\ parseDiffContent (synthesizeDiff examples.plusPlusPatch)
         <> (map (LineChange.mk "add")
                 (spec.addedLines examples.plusPlusPatch),
             map (LineChange.mk "delete")
                 (spec.deletedLines examples.plusPlusPatch)))
  /\ (spec.addedLines examples.brokenPathPatch = []
      /\ fst (parseDiffContent (synthesizeDiff examples.brokenPathPatch))
         <> [])
  /\ (spec.addedLines examples.sidelessPatch = ["a"]%string
      /\ fst (parseDiffContent (synthesizeDiff examples.sidelessPatch)) = []).
Proof.
  repeat split; try reflexivity; vm_compute; discriminate.
Qed.

(** C1, amended. For a file patch of the non-root path that names a file
    on at least one side, whose paths hold no line break, whose added lines
    are not empty and do not begin with "++ ", and whose deleted lines are
    not empty and do not begin with "-- ": parsing the synthesized diff
    text gives exactly the lines of the Add chunks and the lines of the
    Delete chunks, in order; the counters of the change record are the
    numbers of those lines; and the line lists of the record, when the
    loop fills them, are those lists. *)
Theorem synthesize_then_parse cfg currentTree st fp :
  spec.hasSide fp = true ->
  spec.singleLine (pathOf (diff.From fp)) = true ->
  spec.singleLine (pathOf (diff.To fp)) = true ->
  Forall (fun l => spec.keptAdded l = true) (spec.addedLines fp) ->
  Forall (fun l => spec.keptDeleted l = true) (spec.deletedLines fp) ->
  parseDiffContent (synthesizeDiff fp)
  = (map (LineChange.mk "add") (spec.addedLines fp),
     map (LineChange.mk "delete") (spec.deletedLines fp))
  /\ exists change,
       ps_changes (patchStep cfg currentTree st fp)
       = ps_changes st ++ [change]
       /\ ChangeInfo.Additions change = llen (spec.addedLines fp)
       /\ ChangeInfo.Deletions change = llen (spec.deletedLines fp)
       /\ (Config.ParseDiff cfg = true ->
           ChangeInfo.IsBinary change = false ->
           ChangeInfo.DeletionsList change
           = map (LineChange.mk "delete") (spec.deletedLines fp)
           /\ (diff.To fp <> None ->
               ChangeInfo.AdditionsList change
               = map (LineChange.mk "add") (spec.addedLines fp))).
Proof.
  intros Hside Hfrom Hto Hadd Hdel.
  pose proof (parse_synthesized fp Hside Hfrom Hto) as Hparse.
  rewrite (filter_all _ Hadd), (filter_all _ Hdel) in Hparse.
  split; [exact Hparse|].
  destruct (patchStep_change cfg currentTree st fp)
    as (change & Hch & Ha & Hd & Hlists).
  exists change.
  split; [exact Hch|]. split; [exact Ha|]. split; [exact Hd|].
  intros Hcfg Hbin. destruct (Hlists Hside Hcfg Hbin) as [Hdl Hal].
  split.
  - now rewrite Hdl, Hparse.
  - intros Hto'. now rewrite (Hal Hto'), Hparse.
Qed.

End RoundTripClaim.

Lemma synthesize_then_parse_witness :
  let fp := examples.severityPatch in
  spec.hasSide fp = true
  /\ spec.singleLine (git.pathOf (diff.From fp)) = true
  /\ spec.singleLine (git.pathOf (diff.To fp)) = true
  /\ Forall (fun l => spec.keptAdded l = true) (spec.addedLines fp)
  /\ Forall (fun l => spec.keptDeleted l = true) (spec.deletedLines fp)
  /\ git.parseDiffContent (git.synthesizeDiff fp)
     = ([types.LineChange.mk "add" "  severity: high"],
        [types.LineChange.mk "delete" "  severity: critical"]).
Proof.
  intros fp.
  assert (Hadd : Forall (fun l => spec.keptAdded l = true)
                        (spec.addedLines fp))
    by (repeat constructor).
  assert (Hdel : Forall (fun l => spec.keptDeleted l = true)
                        (spec.deletedLines fp))
    by (repeat constructor).
  split; [reflexivity|]. split; [reflexivity|]. split; [reflexivity|].
  split; [exact Hadd|]. split; [exact Hdel|].
  exact (proj1 (@synthesize_then_parse examples.literalLib
                  examples.readmeConfig examples.emptyTree
                  (git.mkPatchState [] types.StatsInfo.zero
                                    types.DiffSummary.zero "" 0)
                  fp eq_refl eq_refl eq_refl Hadd Hdel)).
Defined.

(** ** The focus classifier *)

Section Focus.
Context `{GoLib}.
Import types config focus.
Local Open Scope list_scope.

Lemma Contains_In slice item : Contains slice item = true <-> In item slice.
Proof.
  induction slice as [|s slice IH]; simpl.
  - split; [discriminate|tauto].
  - destruct (String.eqb s item) eqn:He.
    + apply String.eqb_eq in He. tauto.
    + apply String.eqb_neq in He. rewrite IH. split; [tauto|].
      intros [Hs|Hin]; [contradiction|assumption].
Qed.

Lemma NoDup_snoc {A} (l : list A) (x : A) :
  NoDup l -> ~ In x l -> NoDup (l ++ [x]).
Proof.
  induction 1 as [|y l Hy Hl IH]; simpl; intros Hx.
  - constructor; [tauto|constructor].
  - constructor.
    + rewrite in_app_iff. simpl. intros [Hin|[Heq|[]]]; [tauto|].
      subst. tauto.
    + apply IH. tauto.
Qed.

Lemma length_substring_0 n s :
  (n <= String.length s)%nat -> String.length (String.substring 0 n s) = n.
Proof.
  revert s. induction n as [|n IH]; intros s Hn.
  - now destruct s.
  - destruct s as [|c s]; simpl in *; [lia|]. rewrite IH; lia.
Qed.

(** A summary is the line itself when it has at most 100 bytes, and has
    124 bytes otherwise: the first 100 of the line and the marker. *)
Lemma TruncateString_100 s :
  ((len s <= 100)%Z /\ TruncateString s 100 = s)
  \/ ((100 < len s)%Z /\ len (TruncateString s 100) = 124%Z).
Proof.
  unfold TruncateString. destruct (len s <=? 100)%Z eqn:Hle.
  - left. split; [lia|reflexivity].
  - right. split; [lia|]. rewrite len_app. unfold len at 1.
    rewrite length_substring_0; [reflexivity|]. unfold len in Hle. lia.
Qed.

Lemma isIgnoredByFilePatterns_exists filepath patterns :
  isIgnoredByFilePatterns filepath patterns = true
  <-> exists pattern, In pattern patterns /\ MatchString pattern filepath = true.
Proof.
  induction patterns as [|p patterns IH]; simpl.
  - split; [discriminate|]. intros (? & [] & _).
  - destruct (MatchString p filepath) eqn:Hm.
    + split; [|reflexivity]. intros _. exists p. tauto.
    + rewrite IH. split.
      * intros (q & Hin & Hq). exists q. tauto.
      * intros (q & [Heq|Hin] & Hq); [congruence|]. exists q. tauto.
Qed.

Lemma scanLine_summaries ignore all lines : forall st,
  incl lines all ->
  spec.summariesOf all (fst st) ->
  spec.summariesOf all (fst (fold_left (scanLine ignore) lines st)).
Proof.
  induction lines as [|line lines IH]; intros [matched count] Hincl Hinv;
    [exact Hinv|].
  simpl fold_left. apply IH.
  - intros x Hx. apply Hincl. now right.
  - unfold scanLine.
    destruct (negb (isLineIgnored _ _)); [|exact Hinv].
    destruct ((0 <? len _)%Z && negb (Contains matched _)) eqn:Hnew;
      [|exact Hinv].
    apply andb_true_iff in Hnew as [_ Hnew]. apply negb_true_iff in Hnew.
    destruct Hinv as [Hnd Hall]. simpl fst in *. split.
    + apply NoDup_snoc; [assumption|].
      intros Hin. apply Contains_In in Hin. congruence.
    + apply Forall_app. split; [assumption|]. constructor; [|constructor].
      split.
      * destruct (TruncateString_100 (LineChange.Content line))
          as [[Hle ->]|[_ ->]]; lia.
      * exists line. split; [apply Hincl; now left|reflexivity].
Qed.

Lemma scanChange_summaries ignore change :
  spec.summariesOf (ChangeInfo.AdditionsList change
               ++ ChangeInfo.DeletionsList change)
              (fst (scanChange ignore change)).
Proof.
  unfold scanChange. apply scanLine_summaries.
  - apply incl_appr, incl_refl.
  - apply scanLine_summaries.
    + apply incl_appl, incl_refl.
    + split; constructor.
Qed.

(** C4, as the spec states it, fails: the summary of a line of 101 bytes
    is its first 100 bytes followed by the marker of 24 bytes. *)
Lemma match_line_longer_than_100 :
  match @CheckFocusChange examples.literalLib examples.readmeConfig
          (Some examples.readmePatterns) examples.longLineChange with
  | Some (_, (Some focusFile, true)) =>
      exists s, In s (FocusFileInfo.MatchLines focusFile)
                /\ String.length s = 124%nat
  | _ => False
  end.
Proof.
  vm_compute. eexists. split; [left; reflexivity|reflexivity].
Qed.

(** C4, amended. The match lines of a focus file hold no duplicate; each
    is the summary [TruncateString(content, 100)] of an added or deleted
    line: the line itself when it has at most 100 bytes, otherwise its
    first 100 bytes followed by the truncation marker, 124 bytes in all. *)
Theorem match_lines_distinct_and_bounded cfg compiledPatterns change
    change' focusFile :
  CheckFocusChange cfg compiledPatterns change
  = Some (change', (Some focusFile, true)) ->
  NoDup (FocusFileInfo.MatchLines focusFile)
  /\ Forall (fun s =>
               (len s <= 124)%Z
               /\ exists line,
                    In line (ChangeInfo.AdditionsList change
                             ++ ChangeInfo.DeletionsList change)
                    /\ s = TruncateString (LineChange.Content line) 100)
            (FocusFileInfo.MatchLines focusFile).
Proof.
  unfold CheckFocusChange. intros Hcheck.
  destruct (negb (FocusConfig.Enable _)); [discriminate|].
  destruct compiledPatterns as [cp|]; [|discriminate].
  destruct (isIgnoredByFilePatterns _ _); [discriminate|].
  destruct (negb (existsb _ _)); [discriminate|].
  destruct (FocusConfig.AddFiles _ && _).
  { injection Hcheck as _ <-. split; constructor. }
  destruct (FocusConfig.DeleteFiles _ && _).
  { injection Hcheck as _ <-. split; constructor. }
  destruct (FocusConfig.ModifyFiles _ && _); [|discriminate].
  pose proof (scanChange_summaries (IgnorePatterns cp) change) as Hinv.
  destruct (scanChange (IgnorePatterns cp) change) as [matched count].
  destruct (0 <? count)%Z; [|discriminate].
  injection Hcheck as _ <-. exact Hinv.
Qed.

(** C6. A change whose path matches at least one compiled ignore pattern
    is not a focus change: the call returns [(nil, false)] and leaves the
    record as it is, whatever the action, the lines and the flags of the
    configuration. *)
Theorem ignored_path_is_not_focus cfg cp change :
  (exists pattern,
      In pattern (IgnorePatterns cp)
      /\ MatchString pattern (ChangeInfo.Filepath change) = true) ->
  CheckFocusChange cfg (Some cp) change = Some (change, (None, false)).
Proof.
  intros Hmatch. apply isIgnoredByFilePatterns_exists in Hmatch.
  unfold CheckFocusChange.
  destruct (negb (FocusConfig.Enable _)); [reflexivity|].
  now rewrite Hmatch.
Qed.

End Focus.

Lemma match_lines_distinct_and_bounded_witness :
  exists change' focusFile,
    @focus.CheckFocusChange examples.literalLib examples.readmeConfig
      (Some examples.readmePatterns) examples.longLineChange
    = Some (change', (Some focusFile, true))
    /\ NoDup (types.FocusFileInfo.MatchLines focusFile)
    /\ Forall (fun s => (len s <= 124)%Z)
              (types.FocusFileInfo.MatchLines focusFile).
Proof.
  do 2 eexists. split; [vm_compute; reflexivity|].
  destruct (@match_lines_distinct_and_bounded examples.literalLib
              examples.readmeConfig (Some examples.readmePatterns)
              examples.longLineChange _ _ eq_refl) as [Hnd Hall].
  split; [exact Hnd|].
  eapply Forall_impl; [|exact Hall]. intros s [Hs _]. exact Hs.
Defined.

Lemma ignored_path_is_not_focus_witness :
  (exists pattern,
      In pattern (@focus.IgnorePatterns examples.literalLib
                    examples.readmePatterns)
      /\ @MatchString examples.literalLib pattern
           (types.ChangeInfo.Filepath examples.ignoredChange) = true)
  /\ @focus.CheckFocusChange examples.literalLib examples.readmeConfig
       (Some examples.readmePatterns) examples.ignoredChange
     = Some (examples.ignoredChange, (None, false)).
Proof.
  assert (Hex : exists pattern,
             In pattern (@focus.IgnorePatterns examples.literalLib
                           examples.readmePatterns)
             /\ @MatchString examples.literalLib pattern
                  (types.ChangeInfo.Filepath examples.ignoredChange) = true).
  { exists "digest"%string. split; [left; reflexivity|reflexivity]. }
  split; [exact Hex|].
  exact (@ignored_path_is_not_focus examples.literalLib
           examples.readmeConfig examples.readmePatterns
           examples.ignoredChange Hex).
Defined.

(** ** The change aggregator *)

Section Aggregator.
Context `{GoLib}.
Import types config git object.
Local Open Scope list_scope.
Local Open Scope Z_scope.

(** The loop over the chunks leaves the file counters alone. *)
Lemma chunks_keep_file_counters chunks : forall st,
  spec.actionSum (cs_stats (fold_left chunkStep chunks st))
  = spec.actionSum (cs_stats st).
Proof.
  induction chunks as [|c chunks IH]; intros st; [reflexivity|].
  simpl fold_left. rewrite IH. unfold chunkStep.
  destruct (diff.Type_ c); reflexivity.
Qed.

(** One iteration over a file patch with a file on some side appends one
    record and counts one action. *)
Lemma patchStep_counts cfg currentTree st fp :
  spec.hasSide fp = true ->
  llen (ps_changes (patchStep cfg currentTree st fp))
  = llen (ps_changes st) + 1
  /\ spec.actionSum (ps_stats (patchStep cfg currentTree st fp))
     = spec.actionSum (ps_stats st) + 1.
Proof.
  unfold patchStep, spec.hasSide.
  destruct (diff.From fp) as [f|], (diff.To fp) as [t|]; try discriminate.
  all: intros _.
  all: try destruct (negb (String.eqb _ _)).
  all: cbv zeta.
  all: match goal with
       | |- context [fold_left chunkStep ?cks ?s0] =>
           pose proof (chunks_keep_file_counters cks s0) as Hk;
           cbn [cs_stats] in Hk;
           set (cs := fold_left chunkStep cks s0) in *
       end.
  all: try (destruct (IsLikelyBinaryFile _)).
  all: try (destruct (Config.ParseDiff cfg)).
  all: try (destruct (parseDiffContent _)).
  all: try (destruct (_ >? _)).
  all: cbn [ps_changes ps_stats]; unfold llen; rewrite length_app.
  all: split; [simpl List.length; lia|].
  all: try change (spec.actionSum (StatsInfo.incBinaryFiles (cs_stats cs)))
         with (spec.actionSum (cs_stats cs)).
  all: rewrite Hk; unfold spec.actionSum; simpl; lia.
Qed.

Lemma patchLoop_counts cfg currentTree filePatches : forall st,
  Forall (fun fp => spec.hasSide fp = true) filePatches ->
  let st' := fold_left (patchStep cfg currentTree) filePatches st in
  llen (ps_changes st') = llen (ps_changes st) + llen filePatches
  /\ spec.actionSum (ps_stats st')
     = spec.actionSum (ps_stats st) + llen filePatches.
Proof.
  induction filePatches as [|fp fps IH]; intros st Hall.
  - simpl. unfold llen. simpl. lia.
  - inversion Hall as [|? ? Hfp Hfps]; subst.
    destruct (patchStep_counts cfg currentTree st fp Hfp) as [Hc Hs].
    destruct (IH (patchStep cfg currentTree st fp) Hfps) as [Hc' Hs'].
    simpl. rewrite Hc', Hs', Hc, Hs. unfold llen. simpl List.length. lia.
Qed.

(** One file of an initial commit appends one record and counts one
    added file. *)
Lemma rootFileStep_counts cfg st f :
  llen (rs_changes (rootFileStep cfg st f)) = llen (rs_changes st) + 1
  /\ spec.actionSum (rs_stats (rootFileStep cfg st f))
     = spec.actionSum (rs_stats st) + 1.
Proof.
  unfold rootFileStep.
  destruct (Contents f); cbv zeta;
    destruct (_ >? _); cbn [rs_changes rs_stats];
    unfold llen; rewrite length_app; (split; [simpl List.length; lia|]);
    unfold spec.actionSum; simpl; lia.
Qed.

Lemma rootLoop_counts cfg files : forall st,
  let st' := fold_left (rootFileStep cfg) files st in
  llen (rs_changes st') = llen (rs_changes st) + llen files
  /\ spec.actionSum (rs_stats st') = spec.actionSum (rs_stats st) + llen files.
Proof.
  induction files as [|f files IH]; intros st.
  - simpl. unfold llen. simpl. lia.
  - destruct (rootFileStep_counts cfg st f) as [Hc Hs].
    destruct (IH (rootFileStep cfg st f)) as [Hc' Hs'].
    simpl. rewrite Hc', Hs', Hc, Hs. unfold llen. simpl List.length. lia.
Qed.

(** Additivity where every file patch names a file. When
    [getCommitChanges] returns without error for a commit with N file
    changes (the files of the tree of an initial commit, the file patches
    of the tree comparison otherwise, each naming a file on at least one
    side), the change list has N records, [TotalFiles] is N, and
    [AddFiles + DeleteFiles + ModifyFiles + RenameFiles + CopyFiles] is
    N. *)
Theorem file_counters_add_up cfg commit changes stats diffSummary :
  getCommitChanges cfg commit = (changes, stats, diffSummary, None) ->
  (forall filePatches,
      Patch commit = inr filePatches ->
      Forall (fun fp => spec.hasSide fp = true) filePatches) ->
  llen changes = spec.fileChanges commit
  /\ StatsInfo.TotalFiles stats = spec.fileChanges commit
  /\ spec.actionSum stats = spec.fileChanges commit.
Proof.
  unfold getCommitChanges, spec.fileChanges. intros Hget Hsides.
  destruct (NumParents commit =? 0).
  - destruct (GetTree commit) as [err|tree]; [discriminate|].
    pose proof (rootLoop_counts cfg (Files tree)
                  (mkRootState [] StatsInfo.zero
                     (DiffSummary.mk 0 false (Config.MaxDiffSize cfg) "")
                     0 0)) as [Hc Hs].
    cbn [rs_changes rs_stats] in Hc, Hs.
    destruct (FilesErr tree); [discriminate|].
    injection Hget as <- <- _.
    rewrite Hc. split; [reflexivity|]. split; [reflexivity|].
    change (spec.actionSum (StatsInfo.setTotalFiles ?s ?n))
      with (spec.actionSum s).
    rewrite Hs. reflexivity.
  - destruct (Parent0Tree commit) as [err|[err|parentTree]];
      [discriminate|discriminate|].
    destruct (GetTree commit) as [err|currentTree]; [discriminate|].
    destruct (Patch commit) as [err|filePatches]; [discriminate|].
    pose proof (patchLoop_counts cfg currentTree
                  (mkPatchState [] StatsInfo.zero
                     (DiffSummary.mk 0 false (Config.MaxDiffSize cfg) "")
                     "" 0)
                  (Hsides _ eq_refl)) as [Hc Hs].
    cbn [ps_changes ps_stats] in Hc, Hs.
    injection Hget as <- <- _.
    rewrite Hc. split; [reflexivity|]. split; [reflexivity|].
    change (spec.actionSum (StatsInfo.setTotalFiles ?s ?n))
      with (spec.actionSum s).
    rewrite Hs. reflexivity.
Qed.


(** *** Oversize diffs *)

(** The path for a file present in the new tree does what the spec says:
    the stored text is the placeholder, the flag is set, the counters are
    those of the chunks. *)
Lemma patchStep_truncates cfg currentTree st fp t :
  diff.To fp = Some t ->
  len (synthesizeDiff fp) > Config.MaxDiffSize cfg ->
  exists change,
    ps_changes (patchStep cfg currentTree st fp) = ps_changes st ++ [change]
    /\ ChangeInfo.DiffContent change
       = truncatedPlaceholder (len (synthesizeDiff fp))
    /\ DiffSummary.DiffTooLarge
         (ps_diffSummary (patchStep cfg currentTree st fp)) = true
    /\ ChangeInfo.Additions change = llen (spec.addedLines fp)
    /\ ChangeInfo.Deletions change = llen (spec.deletedLines fp).
Proof.
  intros HT Hbig. unfold patchStep.
  destruct (diff.From fp) as [f|] eqn:HF; rewrite HT.
  all: try destruct (negb (String.eqb _ _)).
  all: cbv zeta.
  all: match goal with
       | |- context [fold_left chunkStep _ ?s0] =>
           pose proof (chunks_counters (diff.Chunks fp) s0) as [Ha Hd];
           pose proof (chunks_builder_synthesize fp (cs_stats s0)) as Hb;
           rewrite HF, HT in Hb; cbn [cs_stats cs_additions cs_deletions] in *;
           set (cs := fold_left chunkStep (diff.Chunks fp) s0) in *
       end.
  all: rewrite ?Hb.
  all: destruct (IsLikelyBinaryFile _).
  all: try (destruct (Config.ParseDiff cfg)).
  all: try (destruct (parseDiffContent (synthesizeDiff fp))).
  all: replace (len (synthesizeDiff fp) >? Config.MaxDiffSize cfg) with true
         by lia.
  all: eexists; split; [reflexivity|].
  all: cbn [ChangeInfo.Additions ChangeInfo.Deletions ChangeInfo.DiffContent
            ps_diffSummary DiffSummary.DiffTooLarge
            DiffSummary.setDiffTooLarge].
  all: rewrite Ha, Hd; repeat split; reflexivity.
Qed.

(** The path for a removed file has no size test: the text is stored in
    full and the summary is left as it is. *)
Lemma patchStep_removed_keeps_text cfg currentTree st fp f :
  diff.From fp = Some f ->
  diff.To fp = None ->
  exists change,
    ps_changes (patchStep cfg currentTree st fp) = ps_changes st ++ [change]
    /\ ChangeInfo.DiffContent change = synthesizeDiff fp
    /\ ps_diffSummary (patchStep cfg currentTree st fp) = ps_diffSummary st.
Proof.
  intros HF HT. unfold patchStep. rewrite HF, HT. cbv zeta.
  match goal with
  | |- context [fold_left chunkStep _ ?s0] =>
      pose proof (chunks_builder_synthesize fp (cs_stats s0)) as Hb;
      rewrite HF, HT in Hb; cbn [cs_stats] in Hb;
      set (cs := fold_left chunkStep (diff.Chunks fp) s0) in *
  end.
  rewrite ?Hb.
  destruct (IsLikelyBinaryFile _); try destruct (Config.ParseDiff cfg);
    eexists; (split; [reflexivity|]); split; reflexivity.
Qed.

(** The record of a file of an initial commit, whatever the limit: the
    text stored is the full text. *)
Lemma rootFileStep_stores_full_text cfg st f content :
  Contents f = inr content ->
  exists change,
    rs_changes (rootFileStep cfg st f) = rs_changes st ++ [change]
    /\ ChangeInfo.DiffContent change
       = ("+++ b/" ++ Name f ++ LF ++ "@@ -0,0 +1,"
          ++ fmt_d (llen (strings.Split content strings.nl))
          ++ " @@" ++ LF ++ content)%string
    /\ ChangeInfo.Additions change = llen (strings.Split content strings.nl).
Proof.
  intros Hc. unfold rootFileStep. rewrite Hc. cbv zeta.
  destruct (Config.ParseDiff cfg && _); destruct (_ >? _);
    eexists; (split; [reflexivity|]); split; reflexivity.
Qed.

(** The line count of an initial commit: a file of [n] lines, each ended
    by a newline, is counted as [n + 1] additions. *)
Lemma rootFileStep_counts_one_more cfg st f lines :
  Forall (fun l => spec.singleLine l = true) lines ->
  Contents f = inr (spec.unlines lines) ->
  exists change,
    rs_changes (rootFileStep cfg st f) = rs_changes st ++ [change]
    /\ ChangeInfo.Additions change = llen lines + 1.
Proof.
  intros Hlines Hc.
  destruct (rootFileStep_stores_full_text cfg st f Hc)
    as (change & Hch & _ & Hadd).
  exists change. split; [exact Hch|]. rewrite Hadd.
  rewrite <- (append_nil_r (spec.unlines lines)), Split_unlines by assumption.
  unfold llen. rewrite length_app. simpl List.length. lia.
Qed.

End Aggregator.

Section AggregatorRuns.
Import types config git object.
Local Open Scope list_scope.
Local Open Scope Z_scope.
#[local] Existing Instance examples.literalLib.

Lemma file_counters_add_up_witness :
  (forall filePatches,
      Patch examples.mixedCommit = inr filePatches ->
      Forall (fun fp => spec.hasSide fp = true) filePatches)
  /\ spec.fileChanges examples.mixedCommit = 4
  /\ exists changes stats diffSummary,
       getCommitChanges examples.readmeConfig examples.mixedCommit
       = (changes, stats, diffSummary, None)
       /\ llen changes = spec.fileChanges examples.mixedCommit
       /\ StatsInfo.TotalFiles stats = spec.fileChanges examples.mixedCommit
       /\ spec.actionSum stats = spec.fileChanges examples.mixedCommit.
Proof.
  assert (Hsides : forall filePatches,
             Patch examples.mixedCommit = inr filePatches ->
             Forall (fun fp => spec.hasSide fp = true) filePatches).
  { intros fps Heq. injection Heq as <-. repeat constructor. }
  split; [exact Hsides|]. split; [reflexivity|].
  do 3 eexists. split; [vm_compute; reflexivity|].
  exact (@file_counters_add_up examples.literalLib examples.readmeConfig
           examples.mixedCommit _ _ _ eq_refl Hsides).
Defined.

(** C3 fails on the code in two places. For the file of an initial commit
    whose diff text (37 bytes) exceeds the limit (10 bytes) the flag is
    set, but the record in the change list keeps the full text: it was
    appended before the placeholder was assigned. For a removed file whose
    diff text (107 bytes) exceeds the limit there is no size test: the
    text is kept and the flag stays unset. *)
Theorem oversize_diff_kept_in_full :
  (exists change stats diffSummary,
      getCommitChanges examples.smallLimitConfig examples.initialCommit
      = ([change], stats, diffSummary, None)
      /\ len (ChangeInfo.DiffContent change)
         > Config.MaxDiffSize examples.smallLimitConfig
      /\ ChangeInfo.DiffContent change
         <> truncatedPlaceholder (len (ChangeInfo.DiffContent change))
      /\ DiffSummary.DiffTooLarge diffSummary = true)
  /\ (exists change stats diffSummary,
        getCommitChanges examples.smallLimitConfig examples.deleteCommit
        = ([change], stats, diffSummary, None)
        /\ ChangeInfo.DiffContent change
           = synthesizeDiff examples.deletePatch
        /\ len (ChangeInfo.DiffContent change)
           > Config.MaxDiffSize examples.smallLimitConfig
        /\ DiffSummary.DiffTooLarge diffSummary = false).
Proof.
  split.
  - do 3 eexists. split; [vm_compute; reflexivity|].
    split; [reflexivity|]. split; [discriminate|reflexivity].
  - do 3 eexists. split; [vm_compute; reflexivity|].
    split; [reflexivity|]. split; reflexivity.
Qed.

(** C5 fails on the code: for a commit whose tree comparison gives two
    file patches, a modification of [config.yaml] and the patch of a
    changed submodule, which has no file on either side, the change list
    has two records and [TotalFiles] is 2, but the per-action counters sum
    to 1. The loop has a branch for an added, a deleted and a modified or
    renamed file and none for a patch without files: its record is
    appended with the empty action and the empty path, and no counter is
    incremented for it. *)
Theorem sideless_patch_in_no_action_counter :
  exists changes stats diffSummary,
    getCommitChanges examples.readmeConfig examples.submoduleCommit
    = (changes, stats, diffSummary, None)
    /\ spec.fileChanges examples.submoduleCommit = 2
    /\ llen changes = 2
    /\ StatsInfo.TotalFiles stats = 2
    /\ spec.actionSum stats = 1
    /\ StatsInfo.ModifyFiles stats = 1
    /\ map ChangeInfo.Action changes = ["modify"; ""]%string
    /\ map ChangeInfo.Filepath changes = ["config.yaml"; ""]%string.
Proof.
  do 3 eexists. split; [vm_compute; reflexivity|].
  repeat split; reflexivity.
Qed.

(** C8 fails on the code: for an initial commit whose only file [a.txt]
    has the three lines "l1", "l2", "l3", each ended by a newline, the one
    change has [Additions = 4]; the other values are as the spec says. The
    same file added by a commit with a parent has [Additions = 3]: that
    path drops the empty string after the last newline. *)
Theorem initial_commit_counts_one_line_more :
  (exists change stats diffSummary,
      getCommitChanges examples.readmeConfig examples.initialCommit
      = ([change], stats, diffSummary, None)
      /\ ChangeInfo.Action change = "add"%string
      /\ ChangeInfo.Additions change = 4
      /\ ChangeInfo.Deletions change = 0
      /\ StatsInfo.AddFiles stats = 1
      /\ StatsInfo.TotalFiles stats = 1)
  /\ (exists change stats diffSummary,
        getCommitChanges examples.readmeConfig
          (examples.childCommit (inr [examples.addThreeLinePatch]))
        = ([change], stats, diffSummary, None)
        /\ ChangeInfo.Action change = "add"%string
        /\ ChangeInfo.Additions change = 3).
Proof.
  split; do 3 eexists; (split; [vm_compute; reflexivity|]);
    repeat split; reflexivity.
Qed.

(** Without a newline after the third line the count is three. *)
Lemma unterminated_file_counts_three :
  exists change stats diffSummary,
    getCommitChanges examples.readmeConfig examples.unterminatedCommit
    = ([change], stats, diffSummary, None)
    /\ ChangeInfo.Additions change = 3.
Proof.
  do 3 eexists. split; [vm_compute; reflexivity|reflexivity].
Qed.

End AggregatorRuns.

(** ** GetCommit *)

Section CommitReport.
Context `{GoLib}.
Import types config git object gogit.
Local Open Scope list_scope.
Local Open Scope Z_scope.

(** After [Init] has returned without error, either the focus feature is
    off or the patterns are compiled. *)
Lemma Init_ready cfg compiledPatterns compiled :
  focus.Init cfg compiledPatterns = (compiled, None) ->
  FocusConfig.Enable (Config.Focus cfg) = false
  \/ exists cp, compiled = Some cp.
Proof.
  unfold focus.Init. destruct (FocusConfig.Enable _); simpl.
  - destruct (focus.compilePatterns _); [discriminate|].
    intros Heq. injection Heq as <-. right. eauto.
  - now left.
Qed.

(** In that state a call of [CheckFocusChange] does not panic, and a
    positive answer comes with a focus record. *)
Lemma CheckFocusChange_returns cfg compiled change :
  FocusConfig.Enable (Config.Focus cfg) = false
  \/ (exists cp, compiled = Some cp) ->
  exists change' focusFile isFocus,
    focus.CheckFocusChange cfg compiled change
    = Some (change', (focusFile, isFocus))
    /\ ChangeInfo.Action change' = ChangeInfo.Action change
    /\ (isFocus = true -> exists ff, focusFile = Some ff).
Proof.
  intros Hready. unfold focus.CheckFocusChange.
  destruct (FocusConfig.Enable _) eqn:Hen; simpl negb; cbv iota.
  - destruct Hready as [Hoff|[cp ->]]; [discriminate|].
    repeat match goal with
           | |- context [if ?b then _ else _] => destruct b
           | |- context [let '(_, _) := ?p in _] => destruct p
           end;
      do 3 eexists; (split; [reflexivity|]);
      (split; [reflexivity|]); intros; try discriminate; eauto.
  - do 3 eexists. split; [reflexivity|]. split; [reflexivity|].
    discriminate.
Qed.

(** The loop over the changes does not panic, and never counts a deleted
    focus file. *)
Lemma focusLoop_returns cfg compiled changes : forall st,
  FocusConfig.Enable (Config.Focus cfg) = false
  \/ (exists cp, compiled = Some cp) ->
  exists st',
    focusLoop cfg compiled changes st = Some st'
    /\ FocusStats.DeleteFocusFiles (fs_focusStats st')
       = FocusStats.DeleteFocusFiles (fs_focusStats st).
Proof.
  induction changes as [|change changes IH]; intros st Hready.
  - exists st. split; reflexivity.
  - destruct (CheckFocusChange_returns cfg change Hready)
      as (change' & focusFile & isFocus & Hcheck & _ & Hff).
    simpl focusLoop. rewrite Hcheck. destruct isFocus.
    + destruct (Hff eq_refl) as [ff ->].
      destruct (IH (mkFocusState
                      (fs_changes st ++ [change'])
                      (fs_filesChanged st ++ [ChangeInfo.Filepath change])
                      (fs_focusFiles st ++ [ff])
                      (countFocus (fs_focusStats st)
                                  (ChangeInfo.Action change')))
                   Hready) as (st' & Hloop & Hdel).
      exists st'. split; [exact Hloop|]. rewrite Hdel.
      cbn [fs_focusStats]. unfold countFocus.
      repeat match goal with
             | |- context [if ?b then _ else _] => destruct b
             end; reflexivity.
    + destruct (IH (mkFocusState
                      (fs_changes st ++ [change'])
                      (fs_filesChanged st ++ [ChangeInfo.Filepath change])
                      (fs_focusFiles st) (fs_focusStats st))
                   Hready) as (st' & Hloop & Hdel).
      exists st'. split; [exact Hloop|exact Hdel].
Qed.

(** [GetCommit] returns a report once the repository opens, the commit
    resolves, its tree is read and its hash has the eight bytes of the
    short hash. The report holds the substitutes for what failed, and its
    counter of deleted focus files is zero. *)
Lemma GetCommit_returns w cfg compiledPatterns repoPath commitHash repo
    commit tree :
  PlainOpen w repoPath = inr repo ->
  resolveCommit repo commitHash = inr commit ->
  GetTree commit = inr tree ->
  8 <= len (Hash commit) ->
  exists info,
    GetCommit w cfg compiledPatterns repoPath commitHash = Ok info
    /\ (snd (getBranchesContainingCommit repo (Hash commit)) <> None ->
        CommitInfo.Branches info = [])
    /\ (snd (getTagsContainingCommit repo (Hash commit)) <> None ->
        CommitInfo.Tags info = [])
    /\ (snd (getCommitChanges cfg commit) <> None ->
        CommitInfo.Changes info = []
        /\ CommitInfo.Stats info = StatsInfo.zero
        /\ CommitInfo.DiffSummary info = DiffSummary.zero)
    /\ FocusStats.DeleteFocusFiles (CommitInfo.FocusStats info) = 0.
Proof.
  intros Hopen Hresolve Htree Hhash. unfold GetCommit.
  rewrite Hopen, Hresolve, Htree.
  destruct (SplitCommitMessage (TrimSpace (Message commit)))
    as [subject description].
  destruct (getBranchesContainingCommit repo (Hash commit))
    as [branches berr].
  destruct (getTagsContainingCommit repo (Hash commit)) as [tags terr].
  destruct (getCommitChanges cfg commit) as [[[changes stats] ds] cerr].
  replace (len (Hash commit) <? 8) with false by lia.
  set (picked := match cerr with
                 | Some _ => ([], StatsInfo.zero, DiffSummary.zero)
                 | None => (changes, stats, ds)
                 end).
  assert (Hpicked : (let '(_, _, _, e) := (changes, stats, ds, cerr) in
                     match e with
                     | Some _ => ([], StatsInfo.zero, DiffSummary.zero)
                     | None => (changes, stats, ds)
                     end) = picked) by (destruct cerr; reflexivity).
  assert (Hloop : exists st,
             match focus.Init cfg compiledPatterns with
             | (_, Some _) =>
                 Some (mkFocusState (fst (fst picked)) [] [] FocusStats.zero)
             | (compiled, None) =>
                 focusLoop cfg compiled (fst (fst picked))
                           (mkFocusState [] [] [] FocusStats.zero)
             end = Some st
             /\ (cerr <> None -> fs_changes st = [])
             /\ FocusStats.DeleteFocusFiles (fs_focusStats st) = 0).
  { destruct (focus.Init cfg compiledPatterns) as [compiled [ierr|]] eqn:Hinit.
    - eexists. split; [reflexivity|]. split; [|reflexivity].
      intros Hc. destruct cerr; [reflexivity|congruence].
    - destruct (focusLoop_returns cfg (fst (fst picked))
                  (mkFocusState [] [] [] FocusStats.zero)
                  (Init_ready _ _ Hinit)) as (st & Hst & Hdel).
      exists st. split; [exact Hst|]. split; [|exact Hdel].
      intros Hc. destruct cerr; [|congruence]. simpl in Hst.
      now injection Hst as <-. }
  destruct Hloop as (st & Hst & Hchanges & Hdel).
  destruct picked as [[pchanges pstats] pds] eqn:Hp.
  cbn [fst] in Hst.
  destruct cerr as [e|]; cbn [snd] in *.
  all: destruct berr, terr; rewrite Hst; eexists; (split; [reflexivity|]).
  all: cbn [CommitInfo.Branches CommitInfo.Tags CommitInfo.Changes
            CommitInfo.Stats CommitInfo.DiffSummary CommitInfo.FocusStats].
  all: subst picked; injection Hp as <- <- <-.
  all: repeat split; try reflexivity; try congruence; try assumption.
  all: try (apply Hchanges; discriminate).
Qed.

(** C9. When the repository opens, the commit resolves and its tree is
    read: a failed branch lookup gives a report with no branches, a failed
    tag lookup a report with no tags, and an error of [getCommitChanges] a
    report with an empty change list, zero statistics and a zero diff
    summary; in each case [GetCommit] returns the report and no error. *)
Theorem lookup_failures_degrade w cfg compiledPatterns repoPath commitHash
    repo commit tree :
  PlainOpen w repoPath = inr repo ->
  resolveCommit repo commitHash = inr commit ->
  GetTree commit = inr tree ->
  8 <= len (Hash commit) ->
  exists info,
    GetCommit w cfg compiledPatterns repoPath commitHash = Ok info
    /\ (snd (getBranchesContainingCommit repo (Hash commit)) <> None ->
        CommitInfo.Branches info = [])
    /\ (snd (getTagsContainingCommit repo (Hash commit)) <> None ->
        CommitInfo.Tags info = [])
    /\ (snd (getCommitChanges cfg commit) <> None ->
        CommitInfo.Changes info = []
        /\ CommitInfo.Stats info = StatsInfo.zero
        /\ CommitInfo.DiffSummary info = DiffSummary.zero).
Proof.
  intros Hopen Hresolve Htree Hhash.
  destruct (GetCommit_returns w cfg compiledPatterns repoPath commitHash
              Hopen Hresolve Htree Hhash)
    as (info & Hinfo & Hb & Ht & Hc & _).
  exists info. repeat split; try assumption; now apply Hc.
Qed.

End CommitReport.

Section CommitReportRuns.
Import types config git object gogit.
Local Open Scope list_scope.
Local Open Scope Z_scope.
#[local] Existing Instance examples.literalLib.

Lemma lookup_failures_degrade_witness :
  let repo :=
    examples.repositoryOf (examples.childCommit (inl "patch failed"%string))
                          (inl "reference storage unreadable"%string) in
  let commit := examples.childCommit (inl "patch failed"%string) in
  PlainOpen examples.failingWorld "./" = inr repo
  /\ resolveCommit repo "" = inr commit
  /\ GetTree commit = inr examples.threeLineTree
  /\ 8 <= len (Hash commit)
  /\ snd (getBranchesContainingCommit repo (Hash commit)) <> None
  /\ snd (getTagsContainingCommit repo (Hash commit)) <> None
  /\ snd (getCommitChanges examples.readmeConfig commit) <> None
  /\ exists info,
       GetCommit examples.failingWorld examples.readmeConfig None "./" ""
       = Ok info
       /\ CommitInfo.Branches info = []
       /\ CommitInfo.Tags info = []
       /\ CommitInfo.Changes info = []
       /\ CommitInfo.Stats info = StatsInfo.zero
       /\ CommitInfo.DiffSummary info = DiffSummary.zero.
Proof.
  intros repo commit.
  assert (Hlen : 8 <= len (Hash commit)) by (vm_compute; discriminate).
  assert (Hb : snd (getBranchesContainingCommit repo (Hash commit)) <> None)
    by (vm_compute; discriminate).
  assert (Ht : snd (getTagsContainingCommit repo (Hash commit)) <> None)
    by (vm_compute; discriminate).
  assert (Hc : snd (getCommitChanges examples.readmeConfig commit) <> None)
    by (vm_compute; discriminate).
  split; [reflexivity|]. split; [reflexivity|]. split; [reflexivity|].
  split; [exact Hlen|]. split; [exact Hb|]. split; [exact Ht|].
  split; [exact Hc|].
  destruct (@lookup_failures_degrade examples.literalLib
              examples.failingWorld examples.readmeConfig None "./" ""
              repo commit examples.threeLineTree
              eq_refl eq_refl eq_refl Hlen)
    as (info & Hinfo & Hbranches & Htags & Hchanges).
  exists info. split; [exact Hinfo|].
  split; [exact (Hbranches Hb)|]. split; [exact (Htags Ht)|].
  exact (Hchanges Hc).
Defined.

(** C2 fails on the code: for a commit whose one change removes a focus
    file, [TotalFocusFiles] is 1 while the per-action focus counters sum
    to 0; the removal is counted in [MatchPatternFiles] only, and nothing
    ever increments [DeleteFocusFiles]. *)
Theorem deleted_focus_file_not_in_action_counters :
  exists info,
    GetCommit examples.deleteWorld examples.readmeConfig None "./" ""
    = Ok info
    /\ CommitInfo.FocusFiles info
       = [FocusFileInfo.mk "old.yaml" "delete" "Deleted file" 0 []]
    /\ FocusStats.TotalFocusFiles (CommitInfo.FocusStats info) = 1
    /\ spec.focusActionSum (CommitInfo.FocusStats info) = 0
    /\ FocusStats.MatchPatternFiles (CommitInfo.FocusStats info) = 1.
Proof.
  eexists. split; [vm_compute; reflexivity|].
  repeat split; reflexivity.
Qed.

End CommitReportRuns.

(** * Further properties *)

(** ** The diff parser: texts with hunk headers *)

Section ParserHunks.
Import types git.
Local Open Scope list_scope.

Lemma hunk_line_is_no_header line :
  strings.HasPrefix line "@@" = true -> isDiffHeaderLine line = false.
Proof.
  unfold strings.HasPrefix, isDiffHeaderLine.
  destruct line as [|c rest]; [discriminate|].
  rewrite !prefix_String. intros Hp.
  apply andb_true_iff in Hp as [Hc _]. apply Ascii.eqb_eq in Hc. subst c.
  reflexivity.
Qed.

Lemma hunk_line_is_unsigned sign kind line :
  strings.HasPrefix line "@@" = true ->
  Ascii.eqb "@" sign = false ->
  spec.signedLines sign kind [line] = [].
Proof.
  unfold strings.HasPrefix. destruct line as [|c rest]; [discriminate|].
  rewrite prefix_String. intros Hp Hs.
  apply andb_true_iff in Hp as [Hc _]. apply Ascii.eqb_eq in Hc. subst c.
  unfold spec.signedLines. cbn [flat_map]. now rewrite Hs.
Qed.

(** In a hunk, the loop for texts with hunk headers appends the record of
    every signed line that is no header line. *)
Lemma hunkStep_started lines : forall adds dels,
  fold_left hunkStep lines (mkParseState true adds dels)
  = mkParseState true (adds ++ spec.signedLines "+" "add" lines)
                      (dels ++ spec.signedLines "-" "delete" lines).
Proof.
  induction lines as [|line lines IH]; intros adds dels.
  - simpl. now rewrite !app_nil_r.
  - change (fold_left hunkStep (line :: lines) ?st)
      with (fold_left hunkStep lines (hunkStep st line)).
    change (line :: lines) with ([line] ++ lines).
    rewrite !signedLines_app, !app_assoc.
    destruct (strings.HasPrefix line "@@") eqn:Hhunk.
    + unfold hunkStep.
      rewrite (hunk_line_is_no_header _ Hhunk), Hhunk.
      rewrite !(hunk_line_is_unsigned _ _ _ Hhunk) by reflexivity.
      rewrite !app_nil_r. apply IH.
    + destruct line as [|c content].
      * simpl. rewrite !app_nil_r. apply IH.
      * unfold hunkStep. rewrite Hhunk, len_String.
        pose proof (len_nonneg content) as Hlen.
        replace (0 <? len content + 1)%Z with true by lia.
        unfold spec.signedLines. cbn [flat_map]. rewrite !app_nil_r.
        destruct (isDiffHeaderLine (String c content)) eqn:Hh.
        -- rewrite !andb_false_r, !app_nil_r. apply IH.
        -- rewrite !andb_true_r. cbn [flag additions deletions andb].
           destruct (Ascii.eqb c "+") eqn:Hplus.
           ++ apply Ascii.eqb_eq in Hplus. subst c.
              rewrite (plus_line_inner_check _ Hh). simpl negb. cbv iota.
              change (Ascii.eqb "+" "-") with false. cbv iota.
              rewrite app_nil_r. apply IH.
           ++ destruct (Ascii.eqb c "-") eqn:Hminus.
              ** apply Ascii.eqb_eq in Hminus. subst c.
                 rewrite (minus_line_inner_check _ Hh). simpl negb. cbv iota.
                 rewrite app_nil_r. apply IH.
              ** rewrite !app_nil_r. apply IH.
Qed.

(** Before the first hunk header nothing is collected. *)
Lemma hunkStep_waiting lines :
  fold_left hunkStep lines (mkParseState false [] [])
  = if existsb (fun line => strings.HasPrefix line "@@") lines
    then fold_left hunkStep (spec.afterFirstHunk lines)
                   (mkParseState true [] [])
    else mkParseState false [] [].
Proof.
  induction lines as [|line lines IH]; [reflexivity|].
  change (fold_left hunkStep (line :: lines) ?st)
    with (fold_left hunkStep lines (hunkStep st line)).
  simpl existsb. simpl spec.afterFirstHunk.
  destruct (strings.HasPrefix line "@@") eqn:Hhunk.
  - unfold hunkStep. rewrite (hunk_line_is_no_header _ Hhunk), Hhunk.
    reflexivity.
  - unfold hunkStep. rewrite Hhunk. simpl.
    destruct (isDiffHeaderLine line); apply IH.
Qed.

Lemma parseDiffContent_hunks diffContent lines :
  strings.Split diffContent strings.nl = lines ->
  (3 <= List.length lines)%nat ->
  existsb (fun line => strings.HasPrefix line "@@") lines = true ->
  parseDiffContent diffContent
  = (spec.signedLines "+" "add" (spec.afterFirstHunk lines),
     spec.signedLines "-" "delete" (spec.afterFirstHunk lines)).
Proof.
  intros Hsplit Hlen Hhunk. unfold parseDiffContent.
  destruct (String.eqb diffContent "") eqn:He.
  - apply String.eqb_eq in He. subst diffContent lines. simpl in Hlen. lia.
  - rewrite Hsplit. unfold llen.
    replace (Z.of_nat (List.length lines) <? 3)%Z with false by lia.
    rewrite Hhunk, hunkStep_waiting, Hhunk, hunkStep_started. reflexivity.
Qed.

(** X1. A text of at least three lines with a line that begins with "@@"
    is parsed in header-aware mode: the additions (deletions) are the
    lines after the first such line that begin with '+' ('-') and are no
    file-header line, in order, each without its first byte. Everything up
    to the first hunk header is dropped, later hunk headers and all other
    lines are skipped. *)
Theorem parseDiffContent_header_aware (diffContent : string) :
  let lines := strings.Split diffContent strings.nl in
  (3 <= List.length lines)%nat ->
  existsb (fun line => strings.HasPrefix line "@@") lines = true ->
  parseDiffContent diffContent
  = (spec.signedLines "+" "add" (spec.afterFirstHunk lines),
     spec.signedLines "-" "delete" (spec.afterFirstHunk lines)).
Proof.
  intros lines Hlen Hhunk. now apply parseDiffContent_hunks.
Qed.

Lemma parseDiffContent_header_aware_witness :
  let diffContent :=
    ("+early" ++ LF ++ "@@ -1,2 +1,2 @@" ++ LF ++ " ctx" ++ LF ++ "-old"
     ++ LF ++ "+new" ++ LF ++ "@@ -9 +9 @@" ++ LF ++ "+++ b/x" ++ LF
     ++ "+last")%string in
  let lines := strings.Split diffContent strings.nl in
  (3 <= List.length lines)%nat
  /\ existsb (fun line => strings.HasPrefix line "@@") lines = true
  /\ parseDiffContent diffContent
     = (spec.signedLines "+" "add" (spec.afterFirstHunk lines),
        spec.signedLines "-" "delete" (spec.afterFirstHunk lines))
  /\ spec.signedLines "+" "add" (spec.afterFirstHunk lines)
     = [LineChange.mk "add" "new"; LineChange.mk "add" "last"]
  /\ spec.signedLines "-" "delete" (spec.afterFirstHunk lines)
     = [LineChange.mk "delete" "old"].
Proof.
  intros diffContent lines.
  split; [vm_compute; lia|].
  split; [reflexivity|].
  split; [apply (parseDiffContent_header_aware diffContent);
          [vm_compute; lia|reflexivity]|].
  split; reflexivity.
Defined.

Lemma signedLines_In sign kind lines record :
  In record (spec.signedLines sign kind lines)
  <-> exists content,
        record = LineChange.mk kind content
        /\ In (String sign content) lines
        /\ isDiffHeaderLine (String sign content) = false.
Proof.
  unfold spec.signedLines. rewrite in_flat_map. split.
  - intros (line & Hin & Hrec). destruct line as [|c content]; [contradiction|].
    destruct (Ascii.eqb c sign) eqn:Hc; [|contradiction].
    apply Ascii.eqb_eq in Hc. subst c.
    destruct (isDiffHeaderLine (String sign content)) eqn:Hh; [contradiction|].
    destruct Hrec as [<-|[]]. exists content. auto.
  - intros (content & -> & Hin & Hh). exists (String sign content).
    split; [exact Hin|]. rewrite Ascii.eqb_refl, Hh. now left.
Qed.

Lemma afterFirstHeader_incl lines : incl (spec.afterFirstHeader lines) lines.
Proof.
  induction lines as [|line lines IH]; simpl; [apply incl_refl|].
  destruct (isDiffHeaderLine line).
  - apply incl_tl, incl_refl.
  - apply incl_tl, IH.
Qed.

Lemma afterFirstHunk_incl lines : incl (spec.afterFirstHunk lines) lines.
Proof.
  induction lines as [|line lines IH]; simpl; [apply incl_refl|].
  destruct (strings.HasPrefix line "@@").
  - apply incl_tl, incl_refl.
  - apply incl_tl, IH.
Qed.

(** Whatever the text, the two results are the signed lines of a part of
    its lines. *)
Lemma parseDiffContent_part diffContent :
  exists part,
    incl part (strings.Split diffContent strings.nl)
    /\ parseDiffContent diffContent
       = (spec.signedLines "+" "add" part, spec.signedLines "-" "delete" part).
Proof.
  destruct (Nat.lt_ge_cases
              (List.length (strings.Split diffContent strings.nl)) 3)
    as [Hshort|Hlong].
  - exists []. split; [intros x []|].
    unfold parseDiffContent.
    destruct (String.eqb diffContent ""); [reflexivity|].
    unfold llen.
    replace (Z.of_nat (List.length (strings.Split diffContent strings.nl))
             <? 3)%Z with true by lia.
    reflexivity.
  - destruct (existsb (fun line => strings.HasPrefix line "@@")
                      (strings.Split diffContent strings.nl)) eqn:Hhunk.
    + eexists. split; [apply afterFirstHunk_incl|].
      now apply parseDiffContent_hunks.
    + eexists. split; [apply afterFirstHeader_incl|].
      now apply parseDiffContent_plain.
Qed.

(** X2. The parser invents nothing, for every text: an addition record
    has type "add" and its content preceded by '+' is a line of the text;
    a deletion record has type "delete" and its content preceded by '-' is
    a line of the text; and none of these lines is a file-header line. *)
Theorem parseDiffContent_sound (diffContent : string) (record : LineChange.t) :
  (In record (fst (parseDiffContent diffContent)) ->
   LineChange.Type_ record = "add"%string
   /\ In (String "+" (LineChange.Content record))
         (strings.Split diffContent strings.nl)
   /\ isDiffHeaderLine (String "+" (LineChange.Content record)) = false)
  /\ (In record (snd (parseDiffContent diffContent)) ->
      LineChange.Type_ record = "delete"%string
      /\ In (String "-" (LineChange.Content record))
            (strings.Split diffContent strings.nl)
      /\ isDiffHeaderLine (String "-" (LineChange.Content record)) = false).
Proof.
  destruct (parseDiffContent_part diffContent) as (part & Hincl & ->).
  cbn [fst snd]. split; intros Hin; apply signedLines_In in Hin;
    destruct Hin as (content & -> & Hin & Hh); cbn;
    (split; [reflexivity|]); split; auto.
Qed.

End ParserHunks.

(** ** Initial commits: what the parser makes of the file text *)

Section RootText.
Context `{GoLib}.
Import types config git object.
Local Open Scope list_scope.

Lemma string_of_uint_single d :
  spec.hasByte strings.nl (NilEmpty.string_of_uint d) = false.
Proof. induction d; simpl; auto. Qed.

Lemma fmt_d_single n : spec.singleLine (fmt_d n) = true.
Proof.
  unfold spec.singleLine, fmt_d, NilZero.string_of_int, NilZero.string_of_uint.
  destruct (Z.to_int n) as [d|d]; destruct d; simpl;
    rewrite ?string_of_uint_single; reflexivity.
Qed.

(** The lines of the text built for a file of an initial commit. *)
Lemma rootDiffText_lines name content :
  spec.singleLine name = true ->
  strings.Split (spec.rootDiffText name content) strings.nl
  = ("+++ b/" ++ name)%string
    :: ("@@ -0,0 +1," ++ fmt_d (llen (strings.Split content strings.nl))
        ++ " @@")%string
    :: strings.Split content strings.nl.
Proof.
  intros Hname.
  pose proof (fmt_d_single (llen (strings.Split content strings.nl))) as Hn.
  unfold spec.rootDiffText.
  change (("+++ b/" ++ name ++ LF ++ "@@ -0,0 +1,"
           ++ fmt_d (llen (strings.Split content strings.nl))
           ++ " @@" ++ LF ++ content)%string)
    with (String "+" (String "+" (String "+" (String " " (String "b" (String "/"
            (name ++ String strings.nl
               ("@@ -0,0 +1,"
                ++ fmt_d (llen (strings.Split content strings.nl))
                ++ " @@" ++ LF ++ content)))))))%string).
  change (String "+" (String "+" (String "+" (String " " (String "b"
            (String "/" (name ++ String strings.nl ?r)))))))
    with (("+++ b/" ++ name) ++ String strings.nl r)%string.
  rewrite Split_app_sep.
  2:{ unfold spec.singleLine in Hname. apply negb_true_iff in Hname.
      simpl. exact Hname. }
  f_equal.
  replace ("@@ -0,0 +1," ++ fmt_d (llen (strings.Split content strings.nl))
           ++ " @@" ++ LF ++ content)%string
    with (("@@ -0,0 +1," ++ fmt_d (llen (strings.Split content strings.nl))
           ++ " @@") ++ String strings.nl content)%string
    by (rewrite !append_assoc_string; reflexivity).
  rewrite Split_app_sep; [reflexivity|].
  rewrite !hasByte_app. unfold spec.singleLine in Hn.
  apply negb_true_iff in Hn. rewrite Hn. reflexivity.
Qed.

Lemma parse_rootDiffText name content :
  spec.singleLine name = true ->
  parseDiffContent (spec.rootDiffText name content)
  = (spec.signedLines "+" "add" (strings.Split content strings.nl),
     spec.signedLines "-" "delete" (strings.Split content strings.nl)).
Proof.
  intros Hname.
  rewrite (@parseDiffContent_hunks _ _ (@rootDiffText_lines name content Hname)).
  - reflexivity.
  - simpl List.length.
    pose proof (Split_not_nil content strings.nl) as Hne.
    destruct (strings.Split content strings.nl); [congruence|simpl; lia].
  - reflexivity.
Qed.

(** X3. For a readable file of an initial commit whose name holds no line
    break, with line parsing enabled, the additions list of the record is
    made of the lines of the file that begin with '+' and are no
    file-header line, each without that '+', in order; the lines that do
    not begin with '+' are not in it although [Additions] counts them. The
    deletions list stays empty. *)
Theorem initial_commit_additions_list cfg st f content :
  Contents f = inr content ->
  spec.singleLine (Name f) = true ->
  Config.ParseDiff cfg = true ->
  exists change,
    rs_changes (rootFileStep cfg st f) = rs_changes st ++ [change]
    /\ ChangeInfo.AdditionsList change
       = spec.signedLines "+" "add" (strings.Split content strings.nl)
    /\ ChangeInfo.DeletionsList change = []
    /\ ChangeInfo.Additions change
       = llen (strings.Split content strings.nl).
Proof.
  intros Hc Hname Hparse. unfold rootFileStep. rewrite Hc, Hparse. cbv zeta.
  cbn [ChangeInfo.IsBinary negb andb].
  fold (spec.rootDiffText (Name f) content).
  rewrite (@parse_rootDiffText (Name f) content Hname).
  destruct (_ >? _)%Z; eexists; (split; [reflexivity|]);
    repeat split; reflexivity.
Qed.

End RootText.

Lemma initial_commit_additions_list_witness :
  object.Contents examples.threeLineFile
  = inr ("l1" ++ LF ++ "l2" ++ LF ++ "l3" ++ LF)%string
  /\ spec.singleLine (object.Name examples.threeLineFile) = true
  /\ config.Config.ParseDiff examples.readmeConfig = true
  /\ exists change,
       git.rs_changes
         (git.rootFileStep examples.readmeConfig
            (git.mkRootState [] types.StatsInfo.zero types.DiffSummary.zero
                             0 0)
            examples.threeLineFile)
       = [change]
       /\ types.ChangeInfo.AdditionsList change = []
       /\ types.ChangeInfo.Additions change = 4%Z.
Proof.
  split; [reflexivity|]. split; [reflexivity|]. split; [reflexivity|].
  destruct (@initial_commit_additions_list
              examples.readmeConfig
              (git.mkRootState [] types.StatsInfo.zero types.DiffSummary.zero
                               0 0)
              examples.threeLineFile _ eq_refl eq_refl eq_refl)
    as (change & Hch & Hadd & _ & Hn).
  exists change. split; [exact Hch|]. split; [exact Hadd|exact Hn].
Defined.

(** ** The change aggregator, step by step *)

Section AggregatorSteps.
Context `{GoLib}.
Import types config git object.
Local Open Scope list_scope.
Local Open Scope Z_scope.

(** The state after the loop over the chunks. *)
Lemma chunks_state chunks : forall st,
  fold_left chunkStep chunks st
  = mkChunkState
      (cs_additions st
       + llen (flat_map (fun c => chunkLines (diff.Content c))
                        (filter spec.isAdd chunks)))
      (cs_deletions st
       + llen (flat_map (fun c => chunkLines (diff.Content c))
                        (filter spec.isDelete chunks)))
      (StatsInfo.mk
         (StatsInfo.TotalAdditions (cs_stats st)
          + llen (flat_map (fun c => chunkLines (diff.Content c))
                           (filter spec.isAdd chunks)))
         (StatsInfo.TotalDeletions (cs_stats st)
          + llen (flat_map (fun c => chunkLines (diff.Content c))
                           (filter spec.isDelete chunks)))
         (StatsInfo.TotalFiles (cs_stats st))
         (StatsInfo.AddFiles (cs_stats st))
         (StatsInfo.DeleteFiles (cs_stats st))
         (StatsInfo.ModifyFiles (cs_stats st))
         (StatsInfo.RenameFiles (cs_stats st))
         (StatsInfo.CopyFiles (cs_stats st))
         (StatsInfo.BinaryFiles (cs_stats st)))
      (cs_builder st ++ spec.unlines (spec.writtenLines chunks))%string.
Proof.
  unfold llen.
  induction chunks as [|c chunks IH]; intros [a d [ta td tf af df mf rf cf bf] b].
  - simpl. now rewrite append_nil_r, !Z.add_0_r.
  - change (fold_left chunkStep (c :: chunks) ?st)
      with (fold_left chunkStep chunks (chunkStep st c)).
    rewrite IH. unfold spec.writtenLines. cbn [flat_map filter].
    fold (spec.writtenLines chunks).
    rewrite unlines_app, <- append_assoc_string.
    unfold chunkStep, spec.isAdd, spec.isDelete, llen.
    destruct (diff.Type_ c);
      cbn [cs_additions cs_deletions cs_stats cs_builder flat_map
           StatsInfo.addTotalAdditions StatsInfo.addTotalDeletions
           StatsInfo.TotalAdditions StatsInfo.TotalDeletions
           StatsInfo.TotalFiles StatsInfo.AddFiles StatsInfo.DeleteFiles
           StatsInfo.ModifyFiles StatsInfo.RenameFiles StatsInfo.CopyFiles
           StatsInfo.BinaryFiles spec.unlines fold_right];
      rewrite ?length_app, ?writeLines_unlines, ?append_nil_r;
      (f_equal; try lia; try (f_equal; lia)).
Qed.


Lemma synthesizeDiff_text fp :
  (diffHeader (diff.From fp) (diff.To fp) (pathOf (diff.From fp))
              (pathOf (diff.To fp))
   ++ spec.unlines (spec.writtenLines (diff.Chunks fp)))%string
  = synthesizeDiff fp.
Proof. unfold synthesizeDiff. now rewrite chunks_state. Qed.

(** One iteration of the loop over the file patches, in one equation. *)
Lemma patchStep_eq cfg currentTree st fp :
  patchStep cfg currentTree st fp
  = mkPatchState
      (ps_changes st ++ [spec.changeOf cfg currentTree fp])
      (spec.statsAfter fp (ps_stats st))
      (if spec.oversize cfg fp
       then DiffSummary.setDiffTooLarge (ps_diffSummary st) true
       else ps_diffSummary st)
      (if Config.IncludeFullDiff cfg && spec.hasSide fp
       then (ps_fullDiff st ++ synthesizeDiff fp ++ LF ++ LF)%string
       else ps_fullDiff st)
      (ps_totalDiffSize st
       + (if spec.hasSide fp then len (synthesizeDiff fp) else 0)).
Proof.
  pose proof (synthesizeDiff_text fp) as Hb.
  unfold patchStep, spec.changeOf, spec.statsAfter, spec.oversize,
    spec.patchBinary, spec.hasSide, spec.hasTo, spec.isRename,
    spec.patchAction, spec.changedPath, spec.addedLines, spec.deletedLines.
  destruct (diff.From fp) as [f|], (diff.To fp) as [t|]; cbn [pathOf] in *.
  1: destruct (String.eqb (diff.Path f) (diff.Path t)) eqn:Heq;
       [apply String.eqb_eq in Heq; rewrite Heq in *|]; cbn [negb].
  all: cbv zeta; rewrite chunks_state;
       cbn [cs_additions cs_deletions cs_stats cs_builder]; rewrite ?Hb.
  all: destruct (ps_stats st) as [ta td tf af df mf rf cf bf];
       cbn [StatsInfo.incAddFiles StatsInfo.incDeleteFiles
            StatsInfo.incModifyFiles StatsInfo.incRenameFiles
            StatsInfo.incBinaryFiles
            StatsInfo.TotalAdditions StatsInfo.TotalDeletions
            StatsInfo.TotalFiles StatsInfo.AddFiles StatsInfo.DeleteFiles
            StatsInfo.ModifyFiles StatsInfo.RenameFiles StatsInfo.CopyFiles
            StatsInfo.BinaryFiles].
  all: try destruct (IsLikelyBinaryFile _).
  all: try destruct (Config.ParseDiff cfg).
  all: try destruct (parseDiffContent (synthesizeDiff fp)).
  all: try destruct (_ >? _).
  all: try destruct (Config.IncludeFullDiff cfg).
  all: cbn; rewrite ?Z.add_0_r, ?Z.add_0_l; reflexivity.
Qed.


(** The callback of an initial commit, in one equation. *)
Lemma rootFileStep_eq cfg st f :
  rootFileStep cfg st f
  = mkRootState
      (rs_changes st ++ [spec.rootChangeOf cfg f])
      (StatsInfo.mk
         (StatsInfo.TotalAdditions (rs_stats st))
         (StatsInfo.TotalDeletions (rs_stats st))
         (StatsInfo.TotalFiles (rs_stats st))
         (StatsInfo.AddFiles (rs_stats st) + 1)
         (StatsInfo.DeleteFiles (rs_stats st))
         (StatsInfo.ModifyFiles (rs_stats st))
         (StatsInfo.RenameFiles (rs_stats st))
         (StatsInfo.CopyFiles (rs_stats st))
         (StatsInfo.BinaryFiles (rs_stats st) + spec.b2z (spec.unreadable f)))
      (if len (spec.rootText f) >? Config.MaxDiffSize cfg
       then DiffSummary.setDiffTooLarge (rs_diffSummary st) true
       else rs_diffSummary st)
      (rs_fileCount st + 1)
      (rs_totalDiffSize st + len (spec.rootText f)).
Proof.
  unfold rootFileStep, spec.rootChangeOf, spec.rootText, spec.unreadable,
    spec.rootDiffText.
  destruct (rs_stats st) as [ta td tf af df mf rf cf bf].
  destruct (Contents f) as [err|content]; cbv zeta;
    cbn [ChangeInfo.IsBinary negb andb];
    try destruct (Config.ParseDiff cfg); destruct (_ >? _);
    cbn; rewrite ?Z.add_0_r; reflexivity.
Qed.

(** The loop over the file patches, in one equation. *)
Lemma patchLoop_eq cfg currentTree fps : forall st,
  let st' := fold_left (patchStep cfg currentTree) fps st in
  ps_changes st' = ps_changes st ++ map (spec.changeOf cfg currentTree) fps
  /\ ps_stats st' = fold_left (fun s fp => spec.statsAfter fp s) fps (ps_stats st)
  /\ ps_diffSummary st'
     = (if existsb (spec.oversize cfg) fps
        then DiffSummary.setDiffTooLarge (ps_diffSummary st) true
        else ps_diffSummary st)
  /\ ps_totalDiffSize st'
     = ps_totalDiffSize st
       + spec.sumZ (map (fun fp => if spec.hasSide fp
                                   then len (synthesizeDiff fp) else 0) fps)
  /\ ps_fullDiff st'
     = (ps_fullDiff st
        ++ String.concat ""
             (map (fun fp => (synthesizeDiff fp ++ LF ++ LF)%string)
                  (filter (fun fp => Config.IncludeFullDiff cfg
                                     && spec.hasSide fp) fps)))%string.
Proof.
  induction fps as [|fp fps IH]; intros st.
  - simpl. rewrite app_nil_r, append_nil_r. repeat split; lia.
  - cbn zeta. simpl fold_left.
    destruct (IH (patchStep cfg currentTree st fp))
      as (Hc & Hs & Hd & Ht & Hf).
    rewrite Hc, Hs, Hd, Ht, Hf, patchStep_eq.
    cbn [ps_changes ps_stats ps_diffSummary ps_totalDiffSize ps_fullDiff].
    split; [now rewrite <- app_assoc|]. split; [reflexivity|].
    split.
    { simpl existsb. destruct (spec.oversize cfg fp); simpl;
        [now destruct (existsb _ fps)|reflexivity]. }
    split; [simpl; lia|].
    simpl filter. destruct (Config.IncludeFullDiff cfg && spec.hasSide fp).
    + simpl map.
      destruct (map _ (filter _ fps)) eqn:Hm; simpl String.concat.
      * now rewrite !append_assoc_string, ?append_nil_r.
      * now rewrite !append_assoc_string.
    + reflexivity.
Qed.


(** The statistics after the loop over the file patches, field by
    field. *)
Lemma statsAfter_fold fps : forall s,
  fold_left (fun s fp => spec.statsAfter fp s) fps s
  = StatsInfo.mk
      (StatsInfo.TotalAdditions s
       + spec.sumZ (map (fun fp => llen (spec.addedLines fp)) fps))
      (StatsInfo.TotalDeletions s
       + spec.sumZ (map (fun fp => llen (spec.deletedLines fp)) fps))
      (StatsInfo.TotalFiles s)
      (StatsInfo.AddFiles s
       + spec.countZ (fun fp => String.eqb (spec.patchAction fp) "add") fps)
      (StatsInfo.DeleteFiles s
       + spec.countZ (fun fp => String.eqb (spec.patchAction fp) "delete") fps)
      (StatsInfo.ModifyFiles s
       + spec.countZ (fun fp => String.eqb (spec.patchAction fp) "modify") fps)
      (StatsInfo.RenameFiles s
       + spec.countZ (fun fp => String.eqb (spec.patchAction fp) "rename") fps)
      (StatsInfo.CopyFiles s)
      (StatsInfo.BinaryFiles s + spec.countZ spec.patchBinary fps).
Proof.
  unfold spec.countZ, spec.sumZ, llen.
  induction fps as [|fp fps IH]; intros [ta td tf af df mf rf cf bf].
  - simpl. now rewrite !Z.add_0_r.
  - simpl fold_left. rewrite IH. unfold spec.statsAfter, spec.b2z.
    cbn [StatsInfo.TotalAdditions StatsInfo.TotalDeletions
         StatsInfo.TotalFiles StatsInfo.AddFiles StatsInfo.DeleteFiles
         StatsInfo.ModifyFiles StatsInfo.RenameFiles StatsInfo.CopyFiles
         StatsInfo.BinaryFiles map fold_right filter].
    destruct (String.eqb (spec.patchAction fp) "add");
      destruct (String.eqb (spec.patchAction fp) "delete");
      destruct (String.eqb (spec.patchAction fp) "modify");
      destruct (String.eqb (spec.patchAction fp) "rename");
      destruct (spec.patchBinary fp);
      cbn [List.length]; unfold llen; f_equal; lia.
Qed.

(** The loop over the files of an initial commit, in one equation. *)
Lemma rootLoop_eq cfg files : forall st,
  fold_left (rootFileStep cfg) files st
  = mkRootState
      (rs_changes st ++ map (spec.rootChangeOf cfg) files)
      (StatsInfo.mk
         (StatsInfo.TotalAdditions (rs_stats st))
         (StatsInfo.TotalDeletions (rs_stats st))
         (StatsInfo.TotalFiles (rs_stats st))
         (StatsInfo.AddFiles (rs_stats st) + llen files)
         (StatsInfo.DeleteFiles (rs_stats st))
         (StatsInfo.ModifyFiles (rs_stats st))
         (StatsInfo.RenameFiles (rs_stats st))
         (StatsInfo.CopyFiles (rs_stats st))
         (StatsInfo.BinaryFiles (rs_stats st)
          + spec.countZ spec.unreadable files))
      (if existsb (fun f => len (spec.rootText f) >? Config.MaxDiffSize cfg)
                  files
       then DiffSummary.setDiffTooLarge (rs_diffSummary st) true
       else rs_diffSummary st)
      (rs_fileCount st + llen files)
      (rs_totalDiffSize st
       + spec.sumZ (map (fun f => len (spec.rootText f)) files)).
Proof.
  unfold spec.countZ, spec.sumZ, llen.
  induction files as [|f files IH];
    intros [changes [ta td tf af df mf rf cf bf] ds fc total].
  - simpl. now rewrite app_nil_r, !Z.add_0_r.
  - simpl fold_left. rewrite IH, rootFileStep_eq.
    cbn [rs_changes rs_stats rs_diffSummary rs_fileCount rs_totalDiffSize
         StatsInfo.TotalAdditions StatsInfo.TotalDeletions
         StatsInfo.TotalFiles StatsInfo.AddFiles StatsInfo.DeleteFiles
         StatsInfo.ModifyFiles StatsInfo.RenameFiles StatsInfo.CopyFiles
         StatsInfo.BinaryFiles map fold_right filter existsb].
    rewrite <- app_assoc. cbn [app]. unfold spec.b2z.
    f_equal.
    + destruct (spec.unreadable f); cbn [List.length]; f_equal; lia.
    + destruct (len (spec.rootText f) >? Config.MaxDiffSize cfg);
        cbn [orb]; [now destruct (existsb _ files)|reflexivity].
    + cbn [List.length]. lia.
    + lia.
Qed.

(** What [getCommitChanges] returns for a commit with a parent when it
    returns without error. *)
Lemma getCommitChanges_patches cfg commit changes stats diffSummary :
  (NumParents commit =? 0) = false ->
  getCommitChanges cfg commit = (changes, stats, diffSummary, None) ->
  exists currentTree fps,
    GetTree commit = inr currentTree
    /\ Patch commit = inr fps
    /\ changes = map (spec.changeOf cfg currentTree) fps
    /\ stats
       = StatsInfo.setTotalFiles
           (fold_left (fun s fp => spec.statsAfter fp s) fps StatsInfo.zero)
           (llen changes)
    /\ DiffSummary.TotalDiffSize diffSummary
       = spec.sumZ (map (fun fp => if spec.hasSide fp
                                   then len (synthesizeDiff fp) else 0) fps)
    /\ DiffSummary.DiffTooLarge diffSummary = existsb (spec.oversize cfg) fps
    /\ DiffSummary.MaxDiffSize diffSummary = Config.MaxDiffSize cfg
    /\ DiffSummary.FullDiff diffSummary
       = String.concat ""
           (map (fun fp => (synthesizeDiff fp ++ LF ++ LF)%string)
                (filter (fun fp => Config.IncludeFullDiff cfg
                                   && spec.hasSide fp) fps)).
Proof.
  intros Hnp. unfold getCommitChanges. rewrite Hnp.
  destruct (Parent0Tree commit) as [err|[err|parentTree]];
    [discriminate|discriminate|].
  destruct (GetTree commit) as [err|currentTree]; [discriminate|].
  destruct (Patch commit) as [err|fps]; [discriminate|].
  destruct (patchLoop_eq cfg currentTree fps
              (mkPatchState [] StatsInfo.zero
                 (DiffSummary.mk 0 false (Config.MaxDiffSize cfg) "") "" 0))
    as (Hc & Hs & Hd & Ht & Hf).
  cbn [ps_changes ps_stats ps_diffSummary ps_totalDiffSize ps_fullDiff app]
    in Hc, Hs, Hd, Ht, Hf.
  intros Hget. injection Hget as <- <- <-.
  exists currentTree, fps. rewrite Hc, Hs, Hd, Ht, Hf.
  split; [reflexivity|]. split; [reflexivity|]. split; [reflexivity|].
  split; [reflexivity|].
  destruct (Config.IncludeFullDiff cfg) eqn:Hfull;
    destruct (existsb (spec.oversize cfg) fps);
    cbn; repeat split; try reflexivity.
  all: clear; induction fps as [|fp fps IH]; [reflexivity|exact IH].
Qed.

(** What [getCommitChanges] returns for an initial commit when it returns
    without error. *)
Lemma getCommitChanges_root cfg commit changes stats diffSummary :
  (NumParents commit =? 0) = true ->
  getCommitChanges cfg commit = (changes, stats, diffSummary, None) ->
  exists tree,
    GetTree commit = inr tree
    /\ changes = map (spec.rootChangeOf cfg) (Files tree)
    /\ stats
       = StatsInfo.mk 0 0 (llen changes) (llen (Files tree)) 0 0 0 0
                      (spec.countZ spec.unreadable (Files tree))
    /\ diffSummary
       = DiffSummary.mk
           (spec.sumZ (map (fun f => len (spec.rootText f)) (Files tree)))
           (existsb (fun f => len (spec.rootText f) >? Config.MaxDiffSize cfg)
                    (Files tree))
           (Config.MaxDiffSize cfg) "".
Proof.
  intros Hnp. unfold getCommitChanges. rewrite Hnp.
  destruct (GetTree commit) as [err|tree]; [discriminate|].
  rewrite rootLoop_eq.
  cbn [rs_changes rs_stats rs_diffSummary rs_totalDiffSize app
       StatsInfo.zero StatsInfo.TotalAdditions StatsInfo.TotalDeletions
       StatsInfo.TotalFiles StatsInfo.AddFiles StatsInfo.DeleteFiles
       StatsInfo.ModifyFiles StatsInfo.RenameFiles StatsInfo.CopyFiles
       StatsInfo.BinaryFiles].
  destruct (FilesErr tree); [discriminate|].
  intros Hget. injection Hget as <- <- <-.
  exists tree. split; [reflexivity|]. split; [reflexivity|].
  split; [reflexivity|].
  destruct (existsb _ (Files tree)); reflexivity.
Qed.

End AggregatorSteps.

(** ** The change aggregator: what the results hold *)

Section AggregatorInvariants.
Context `{GoLib}.
Import types config git object.
Local Open Scope list_scope.
Local Open Scope Z_scope.

Lemma countZ_map {A B} (f : B -> bool) (g : A -> B) (l : list A) :
  spec.countZ f (map g l) = spec.countZ (fun x => f (g x)) l.
Proof.
  unfold spec.countZ, llen. f_equal.
  induction l as [|x l IH]; [reflexivity|].
  simpl. destruct (f (g x)); simpl; now rewrite IH.
Qed.

Lemma countZ_all {A} (f : A -> bool) (l : list A) :
  (forall x, In x l -> f x = true) -> spec.countZ f l = llen l.
Proof.
  intros Hall. unfold spec.countZ. f_equal.
  apply filter_all, Forall_forall, Hall.
Qed.

Lemma countZ_none {A} (f : A -> bool) (l : list A) :
  (forall x, In x l -> f x = false) -> spec.countZ f l = 0.
Proof.
  intros Hall. unfold spec.countZ, llen.
  induction l as [|x l IH]; [reflexivity|].
  simpl. rewrite (Hall x) by now left. apply IH.
  intros y Hy. apply Hall. now right.
Qed.

(** The lines of a synthesized diff. *)
Lemma synthesizeDiff_lines fp :
  spec.singleLine (pathOf (diff.From fp)) = true ->
  spec.singleLine (pathOf (diff.To fp)) = true ->
  strings.Split (synthesizeDiff fp) strings.nl
  = spec.headerLines fp ++ spec.writtenLines (diff.Chunks fp) ++ [""%string].
Proof.
  intros Hfrom Hto.
  rewrite synthesizeDiff_unlines, <- (append_nil_r (spec.unlines _)).
  rewrite Split_unlines, <- app_assoc; [reflexivity|].
  apply Forall_app. split;
    [now apply headerLines_single|apply writtenLines_single].
Qed.

(** X4. The synthesized diff text of a file patch whose paths hold no
    line break consists, line by line, of the header lines for its action
    followed by one line for every non-empty line of every Add chunk
    ('+' and the line) and Delete chunk ('-' and the line), in chunk order;
    every line ends with a newline, and the lines of Equal chunks and the
    empty lines are not written. *)
Theorem synthesized_text_line_by_line fp :
  spec.singleLine (pathOf (diff.From fp)) = true ->
  spec.singleLine (pathOf (diff.To fp)) = true ->
  strings.Split (synthesizeDiff fp) strings.nl
  = spec.headerLines fp ++ spec.writtenLines (diff.Chunks fp) ++ [""%string].
Proof. apply synthesizeDiff_lines. Qed.

(** X5. For a commit with a parent, when [getCommitChanges] returns
    without error, [TotalAdditions] is the sum of the [Additions] of the
    change records and [TotalDeletions] the sum of their [Deletions]. *)
Theorem line_totals_are_sums cfg commit changes stats diffSummary :
  (NumParents commit =? 0) = false ->
  getCommitChanges cfg commit = (changes, stats, diffSummary, None) ->
  StatsInfo.TotalAdditions stats
  = spec.sumZ (map ChangeInfo.Additions changes)
  /\ StatsInfo.TotalDeletions stats
     = spec.sumZ (map ChangeInfo.Deletions changes).
Proof.
  intros Hnp Hget.
  destruct (getCommitChanges_patches cfg commit Hnp Hget)
    as (tree & fps & _ & _ & -> & -> & _).
  rewrite statsAfter_fold, !map_map. split; reflexivity.
Qed.

(** X6. When [getCommitChanges] returns without error, [BinaryFiles] is
    the number of change records marked binary, for initial commits and
    for commits with a parent. *)
Theorem binary_files_counted cfg commit changes stats diffSummary :
  getCommitChanges cfg commit = (changes, stats, diffSummary, None) ->
  StatsInfo.BinaryFiles stats = spec.countZ ChangeInfo.IsBinary changes.
Proof.
  intros Hget. destruct (NumParents commit =? 0) eqn:Hnp.
  - destruct (getCommitChanges_root cfg commit Hnp Hget)
      as (tree & _ & -> & -> & _).
    now rewrite countZ_map.
  - destruct (getCommitChanges_patches cfg commit Hnp Hget)
      as (tree & fps & _ & _ & -> & -> & _).
    rewrite statsAfter_fold, countZ_map. reflexivity.
Qed.

(** X7. When [getCommitChanges] returns without error, a change record
    that is marked binary has no line lists, and with line parsing
    disabled no record has any. *)
Theorem binary_records_have_no_lines cfg commit changes stats diffSummary
    change :
  getCommitChanges cfg commit = (changes, stats, diffSummary, None) ->
  In change changes ->
  ChangeInfo.IsBinary change = true \/ Config.ParseDiff cfg = false ->
  ChangeInfo.AdditionsList change = []
  /\ ChangeInfo.DeletionsList change = [].
Proof.
  intros Hget Hin Hoff. destruct (NumParents commit =? 0) eqn:Hnp.
  - destruct (getCommitChanges_root cfg commit Hnp Hget)
      as (tree & _ & -> & _).
    apply in_map_iff in Hin as (f & <- & _).
    unfold spec.rootChangeOf in *. cbn in *.
    destruct Hoff as [-> | ->]; [rewrite andb_false_r|]; split; reflexivity.
  - destruct (getCommitChanges_patches cfg commit Hnp Hget)
      as (tree & fps & _ & _ & -> & _).
    apply in_map_iff in Hin as (fp & <- & _).
    unfold spec.changeOf in *. cbn in *.
    destruct Hoff as [-> | ->]; cbn; rewrite ?andb_false_r;
      split; reflexivity.
Qed.


Lemma sumZ_ext {A} (f g : A -> Z) (l : list A) :
  (forall x, In x l -> f x = g x) ->
  spec.sumZ (map f l) = spec.sumZ (map g l).
Proof.
  intros Hfg. induction l as [|x l IH]; [reflexivity|].
  simpl. rewrite (Hfg x) by now left. f_equal. apply IH.
  intros y Hy. apply Hfg. now right.
Qed.

Lemma existsb_map {A B} (g : B -> bool) (h : A -> B) (l : list A) :
  existsb g (map h l) = existsb (fun x => g (h x)) l.
Proof.
  induction l as [|x l IH]; [reflexivity|]. cbn [map existsb]. now rewrite IH.
Qed.

(** X8. For a commit with a parent whose file patches each name a file,
    when [getCommitChanges] returns without error: [TotalDiffSize] is the
    sum of the sizes of the synthesized diff texts, truncated or not;
    [DiffTooLarge] is set exactly when the text of some file patch with a
    file in the new tree exceeds the limit (removed files never set it);
    and [MaxDiffSize] is the configured limit. *)
Theorem diff_summary_of_patches cfg commit changes stats diffSummary fps :
  (NumParents commit =? 0) = false ->
  getCommitChanges cfg commit = (changes, stats, diffSummary, None) ->
  Patch commit = inr fps ->
  Forall (fun fp => spec.hasSide fp = true) fps ->
  DiffSummary.TotalDiffSize diffSummary
  = spec.sumZ (map (fun fp => len (synthesizeDiff fp)) fps)
  /\ (DiffSummary.DiffTooLarge diffSummary = true
      <-> exists fp,
            In fp fps /\ diff.To fp <> None
            /\ len (synthesizeDiff fp) > Config.MaxDiffSize cfg)
  /\ DiffSummary.MaxDiffSize diffSummary = Config.MaxDiffSize cfg.
Proof.
  intros Hnp Hget Hpatch Hsides.
  destruct (getCommitChanges_patches cfg commit Hnp Hget)
    as (tree & fps' & _ & Hp & _ & _ & Hsize & Hlarge & Hmax & _).
  rewrite Hpatch in Hp. injection Hp as <-.
  split; [|split; [|exact Hmax]].
  - rewrite Hsize. apply sumZ_ext. intros fp Hin.
    rewrite Forall_forall in Hsides. now rewrite (Hsides fp Hin).
  - rewrite Hlarge, existsb_exists. unfold spec.oversize, spec.hasTo.
    split.
    + intros (fp & Hin & Hbig). exists fp. split; [exact Hin|].
      apply andb_true_iff in Hbig as [Hto Hbig].
      split; [destruct (diff.To fp); [discriminate|discriminate]|lia].
    + intros (fp & Hin & Hto & Hbig). exists fp. split; [exact Hin|].
      destruct (diff.To fp); [|contradiction].
      apply andb_true_iff. split; [reflexivity|lia].
Qed.

(** X9. For an initial commit, when [getCommitChanges] returns without
    error: every file of the tree gives one record, in order, with action
    "add", the name of the file as path, no deletions, and its text stored
    in full, whatever its size: the stored text is the text built for the
    file (the header line of the new path, the hunk header with the line
    count and the content, or the note that the content cannot be read)
    and never the placeholder; [TotalDiffSize] is the sum of the sizes of
    the stored texts; [DiffTooLarge] is set exactly when one of these
    texts exceeds the limit; [TotalAdditions] and [TotalDeletions] stay
    zero. *)
Theorem initial_commit_summary cfg commit changes stats diffSummary tree :
  (NumParents commit =? 0) = true ->
  getCommitChanges cfg commit = (changes, stats, diffSummary, None) ->
  GetTree commit = inr tree ->
  map ChangeInfo.Filepath changes = map Name (Files tree)
  /\ Forall (fun change =>
               ChangeInfo.Action change = "add"%string
               /\ ChangeInfo.Deletions change = 0
               /\ ChangeInfo.DeletionsList change = []) changes
  /\ map ChangeInfo.DiffContent changes
     = map (fun f =>
              match Contents f with
              | inr content =>
                  ("+++ b/" ++ Name f ++ LF
                   ++ "@@ -0,0 +1,"
                   ++ fmt_d (llen (strings.Split content strings.nl))
                   ++ " @@" ++ LF ++ content)%string
              | inl err =>
                  ("// Unable to read file content: " ++ err ++ LF)%string
              end)
           (Files tree)
  /\ DiffSummary.TotalDiffSize diffSummary
     = spec.sumZ (map (fun change => len (ChangeInfo.DiffContent change))
                      changes)
  /\ DiffSummary.DiffTooLarge diffSummary
     = existsb (fun change =>
                  len (ChangeInfo.DiffContent change)
                  >? Config.MaxDiffSize cfg) changes
  /\ StatsInfo.TotalAdditions stats = 0
  /\ StatsInfo.TotalDeletions stats = 0.
Proof.
  intros Hnp Hget Htree.
  destruct (getCommitChanges_root cfg commit Hnp Hget)
    as (tree' & Ht & -> & -> & ->).
  rewrite Htree in Ht. injection Ht as <-.
  rewrite !map_map. cbn.
  split; [reflexivity|]. split.
  { apply Forall_forall. intros change Hin.
    apply in_map_iff in Hin as (f & <- & _). repeat split. }
  split; [reflexivity|].
  split; [reflexivity|]. split; [|split; reflexivity].
  now rewrite existsb_map.
Qed.

(** X10. When [getCommitChanges] returns without error, each per-action
    counter is the number of change records with that action, and
    [CopyFiles] is zero, for initial commits and for commits with a
    parent. *)
Theorem action_counters_count_records cfg commit changes stats diffSummary :
  getCommitChanges cfg commit = (changes, stats, diffSummary, None) ->
  let count action :=
    spec.countZ (fun change => String.eqb (ChangeInfo.Action change) action)
                changes in
  StatsInfo.AddFiles stats = count "add"%string
  /\ StatsInfo.DeleteFiles stats = count "delete"%string
  /\ StatsInfo.ModifyFiles stats = count "modify"%string
  /\ StatsInfo.RenameFiles stats = count "rename"%string
  /\ StatsInfo.CopyFiles stats = 0.
Proof.
  intros Hget count. subst count. cbv beta.
  destruct (NumParents commit =? 0) eqn:Hnp.
  - destruct (getCommitChanges_root cfg commit Hnp Hget)
      as (tree & _ & -> & -> & _).
    rewrite !countZ_map. cbn.
    rewrite countZ_all by reflexivity.
    rewrite !countZ_none by reflexivity. repeat split.
  - destruct (getCommitChanges_patches cfg commit Hnp Hget)
      as (tree & fps & _ & _ & -> & -> & _).
    rewrite statsAfter_fold, !countZ_map. cbn. repeat split.
Qed.

Lemma patchAction_cases fp :
  spec.hasSide fp = true ->
  spec.patchAction fp = "add"%string \/ spec.patchAction fp = "delete"%string
  \/ spec.patchAction fp = "modify"%string
  \/ spec.patchAction fp = "rename"%string.
Proof.
  unfold spec.hasSide, spec.patchAction.
  destruct (diff.From fp), (diff.To fp); try discriminate;
    try destruct (String.eqb _ _); auto.
Qed.

(** X11. For a commit with a parent whose file patches each name a file,
    every change record returned has one of the actions "add", "delete",
    "modify", "rename"; a rename has different old and new paths and the
    new path as its path; any other record has empty old and new paths;
    the extension is that of the path; the counters are not negative; and
    the record is not yet marked as focus. *)
Theorem change_records_well_formed cfg commit changes stats diffSummary
    change :
  (NumParents commit =? 0) = false ->
  getCommitChanges cfg commit = (changes, stats, diffSummary, None) ->
  (forall fps, Patch commit = inr fps ->
               Forall (fun fp => spec.hasSide fp = true) fps) ->
  In change changes ->
  In (ChangeInfo.Action change) ["add"; "delete"; "modify"; "rename"]%string
  /\ (ChangeInfo.Action change = "rename"%string ->
      ChangeInfo.OldPath change <> ChangeInfo.NewPath change
      /\ ChangeInfo.Filepath change = ChangeInfo.NewPath change)
  /\ (ChangeInfo.Action change <> "rename"%string ->
      ChangeInfo.OldPath change = ""%string
      /\ ChangeInfo.NewPath change = ""%string)
  /\ ChangeInfo.Extension change
     = GetFileExtension (ChangeInfo.Filepath change)
  /\ 0 <= ChangeInfo.Additions change
  /\ 0 <= ChangeInfo.Deletions change
  /\ ChangeInfo.IsFocus change = false.
Proof.
  intros Hnp Hget Hsides Hin.
  destruct (getCommitChanges_patches cfg commit Hnp Hget)
    as (tree & fps & _ & Hp & -> & _).
  specialize (Hsides fps Hp). rewrite Forall_forall in Hsides.
  apply in_map_iff in Hin as (fp & <- & Hfp). specialize (Hsides fp Hfp).
  unfold spec.changeOf. cbn.
  split.
  { destruct (patchAction_cases fp Hsides) as [Ha|[Ha|[Ha|Ha]]]; rewrite Ha;
      simpl; auto. }
  unfold spec.isRename, spec.patchAction, spec.changedPath, spec.hasSide in *.
  destruct (diff.From fp) as [f|], (diff.To fp) as [t|]; try discriminate;
    cbn [pathOf];
    try (destruct (String.eqb (diff.Path f) (diff.Path t)) eqn:Heq);
    cbn; unfold llen.
  all: repeat split; intros; try lia; try reflexivity; try congruence.
  apply String.eqb_neq in Heq. congruence.
Qed.

(** X12. For a commit with a parent, the change records come in the
    order of the file patches: the path of each record is the new path of
    its patch when the file is in the new tree and the old path otherwise,
    and its action is that of the patch. *)
Theorem change_records_follow_patches cfg commit changes stats diffSummary
    fps :
  (NumParents commit =? 0) = false ->
  getCommitChanges cfg commit = (changes, stats, diffSummary, None) ->
  Patch commit = inr fps ->
  map ChangeInfo.Filepath changes = map spec.changedPath fps
  /\ map ChangeInfo.Action changes = map spec.patchAction fps.
Proof.
  intros Hnp Hget Hpatch.
  destruct (getCommitChanges_patches cfg commit Hnp Hget)
    as (tree & fps' & _ & Hp & -> & _).
  rewrite Hpatch in Hp. injection Hp as <-.
  rewrite !map_map. split; reflexivity.
Qed.

(** X13. For a commit with a parent whose file patches each name a file:
    with the full diff enabled, [FullDiff] is the concatenation, in order,
    of every synthesized diff text followed by two newlines, the texts
    over the limit included in full; with it disabled, [FullDiff] is
    empty. *)
Theorem full_diff_concatenates cfg commit changes stats diffSummary fps :
  (NumParents commit =? 0) = false ->
  getCommitChanges cfg commit = (changes, stats, diffSummary, None) ->
  Patch commit = inr fps ->
  Forall (fun fp => spec.hasSide fp = true) fps ->
  DiffSummary.FullDiff diffSummary
  = if Config.IncludeFullDiff cfg
    then String.concat ""
           (map (fun fp => (synthesizeDiff fp ++ LF ++ LF)%string) fps)
    else ""%string.
Proof.
  intros Hnp Hget Hpatch Hsides.
  destruct (getCommitChanges_patches cfg commit Hnp Hget)
    as (tree & fps' & _ & Hp & _ & _ & _ & _ & _ & ->).
  rewrite Hpatch in Hp. injection Hp as <-.
  destruct (Config.IncludeFullDiff cfg); cbn [andb].
  - rewrite filter_all; [reflexivity|exact Hsides].
  - clear. induction fps as [|fp fps IH]; [reflexivity|exact IH].
Qed.

(** X14. For a commit with a parent whose file patches each name a file,
    the text stored in each change record is the synthesized diff text of
    its file patch, except for a file in the new tree whose text exceeds
    the limit: there it is the placeholder that names the size. The text
    of a removed file is stored in full whatever its size. *)
Theorem stored_diff_texts cfg commit changes stats diffSummary fps :
  (NumParents commit =? 0) = false ->
  getCommitChanges cfg commit = (changes, stats, diffSummary, None) ->
  Patch commit = inr fps ->
  Forall (fun fp => spec.hasSide fp = true) fps ->
  Forall2
    (fun fp change =>
       ChangeInfo.DiffContent change
       = match diff.To fp with
         | Some _ =>
             if len (synthesizeDiff fp) >? Config.MaxDiffSize cfg
             then truncatedPlaceholder (len (synthesizeDiff fp))
             else synthesizeDiff fp
         | None => synthesizeDiff fp
         end)
    fps changes.
Proof.
  intros Hnp Hget Hpatch Hsides.
  destruct (getCommitChanges_patches cfg commit Hnp Hget)
    as (tree & fps' & _ & Hp & -> & _).
  rewrite Hpatch in Hp. injection Hp as <-.
  clear Hget Hpatch.
  induction Hsides as [|fp fps Hfp _ IH]; [constructor|].
  cbn [map]. constructor; [|exact IH].
  unfold spec.changeOf, spec.oversize, spec.hasTo. cbn. rewrite Hfp.
  destruct (diff.To fp); cbn; [|reflexivity].
  destruct (_ >? _); reflexivity.
Qed.

End AggregatorInvariants.

Section AggregatorInvariantRuns.
Import types config git object.
Local Open Scope list_scope.
Local Open Scope Z_scope.
#[local] Existing Instance examples.literalLib.

Lemma synthesized_text_line_by_line_witness :
  let fp := examples.severityPatch in
  spec.singleLine (pathOf (diff.From fp)) = true
  /\ spec.singleLine (pathOf (diff.To fp)) = true
  /\ strings.Split (synthesizeDiff fp) strings.nl
     = ["diff --git a/config.yaml b/config.yaml"; "--- a/config.yaml";
        "+++ b/config.yaml"; "-  severity: critical"; "+  severity: high";
        ""]%string.
Proof.
  intros fp. split; [reflexivity|]. split; [reflexivity|].
  exact (synthesized_text_line_by_line fp eq_refl eq_refl).
Defined.

Lemma richCommit_sides :
  Forall (fun fp => spec.hasSide fp = true)
         [examples.addThreeLinePatch; examples.deletePatch;
          examples.severityPatch; examples.renamePatch;
          examples.binaryPatch].
Proof. repeat constructor. Qed.

Lemma line_totals_are_sums_witness :
  (NumParents examples.richCommit =? 0) = false
  /\ exists changes stats diffSummary,
       getCommitChanges examples.fullDiffConfig examples.richCommit
       = (changes, stats, diffSummary, None)
       /\ StatsInfo.TotalAdditions stats = 4
       /\ StatsInfo.TotalAdditions stats
          = spec.sumZ (map ChangeInfo.Additions changes)
       /\ StatsInfo.TotalDeletions stats
          = spec.sumZ (map ChangeInfo.Deletions changes).
Proof.
  split; [reflexivity|]. do 3 eexists.
  split; [vm_compute; reflexivity|]. split; [reflexivity|].
  exact (@line_totals_are_sums examples.literalLib examples.fullDiffConfig
           examples.richCommit _ _ _ eq_refl eq_refl).
Defined.

Lemma binary_files_counted_witness :
  exists changes stats diffSummary,
    getCommitChanges examples.fullDiffConfig examples.richCommit
    = (changes, stats, diffSummary, None)
    /\ spec.countZ ChangeInfo.IsBinary changes = 1
    /\ StatsInfo.BinaryFiles stats = spec.countZ ChangeInfo.IsBinary changes.
Proof.
  do 3 eexists. split; [vm_compute; reflexivity|]. split; [reflexivity|].
  exact (@binary_files_counted examples.literalLib examples.fullDiffConfig
           examples.richCommit _ _ _ eq_refl).
Defined.

Lemma binary_records_have_no_lines_witness :
  exists changes stats diffSummary change,
    getCommitChanges examples.fullDiffConfig examples.richCommit
    = (changes, stats, diffSummary, None)
    /\ In change changes
    /\ ChangeInfo.Filepath change = "img/logo.png"%string
    /\ (ChangeInfo.IsBinary change = true
        \/ Config.ParseDiff examples.fullDiffConfig = false)
    /\ ChangeInfo.AdditionsList change = []
    /\ ChangeInfo.DeletionsList change = [].
Proof.
  exists (fst (fst (fst (getCommitChanges examples.fullDiffConfig
                           examples.richCommit)))).
  do 2 eexists.
  exists (last (fst (fst (fst (getCommitChanges examples.fullDiffConfig
                                 examples.richCommit))))
               ChangeInfo.zero).
  assert (Hin : In (last (fst (fst (fst (getCommitChanges
                                            examples.fullDiffConfig
                                            examples.richCommit))))
                         ChangeInfo.zero)
                   (fst (fst (fst (getCommitChanges examples.fullDiffConfig
                                     examples.richCommit)))))
    by (vm_compute; auto 10).
  split; [vm_compute; reflexivity|]. split; [exact Hin|].
  split; [reflexivity|]. split; [left; reflexivity|].
  exact (@binary_records_have_no_lines examples.literalLib
           examples.fullDiffConfig examples.richCommit _ _ _ _ eq_refl Hin
           (or_introl eq_refl)).
Defined.

Lemma diff_summary_of_patches_witness :
  (NumParents examples.richCommit =? 0) = false
  /\ exists changes stats diffSummary fps,
       getCommitChanges examples.fullDiffConfig examples.richCommit
       = (changes, stats, diffSummary, None)
       /\ Patch examples.richCommit = inr fps
       /\ Forall (fun fp => spec.hasSide fp = true) fps
       /\ DiffSummary.DiffTooLarge diffSummary = true
       /\ DiffSummary.TotalDiffSize diffSummary
          = spec.sumZ (map (fun fp => len (synthesizeDiff fp)) fps)
       /\ (DiffSummary.DiffTooLarge diffSummary = true
           <-> exists fp,
                 In fp fps /\ diff.To fp <> None
                 /\ len (synthesizeDiff fp)
                    > Config.MaxDiffSize examples.fullDiffConfig)
       /\ DiffSummary.MaxDiffSize diffSummary = 100.
Proof.
  split; [reflexivity|]. do 4 eexists.
  split; [vm_compute; reflexivity|]. split; [reflexivity|].
  split; [exact richCommit_sides|]. split; [reflexivity|].
  exact (@diff_summary_of_patches examples.literalLib examples.fullDiffConfig
           examples.richCommit _ _ _ _ eq_refl eq_refl eq_refl
           richCommit_sides).
Defined.

Lemma initial_commit_summary_witness :
  (NumParents examples.initialCommit =? 0) = true
  /\ GetTree examples.initialCommit = inr examples.threeLineTree
  /\ exists changes stats diffSummary,
       getCommitChanges examples.smallLimitConfig examples.initialCommit
       = (changes, stats, diffSummary, None)
       /\ map ChangeInfo.Filepath changes = ["a.txt"%string]
       /\ map ChangeInfo.DiffContent changes
          = [("+++ b/a.txt" ++ LF ++ "@@ -0,0 +1,4 @@" ++ LF
              ++ "l1" ++ LF ++ "l2" ++ LF ++ "l3" ++ LF)%string]
       /\ Config.MaxDiffSize examples.smallLimitConfig = 10
       /\ DiffSummary.TotalDiffSize diffSummary = 37
       /\ DiffSummary.DiffTooLarge diffSummary = true
       /\ StatsInfo.TotalAdditions stats = 0.
Proof.
  split; [reflexivity|]. split; [reflexivity|]. do 3 eexists.
  split; [vm_compute; reflexivity|].
  destruct (@initial_commit_summary examples.literalLib
              examples.smallLimitConfig examples.initialCommit _ _ _ _
              eq_refl eq_refl eq_refl)
    as (Hpaths & _ & Htexts & Hsize & Hlarge & Hadd & _).
  split; [exact Hpaths|]. split; [exact Htexts|]. split; [reflexivity|].
  split; [exact Hsize|]. split; [exact Hlarge|].
  exact Hadd.
Defined.

Lemma action_counters_count_records_witness :
  exists changes stats diffSummary,
    getCommitChanges examples.fullDiffConfig examples.richCommit
    = (changes, stats, diffSummary, None)
    /\ StatsInfo.AddFiles stats = 2
    /\ StatsInfo.AddFiles stats
       = spec.countZ (fun change =>
                        String.eqb (ChangeInfo.Action change) "add") changes
    /\ StatsInfo.RenameFiles stats
       = spec.countZ (fun change =>
                        String.eqb (ChangeInfo.Action change) "rename")
                     changes.
Proof.
  do 3 eexists. split; [vm_compute; reflexivity|]. split; [reflexivity|].
  destruct (@action_counters_count_records examples.literalLib
              examples.fullDiffConfig examples.richCommit _ _ _ eq_refl)
    as (Ha & _ & _ & Hr & _).
  split; [exact Ha|exact Hr].
Defined.

Lemma change_records_well_formed_witness :
  (NumParents examples.richCommit =? 0) = false
  /\ (forall fps, Patch examples.richCommit = inr fps ->
                  Forall (fun fp => spec.hasSide fp = true) fps)
  /\ exists changes stats diffSummary change,
       getCommitChanges examples.fullDiffConfig examples.richCommit
       = (changes, stats, diffSummary, None)
       /\ In change changes
       /\ ChangeInfo.Action change = "rename"%string
       /\ ChangeInfo.OldPath change <> ChangeInfo.NewPath change
       /\ ChangeInfo.Filepath change = ChangeInfo.NewPath change
       /\ ChangeInfo.Extension change = "json"%string.
Proof.
  assert (Hsides : forall fps, Patch examples.richCommit = inr fps ->
                     Forall (fun fp => spec.hasSide fp = true) fps).
  { intros fps Heq. injection Heq as <-. exact richCommit_sides. }
  split; [reflexivity|]. split; [exact Hsides|].
  exists (fst (fst (fst (getCommitChanges examples.fullDiffConfig
                           examples.richCommit)))).
  do 2 eexists.
  exists (nth 3 (fst (fst (fst (getCommitChanges examples.fullDiffConfig
                                  examples.richCommit))))
              ChangeInfo.zero).
  assert (Hin : In (nth 3 (fst (fst (fst (getCommitChanges
                                             examples.fullDiffConfig
                                             examples.richCommit))))
                        ChangeInfo.zero)
                   (fst (fst (fst (getCommitChanges examples.fullDiffConfig
                                     examples.richCommit)))))
    by (vm_compute; auto 10).
  split; [vm_compute; reflexivity|]. split; [exact Hin|].
  split; [reflexivity|].
  destruct (@change_records_well_formed examples.literalLib
              examples.fullDiffConfig examples.richCommit _ _ _ _
              eq_refl eq_refl Hsides Hin)
    as (_ & Hrename & _ & Hext & _).
  destruct (Hrename eq_refl) as [Hne Hpath].
  split; [exact Hne|]. split; [exact Hpath|exact Hext].
Defined.

Lemma change_records_follow_patches_witness :
  (NumParents examples.richCommit =? 0) = false
  /\ exists changes stats diffSummary fps,
       getCommitChanges examples.fullDiffConfig examples.richCommit
       = (changes, stats, diffSummary, None)
       /\ Patch examples.richCommit = inr fps
       /\ map ChangeInfo.Filepath changes
          = ["a.txt"; "old.yaml"; "config.yaml"; "b.json";
             "img/logo.png"]%string
       /\ map ChangeInfo.Filepath changes = map spec.changedPath fps
       /\ map ChangeInfo.Action changes = map spec.patchAction fps.
Proof.
  split; [reflexivity|]. do 4 eexists.
  split; [vm_compute; reflexivity|]. split; [reflexivity|].
  split; [reflexivity|].
  exact (@change_records_follow_patches examples.literalLib
           examples.fullDiffConfig examples.richCommit _ _ _ _
           eq_refl eq_refl eq_refl).
Defined.

Lemma full_diff_concatenates_witness :
  (NumParents examples.richCommit =? 0) = false
  /\ Config.IncludeFullDiff examples.fullDiffConfig = true
  /\ exists changes stats diffSummary fps,
       getCommitChanges examples.fullDiffConfig examples.richCommit
       = (changes, stats, diffSummary, None)
       /\ Patch examples.richCommit = inr fps
       /\ Forall (fun fp => spec.hasSide fp = true) fps
       /\ DiffSummary.FullDiff diffSummary
          = String.concat ""
              (map (fun fp => (synthesizeDiff fp ++ LF ++ LF)%string) fps).
Proof.
  split; [reflexivity|]. split; [reflexivity|]. do 4 eexists.
  split; [vm_compute; reflexivity|]. split; [reflexivity|].
  split; [exact richCommit_sides|].
  exact (@full_diff_concatenates examples.literalLib examples.fullDiffConfig
           examples.richCommit _ _ _ _ eq_refl eq_refl eq_refl
           richCommit_sides).
Defined.

Lemma stored_diff_texts_witness :
  (NumParents examples.richCommit =? 0) = false
  /\ exists changes stats diffSummary fps,
       getCommitChanges examples.fullDiffConfig examples.richCommit
       = (changes, stats, diffSummary, None)
       /\ Patch examples.richCommit = inr fps
       /\ Forall (fun fp => spec.hasSide fp = true) fps
       /\ map ChangeInfo.DiffContent changes
          = [synthesizeDiff examples.addThreeLinePatch;
             synthesizeDiff examples.deletePatch;
             "// Diff content too large (115 bytes), truncated"%string;
             synthesizeDiff examples.renamePatch;
             synthesizeDiff examples.binaryPatch]
       /\ Forall2
            (fun fp change =>
               ChangeInfo.DiffContent change
               = match diff.To fp with
                 | Some _ =>
                     if len (synthesizeDiff fp)
                        >? Config.MaxDiffSize examples.fullDiffConfig
                     then truncatedPlaceholder (len (synthesizeDiff fp))
                     else synthesizeDiff fp
                 | None => synthesizeDiff fp
                 end)
            fps changes.
Proof.
  split; [reflexivity|]. do 4 eexists.
  split; [vm_compute; reflexivity|]. split; [reflexivity|].
  split; [exact richCommit_sides|]. split; [vm_compute; reflexivity|].
  exact (@stored_diff_texts examples.literalLib examples.fullDiffConfig
           examples.richCommit _ _ _ _ eq_refl eq_refl eq_refl
           richCommit_sides).
Defined.

End AggregatorInvariantRuns.

(** ** The focus classifier: the decision and its record *)

Section FocusDecision.
Context `{GoLib}.
Import types config focus.
Local Open Scope list_scope.
Local Open Scope Z_scope.

(** The counter of the two loops of the modify branch. *)
Lemma scanLine_count ignore lines : forall st,
  snd (fold_left (scanLine ignore) lines st)
  = snd st
    + spec.countZ (fun line => negb (isLineIgnored (LineChange.Content line)
                                                   ignore)) lines
  /\ llen (fst (fold_left (scanLine ignore) lines st))
     <= llen (fst st)
        + spec.countZ (fun line => negb (isLineIgnored
                                           (LineChange.Content line) ignore))
                      lines.
Proof.
  unfold spec.countZ, llen.
  induction lines as [|line lines IH]; intros [matched count].
  - simpl. lia.
  - cbn [fold_left]. destruct (IH (scanLine ignore (matched, count) line))
      as [Hc Hl].
    rewrite Hc. unfold scanLine in *. cbn [filter].
    destruct (negb (isLineIgnored (LineChange.Content line) ignore)).
    + destruct ((0 <? len _) && negb (Contains matched _));
        cbn [fst snd List.length] in *; rewrite ?length_app in *;
        cbn [List.length] in *; lia.
    + cbn [fst snd] in *. lia.
Qed.

Lemma countZ_app {A} (f : A -> bool) (l1 l2 : list A) :
  spec.countZ f (l1 ++ l2) = spec.countZ f l1 + spec.countZ f l2.
Proof. unfold spec.countZ, llen. rewrite filter_app, length_app. lia. Qed.

Lemma scanChange_count ignore change :
  snd (scanChange ignore change) = spec.unignoredLines ignore change
  /\ llen (fst (scanChange ignore change))
     <= spec.unignoredLines ignore change.
Proof.
  unfold scanChange, spec.unignoredLines. rewrite countZ_app.
  destruct (scanLine_count ignore (ChangeInfo.AdditionsList change)
              ([], 0)) as [Hc1 Hl1].
  destruct (scanLine_count ignore (ChangeInfo.DeletionsList change)
              (fold_left (scanLine ignore) (ChangeInfo.AdditionsList change)
                         ([], 0))) as [Hc2 Hl2].
  cbn [fst snd] in *. unfold llen in *. cbn [List.length] in *.
  split; lia.
Qed.

(** The result of [CheckFocusChange] with compiled patterns, in one
    equation. *)
Lemma CheckFocusChange_eq cfg cp change :
  CheckFocusChange cfg (Some cp) change
  = if spec.focusDecision cfg cp change
    then
      Some (ChangeInfo.markFocus change (spec.focusReason cfg cp change),
            (Some (FocusFileInfo.mk
                     (ChangeInfo.Filepath change) (ChangeInfo.Action change)
                     (spec.focusReason cfg cp change)
                     (if String.eqb (ChangeInfo.Action change) "modify"
                      then spec.unignoredLines (IgnorePatterns cp) change
                      else 0)
                     (if String.eqb (ChangeInfo.Action change) "modify"
                      then fst (scanChange (IgnorePatterns cp) change)
                      else [])),
             true))
    else Some (change, (None, false)).
Proof.
  unfold CheckFocusChange, spec.focusDecision, spec.focusReason.
  destruct (scanChange_count (IgnorePatterns cp) change) as [Hcount _].
  destruct (FocusConfig.Enable (Config.Focus cfg)); cbn [negb andb];
    [|reflexivity].
  destruct (isIgnoredByFilePatterns _ _); cbn [negb andb]; [reflexivity|].
  destruct (existsb _ (FilePatterns cp)); cbn [negb andb]; [|reflexivity].
  destruct (String.eqb (ChangeInfo.Action change) "add") eqn:Hadd.
  { apply String.eqb_eq in Hadd. rewrite Hadd. cbn.
    destruct (FocusConfig.AddFiles _), (FocusConfig.DeleteFiles _),
      (FocusConfig.ModifyFiles _); reflexivity. }
  destruct (String.eqb (ChangeInfo.Action change) "delete") eqn:Hdel.
  { apply String.eqb_eq in Hdel. rewrite Hdel. cbn.
    destruct (FocusConfig.AddFiles _), (FocusConfig.DeleteFiles _),
      (FocusConfig.ModifyFiles _); reflexivity. }
  rewrite !andb_false_r. cbn [orb].
  destruct (FocusConfig.ModifyFiles _ && _) eqn:Hmod; cbn [andb];
    [|reflexivity].
  apply andb_true_iff in Hmod as [_ Hmod]. rewrite Hmod.
  destruct (scanChange (IgnorePatterns cp) change) as [matched count].
  cbn [fst snd] in *. subst count.
  destruct (0 <? _); reflexivity.
Qed.


(** X15. With compiled patterns, [CheckFocusChange] marks a change as
    focus exactly when the feature is enabled, the path matches no ignore
    pattern, the path matches some file pattern, and either the action is
    "add" and additions are enabled, or the action is "delete" and
    deletions are enabled, or the action is "modify", modifications are
    enabled and at least one added or deleted line matches no ignore
    pattern. A rename is never a focus change. *)
Theorem focus_decision cfg cp change :
  exists change' focusFile,
    CheckFocusChange cfg (Some cp) change
    = Some (change', (focusFile, spec.focusDecision cfg cp change)).
Proof.
  rewrite CheckFocusChange_eq.
  destruct (spec.focusDecision cfg cp change); eauto.
Qed.

Lemma focusDecision_actions cfg cp change :
  spec.focusDecision cfg cp change = true ->
  In (ChangeInfo.Action change) ["add"; "delete"; "modify"]%string.
Proof.
  unfold spec.focusDecision. intros Hd.
  apply andb_true_iff in Hd as [_ Hd].
  apply orb_true_iff in Hd as [Hd|Hd];
    [apply orb_true_iff in Hd as [Hd|Hd]|];
    repeat (apply andb_true_iff in Hd as [Hd ?]);
    match goal with
    | Heq : String.eqb _ _ = true |- _ =>
        apply String.eqb_eq in Heq; rewrite Heq; simpl; auto
    end.
Qed.

(** X16. The record and the change agree. When [CheckFocusChange] answers
    yes, it returns a focus record with the path and the action of the
    change, the action is "add", "delete" or "modify", and the change is
    left as it was except for the focus flag, now set, and the focus
    reason, now the reason of the record. When it answers no, it returns
    no record and leaves the change as it was. *)
Theorem focus_record_agrees cfg compiledPatterns change change' focusFile
    isFocus :
  CheckFocusChange cfg compiledPatterns change
  = Some (change', (focusFile, isFocus)) ->
  if isFocus then
    exists ff,
      focusFile = Some ff
      /\ FocusFileInfo.Filepath ff = ChangeInfo.Filepath change
      /\ FocusFileInfo.Action ff = ChangeInfo.Action change
      /\ In (ChangeInfo.Action change) ["add"; "delete"; "modify"]%string
      /\ change' = ChangeInfo.markFocus change (FocusFileInfo.Reason ff)
  else focusFile = None /\ change' = change.
Proof.
  destruct compiledPatterns as [cp|].
  - rewrite CheckFocusChange_eq.
    destruct (spec.focusDecision cfg cp change) eqn:Hd;
      intros Heq; injection Heq as <- <- <-.
    + eexists. split; [reflexivity|]. cbn.
      split; [reflexivity|]. split; [reflexivity|].
      split; [now apply (focusDecision_actions cfg cp)|reflexivity].
    + split; reflexivity.
  - unfold CheckFocusChange.
    destruct (negb (FocusConfig.Enable _)); [|discriminate].
    intros Heq. injection Heq as <- <- <-. split; reflexivity.
Qed.

(** X17. Classifying twice changes nothing: a second call of
    [CheckFocusChange] on the change as the first call left it returns the
    same record and the same answer, and leaves the change as it is. *)
Theorem focus_check_idempotent cfg compiledPatterns change change' result :
  CheckFocusChange cfg compiledPatterns change = Some (change', result) ->
  CheckFocusChange cfg compiledPatterns change' = Some (change', result).
Proof.
  destruct compiledPatterns as [cp|].
  - rewrite !CheckFocusChange_eq.
    destruct (spec.focusDecision cfg cp change) eqn:Hd;
      intros Heq; injection Heq as <- <-.
    + change (spec.focusDecision cfg cp
                (ChangeInfo.markFocus change
                                      (spec.focusReason cfg cp change)))
        with (spec.focusDecision cfg cp change).
      rewrite Hd. reflexivity.
    + now rewrite Hd.
  - unfold CheckFocusChange.
    destruct (negb (FocusConfig.Enable _)); [|discriminate].
    intros Heq. injection Heq as <- <-. reflexivity.
Qed.

(** X18. The focus record of a modified file counts the lines that
    matter: its match count is the number of added and deleted lines that
    match no ignore pattern, which is positive, its reason names that
    count, and it holds at most that many match lines. The record of an
    added or deleted file has match count zero, no match lines, and the
    reason "New file" or "Deleted file". *)
Theorem focus_record_counts cfg cp change change' ff :
  CheckFocusChange cfg (Some cp) change = Some (change', (Some ff, true)) ->
  if String.eqb (ChangeInfo.Action change) "modify" then
    FocusFileInfo.MatchCount ff
    = spec.unignoredLines (IgnorePatterns cp) change
    /\ 0 < FocusFileInfo.MatchCount ff
    /\ llen (FocusFileInfo.MatchLines ff) <= FocusFileInfo.MatchCount ff
    /\ FocusFileInfo.Reason ff = modifyReason (FocusFileInfo.MatchCount ff)
  else
    FocusFileInfo.MatchCount ff = 0
    /\ FocusFileInfo.MatchLines ff = []
    /\ (FocusFileInfo.Reason ff = "New file"%string
        \/ FocusFileInfo.Reason ff = "Deleted file"%string).
Proof.
  rewrite CheckFocusChange_eq.
  destruct (spec.focusDecision cfg cp change) eqn:Hd; [|discriminate].
  intros Heq. injection Heq as _ <-. cbn.
  destruct (scanChange_count (IgnorePatterns cp) change) as [_ Hlen].
  unfold spec.focusDecision, spec.focusReason in *.
  destruct (String.eqb (ChangeInfo.Action change) "modify") eqn:Hmod.
  - apply String.eqb_eq in Hmod. rewrite Hmod in *. cbn in Hd |- *.
    rewrite !andb_false_r in *. cbn in Hd |- *.
    apply andb_true_iff in Hd as [_ Hd].
    apply andb_true_iff in Hd as [_ Hd].
    split; [reflexivity|]. split; [lia|]. split; [exact Hlen|reflexivity].
  - split; [reflexivity|]. split; [reflexivity|].
    rewrite !andb_false_r, orb_false_r in Hd.
    apply andb_true_iff in Hd as [_ Hd].
    destruct (FocusConfig.AddFiles _ && _); [now left|].
    cbn in Hd. rewrite Hd. now right.
Qed.

End FocusDecision.

Lemma focus_record_agrees_witness :
  exists change' focusFile,
    @focus.CheckFocusChange examples.literalLib examples.readmeConfig
      (Some examples.readmePatterns) examples.longLineChange
    = Some (change', (Some focusFile, true))
    /\ types.FocusFileInfo.Filepath focusFile = "rules/a.yaml"%string
    /\ types.ChangeInfo.IsFocus change' = true
    /\ types.ChangeInfo.FocusReason change'
       = types.FocusFileInfo.Reason focusFile.
Proof.
  do 2 eexists. split; [vm_compute; reflexivity|].
  destruct (@focus_record_agrees examples.literalLib examples.readmeConfig
              (Some examples.readmePatterns) examples.longLineChange
              _ _ true eq_refl)
    as (ff & Hff & Hpath & _ & _ & Hchange).
  injection Hff as <-. split; [exact Hpath|]. split; reflexivity.
Defined.

Lemma focus_check_idempotent_witness :
  exists change' result,
    @focus.CheckFocusChange examples.literalLib examples.readmeConfig
      (Some examples.readmePatterns) examples.longLineChange
    = Some (change', result)
    /\ snd result = true
    /\ @focus.CheckFocusChange examples.literalLib examples.readmeConfig
         (Some examples.readmePatterns) change'
       = Some (change', result).
Proof.
  do 2 eexists. split; [vm_compute; reflexivity|]. split; [reflexivity|].
  exact (@focus_check_idempotent examples.literalLib examples.readmeConfig
           (Some examples.readmePatterns) examples.longLineChange _ _
           eq_refl).
Defined.

Lemma focus_record_counts_witness :
  exists change' ff,
    @focus.CheckFocusChange examples.literalLib examples.readmeConfig
      (Some examples.readmePatterns) examples.longLineChange
    = Some (change', (Some ff, true))
    /\ types.FocusFileInfo.MatchCount ff = 1%Z
    /\ types.FocusFileInfo.MatchCount ff
       = @spec.unignoredLines examples.literalLib
           (@focus.IgnorePatterns examples.literalLib examples.readmePatterns)
           examples.longLineChange.
Proof.
  do 2 eexists. split; [vm_compute; reflexivity|]. split; [reflexivity|].
  exact (proj1 (@focus_record_counts examples.literalLib
                  examples.readmeConfig examples.readmePatterns
                  examples.longLineChange _ _ eq_refl)).
Defined.

(** ** GetCommit: the focus loop and the report *)

Section ReportInvariants.
Context `{GoLib}.
Import types config git object gogit.
Local Open Scope list_scope.
Local Open Scope Z_scope.

(** The two outcomes of a call of [CheckFocusChange] that does not
    panic. *)
Lemma CheckFocusChange_cases cfg compiled change :
  FocusConfig.Enable (Config.Focus cfg) = false
  \/ (exists cp, compiled = Some cp) ->
  focus.CheckFocusChange cfg compiled change = Some (change, (None, false))
  \/ exists ff reason,
       focus.CheckFocusChange cfg compiled change
       = Some (ChangeInfo.markFocus change reason, (Some ff, true))
       /\ FocusFileInfo.Filepath ff = ChangeInfo.Filepath change
       /\ FocusFileInfo.Action ff = ChangeInfo.Action change
       /\ In (ChangeInfo.Action change) ["add"; "delete"; "modify"]%string.
Proof.
  intros [Hoff|[cp ->]].
  - left. unfold focus.CheckFocusChange. now rewrite Hoff.
  - rewrite CheckFocusChange_eq.
    destruct (spec.focusDecision cfg cp change) eqn:Hd; [right|now left].
    do 2 eexists. split; [reflexivity|]. cbn.
    split; [reflexivity|]. split; [reflexivity|].
    now apply (focusDecision_actions cfg cp).
Qed.

(** Counting one more focus record. *)
Lemma countFocus_focusStatsOf ffs ff :
  In (FocusFileInfo.Action ff) ["add"; "delete"; "modify"]%string ->
  countFocus (spec.focusStatsOf ffs) (FocusFileInfo.Action ff)
  = spec.focusStatsOf (ffs ++ [ff]).
Proof.
  intros Hact. unfold spec.focusStatsOf, countFocus.
  rewrite !countZ_app. unfold llen. rewrite length_app.
  unfold spec.countZ, llen.
  cbn [FocusStats.TotalFocusFiles FocusStats.AddFocusFiles
       FocusStats.ModifyFocusFiles FocusStats.DeleteFocusFiles
       FocusStats.MatchPatternFiles FocusStats.MatchContentFiles filter].
  destruct Hact as [Ha|[Ha|[Ha|[]]]]; rewrite <- Ha; cbn;
    f_equal; lia.
Qed.

(** The loop over the changes: what it appends to each list, and the
    statistics it keeps. *)
Lemma focusLoop_result cfg compiled changes :
  FocusConfig.Enable (Config.Focus cfg) = false
  \/ (exists cp, compiled = Some cp) ->
  Forall (fun change => ChangeInfo.IsFocus change = false) changes ->
  forall st st',
  focusLoop cfg compiled changes st = Some st' ->
  exists marked ffs,
    fs_changes st' = fs_changes st ++ marked
    /\ Forall2 spec.focusMarked changes marked
    /\ fs_filesChanged st' = fs_filesChanged st ++ map ChangeInfo.Filepath changes
    /\ fs_focusFiles st' = fs_focusFiles st ++ ffs
    /\ map FocusFileInfo.Filepath ffs
       = map ChangeInfo.Filepath (filter ChangeInfo.IsFocus marked)
    /\ Forall (fun ff => In (FocusFileInfo.Action ff)
                            ["add"; "delete"; "modify"]%string) ffs
    /\ (fs_focusStats st = spec.focusStatsOf (fs_focusFiles st) ->
        fs_focusStats st' = spec.focusStatsOf (fs_focusFiles st')).
Proof.
  intros Hready Hclean.
  induction Hclean as [|change changes Hc _ IH]; intros st st' Hloop.
  - injection Hloop as <-. exists [], []. rewrite !app_nil_r.
    repeat split; auto.
  - cbn [focusLoop] in Hloop.
    destruct (CheckFocusChange_cases cfg change Hready)
      as [Hno|(ff & reason & Hyes & Hpath & Hact & Hin)].
    + rewrite Hno in Hloop.
      destruct (IH _ _ Hloop)
        as (marked & ffs & H1 & H2 & H3 & H4 & H5 & H7 & H6).
      cbn [fs_changes fs_filesChanged fs_focusFiles fs_focusStats] in *.
      exists (change :: marked), ffs.
      rewrite H1, H3, H4, <- !app_assoc. cbn [app map filter].
      rewrite Hc.
      split; [reflexivity|]. split; [constructor; [now left|exact H2]|].
      split; [reflexivity|]. split; [reflexivity|].
      split; [exact H5|]. split; [exact H7|].
      intros Hstats. rewrite (H6 Hstats). now rewrite H4.
    + rewrite Hyes in Hloop.
      destruct (IH _ _ Hloop)
        as (marked & ffs & H1 & H2 & H3 & H4 & H5 & H7 & H6).
      cbn [fs_changes fs_filesChanged fs_focusFiles fs_focusStats] in *.
      exists (ChangeInfo.markFocus change reason :: marked), (ff :: ffs).
      rewrite H1, H3, H4, <- !app_assoc. cbn [app map filter ChangeInfo.IsFocus
                                              ChangeInfo.markFocus].
      split; [reflexivity|].
      split; [constructor; [right; eauto|exact H2]|].
      split; [reflexivity|]. split; [reflexivity|].
      split; [cbn; now rewrite Hpath, H5|].
      split; [constructor; [now rewrite Hact|exact H7]|].
      intros Hstats. rewrite H6; [now rewrite H4, <- app_assoc|].
      rewrite Hstats.
      cbn [ChangeInfo.Action ChangeInfo.markFocus]. rewrite <- Hact.
      apply countFocus_focusStatsOf. now rewrite Hact.
Qed.


(** The records of [getCommitChanges] are not marked as focus. *)
Lemma getCommitChanges_unmarked cfg commit changes stats diffSummary err :
  getCommitChanges cfg commit = (changes, stats, diffSummary, err) ->
  Forall (fun change => ChangeInfo.IsFocus change = false) changes.
Proof.
  unfold getCommitChanges.
  assert (Hroot : forall files st,
             Forall (fun c => ChangeInfo.IsFocus c = false) (rs_changes st) ->
             Forall (fun c => ChangeInfo.IsFocus c = false)
                    (rs_changes (fold_left (rootFileStep cfg) files st))).
  { intros files st Hst. rewrite rootLoop_eq. cbn [rs_changes].
    apply Forall_app. split; [exact Hst|].
    apply Forall_forall. intros c Hin.
    apply in_map_iff in Hin as (f & <- & _). reflexivity. }
  assert (Hpatch : forall tree fps st,
             Forall (fun c => ChangeInfo.IsFocus c = false) (ps_changes st) ->
             Forall (fun c => ChangeInfo.IsFocus c = false)
                    (ps_changes (fold_left (patchStep cfg tree) fps st))).
  { intros tree fps st Hst.
    destruct (patchLoop_eq cfg tree fps st) as [-> _].
    apply Forall_app. split; [exact Hst|].
    apply Forall_forall. intros c Hin.
    apply in_map_iff in Hin as (fp & <- & _). reflexivity. }
  destruct (NumParents commit =? 0).
  - destruct (GetTree commit) as [e|tree].
    + intros Heq. injection Heq as <- _ _ _. constructor.
    + destruct (FilesErr tree); intros Heq; injection Heq as <- _ _ _;
        apply Hroot; constructor.
  - destruct (Parent0Tree commit) as [e|[e|ptree]];
      try (intros Heq; injection Heq as <- _ _ _; constructor).
    destruct (GetTree commit) as [e|tree];
      try (intros Heq; injection Heq as <- _ _ _; constructor).
    destruct (Patch commit) as [e|fps];
      intros Heq; injection Heq as <- _ _ _; [constructor|].
    apply Hpatch. constructor.
Qed.

(** The report of a call of [GetCommit] that returns one. *)
Lemma GetCommit_report w cfg compiledPatterns repoPath commitHash info :
  GetCommit w cfg compiledPatterns repoPath commitHash = Ok info ->
  exists repo commit tree changes stats diffSummary st,
    PlainOpen w repoPath = inr repo
    /\ resolveCommit repo commitHash = inr commit
    /\ GetTree commit = inr tree
    /\ (changes, stats, diffSummary)
       = (let '(changes, stats, diffSummary, err) :=
            getCommitChanges cfg commit in
          match err with
          | Some _ => ([], StatsInfo.zero, DiffSummary.zero)
          | None => (changes, stats, diffSummary)
          end)
    /\ match focus.Init cfg compiledPatterns with
       | (_, Some _) => st = mkFocusState changes [] [] FocusStats.zero
       | (compiled, None) =>
           focusLoop cfg compiled changes
                     (mkFocusState [] [] [] FocusStats.zero) = Some st
       end
    /\ CommitInfo.Changes info = fs_changes st
    /\ CommitInfo.FilesChanged info = fs_filesChanged st
    /\ CommitInfo.FocusFiles info = fs_focusFiles st
    /\ CommitInfo.FocusStats info = fs_focusStats st
    /\ CommitInfo.Stats info = stats
    /\ CommitInfo.DiffSummary info = diffSummary
    /\ CommitInfo.Hash info = Hash commit
    /\ CommitInfo.TreeHash info = TreeHash tree.
Proof.
  unfold GetCommit.
  destruct (PlainOpen w repoPath) as [e|repo] eqn:Hopen; [discriminate|].
  destruct (resolveCommit repo commitHash) as [e|commit] eqn:Hres;
    [discriminate|].
  destruct (SplitCommitMessage _) as [subject description].
  destruct (GetTree commit) as [e|tree] eqn:Htree; [discriminate|].
  destruct (getCommitChanges cfg commit) as [[[changes0 stats0] ds0] err]
    eqn:Hget.
  set (picked := match err with
                 | Some _ => ([], StatsInfo.zero, DiffSummary.zero)
                 | None => (changes0, stats0, ds0)
                 end).
  destruct picked as [[changes stats] ds] eqn:Hpicked.
  destruct (focus.Init cfg compiledPatterns) as [compiled [ierr|]].
  - destruct (len (Hash commit) <? 8); [discriminate|].
    intros Heq. injection Heq as <-.
    exists repo, commit, tree, changes, stats, ds,
      (mkFocusState changes [] [] FocusStats.zero).
    rewrite Hget. cbn. repeat split; try assumption. now rewrite <- Hpicked.
  - destruct (focusLoop cfg compiled changes _) as [st|] eqn:Hloop;
      [|discriminate].
    destruct (len (Hash commit) <? 8); [discriminate|].
    intros Heq. injection Heq as <-.
    exists repo, commit, tree, changes, stats, ds, st.
    rewrite Hget. cbn. repeat split; try assumption. now rewrite <- Hpicked.
Qed.



Lemma focus_actions_partition ffs :
  Forall (fun ff => In (FocusFileInfo.Action ff)
                       ["add"; "delete"; "modify"]%string) ffs ->
  llen ffs
  = spec.countZ (fun ff => String.eqb (FocusFileInfo.Action ff) "add") ffs
    + spec.countZ (fun ff => String.eqb (FocusFileInfo.Action ff) "delete") ffs
    + spec.countZ (fun ff => String.eqb (FocusFileInfo.Action ff) "modify") ffs.
Proof.
  unfold spec.countZ, llen.
  induction 1 as [|ff ffs Hff _ IH]; [reflexivity|].
  cbn [filter List.length].
  destruct Hff as [Ha|[Ha|[Ha|[]]]]; rewrite <- Ha;
    repeat match goal with
           | |- context [String.eqb ?a ?b] =>
               let r := eval vm_compute in (String.eqb a b) in
               change (String.eqb a b) with r
           end;
    cbn [List.length]; lia.
Qed.

(** What the focus loop leaves in a report. *)
Lemma GetCommit_focus w cfg compiledPatterns repoPath commitHash info :
  GetCommit w cfg compiledPatterns repoPath commitHash = Ok info ->
  exists repo commit changes stats diffSummary,
    PlainOpen w repoPath = inr repo
    /\ resolveCommit repo commitHash = inr commit
    /\ (changes, stats, diffSummary)
       = (let '(changes, stats, diffSummary, err) :=
            getCommitChanges cfg commit in
          match err with
          | Some _ => ([], StatsInfo.zero, DiffSummary.zero)
          | None => (changes, stats, diffSummary)
          end)
    /\ CommitInfo.Stats info = stats
    /\ CommitInfo.DiffSummary info = diffSummary
    /\ Forall2 spec.focusMarked changes (CommitInfo.Changes info)
    /\ map FocusFileInfo.Filepath (CommitInfo.FocusFiles info)
       = map ChangeInfo.Filepath
             (filter ChangeInfo.IsFocus (CommitInfo.Changes info))
    /\ Forall (fun ff => In (FocusFileInfo.Action ff)
                            ["add"; "delete"; "modify"]%string)
              (CommitInfo.FocusFiles info)
    /\ CommitInfo.FocusStats info
       = spec.focusStatsOf (CommitInfo.FocusFiles info)
    /\ (snd (focus.Init cfg compiledPatterns) = None ->
        CommitInfo.FilesChanged info = map ChangeInfo.Filepath changes)
    /\ (snd (focus.Init cfg compiledPatterns) <> None ->
        CommitInfo.FilesChanged info = []
        /\ CommitInfo.FocusFiles info = []).
Proof.
  intros Hget.
  destruct (GetCommit_report _ _ _ _ _ Hget)
    as (repo & commit & tree & changes & stats & ds & st & Hopen & Hres
        & _ & Hpicked & Hinit & Hc & Hf & Hff & Hfs & Hs & Hd & _).
  exists repo, commit, changes, stats, ds.
  rewrite Hc, Hf, Hff, Hfs.
  split; [exact Hopen|]. split; [exact Hres|]. split; [exact Hpicked|].
  split; [exact Hs|]. split; [exact Hd|].
  assert (Hclean : Forall (fun c => ChangeInfo.IsFocus c = false) changes).
  { destruct (getCommitChanges cfg commit) as [[[c0 s0] d0] err] eqn:Hg.
    destruct err; injection Hpicked as -> _ _; [constructor|].
    exact (getCommitChanges_unmarked _ _ Hg). }
  destruct (focus.Init cfg compiledPatterns) as [compiled [ierr|]] eqn:Hi.
  - subst st. cbn.
    split.
    { clear -Hclean. induction changes; constructor; [now left|].
      inversion Hclean; auto. }
    split.
    { clear -Hclean. induction Hclean as [|c cs Hc _ IH]; [reflexivity|].
      cbn. now rewrite Hc. }
    split; [constructor|]. split; [reflexivity|].
    split; [discriminate|]. intros _. split; reflexivity.
  - destruct (@focusLoop_result cfg compiled changes
                (@Init_ready _ cfg compiledPatterns compiled Hi) Hclean _ _
                Hinit)
      as (marked & ffs & H1 & H2 & H3 & H4 & H5 & H6 & H7).
    cbn [fs_changes fs_filesChanged fs_focusFiles fs_focusStats app] in *.
    rewrite H1, H3, H4.
    split; [exact H2|]. split; [exact H5|]. split; [exact H6|].
    split; [rewrite <- H4; now apply H7|].
    split; [reflexivity|]. cbn. congruence.
Qed.

(** X19. The focus statistics of a report count its focus records:
    [TotalFocusFiles] is their number, [AddFocusFiles] and
    [ModifyFocusFiles] the numbers of those with action "add" and
    "modify", [MatchContentFiles] equals [ModifyFocusFiles],
    [MatchPatternFiles] counts the added and the deleted ones, and
    [TotalFocusFiles = MatchPatternFiles + MatchContentFiles], every focus
    record having one of the three actions. *)
Theorem focus_statistics_count_records w cfg compiledPatterns repoPath
    commitHash info :
  GetCommit w cfg compiledPatterns repoPath commitHash = Ok info ->
  let stats := CommitInfo.FocusStats info in
  let count action :=
    spec.countZ (fun ff => String.eqb (FocusFileInfo.Action ff) action)
                (CommitInfo.FocusFiles info) in
  FocusStats.TotalFocusFiles stats = llen (CommitInfo.FocusFiles info)
  /\ FocusStats.AddFocusFiles stats = count "add"%string
  /\ FocusStats.ModifyFocusFiles stats = count "modify"%string
  /\ FocusStats.MatchContentFiles stats = count "modify"%string
  /\ FocusStats.MatchPatternFiles stats
     = count "add"%string + count "delete"%string
  /\ FocusStats.TotalFocusFiles stats
     = FocusStats.MatchPatternFiles stats + FocusStats.MatchContentFiles stats.
Proof.
  intros Hget stats count. subst stats count. cbv beta.
  destruct (GetCommit_focus _ _ _ _ _ Hget)
    as (_ & _ & _ & _ & _ & _ & _ & _ & _ & _ & _ & _ & Hact & -> & _).
  unfold spec.focusStatsOf. cbn.
  repeat split. rewrite (focus_actions_partition Hact). lia.
Qed.


(** X21. [GetCommit] fails for three reasons only, provided hashes have
    the eight bytes of the short hash: the repository does not open, the
    commit does not resolve, or the tree of the commit cannot be read; the
    error names the step. In every other case it returns a report, and it
    never panics. *)
Theorem fatal_errors_only w cfg compiledPatterns repoPath commitHash :
  (forall repo commit,
      PlainOpen w repoPath = inr repo ->
      resolveCommit repo commitHash = inr commit ->
      8 <= len (Hash commit)) ->
  match GetCommit w cfg compiledPatterns repoPath commitHash with
  | Err _ e =>
      (exists err, PlainOpen w repoPath = inl err
                   /\ e = ("failed to open local repository: " ++ err)%string)
      \/ (exists repo, PlainOpen w repoPath = inr repo
                       /\ resolveCommit repo commitHash = inl e)
      \/ (exists repo commit err,
             PlainOpen w repoPath = inr repo
             /\ resolveCommit repo commitHash = inr commit
             /\ GetTree commit = inl err
             /\ e = ("failed to get tree object: " ++ err)%string)
  | Ok info =>
      exists repo commit tree,
        PlainOpen w repoPath = inr repo
        /\ resolveCommit repo commitHash = inr commit
        /\ GetTree commit = inr tree
        /\ CommitInfo.Hash info = Hash commit
        /\ CommitInfo.TreeHash info = TreeHash tree
  | Panic _ => False
  end.
Proof.
  intros Hlen.
  destruct (PlainOpen w repoPath) as [err|repo] eqn:Hopen.
  { unfold GetCommit. rewrite Hopen. left. eauto. }
  destruct (resolveCommit repo commitHash) as [err|commit] eqn:Hres.
  { unfold GetCommit. rewrite Hopen, Hres. right. left. eauto. }
  destruct (GetTree commit) as [err|tree] eqn:Htree.
  { unfold GetCommit. rewrite Hopen, Hres, Htree.
    destruct (SplitCommitMessage _). right. right.
    exists repo, commit, err. auto. }
  destruct (GetCommit_returns w cfg compiledPatterns repoPath commitHash
              Hopen Hres Htree (Hlen _ _ eq_refl Hres))
    as (info & Hinfo & _).
  rewrite Hinfo.
  destruct (GetCommit_report _ _ _ _ _ Hinfo)
    as (repo' & commit' & tree' & _ & _ & _ & _ & Ho & Hr & Ht & _ & _ & _
        & _ & _ & _ & _ & _ & Hh & Hth).
  rewrite Hopen in Ho. injection Ho as <-.
  rewrite Hres in Hr. injection Hr as <-.
  rewrite Htree in Ht. injection Ht as <-.
  exists repo, commit, tree. repeat split; auto.
Qed.

End ReportInvariants.

Section ReportInvariantRuns.
Import types config git object gogit.
Local Open Scope list_scope.
Local Open Scope Z_scope.
#[local] Existing Instance examples.literalLib.

Lemma richWorld_hashes repo commit :
  PlainOpen examples.richWorld "./" = inr repo ->
  resolveCommit repo "" = inr commit ->
  8 <= len (Hash commit).
Proof.
  intros Ho Hr. cbn in Ho. injection Ho as <-.
  vm_compute in Hr. injection Hr as <-. vm_compute. discriminate.
Qed.

Lemma focus_statistics_count_records_witness :
  exists info,
    GetCommit examples.richWorld examples.readmeConfig None "./" "" = Ok info
    /\ map FocusFileInfo.Filepath (CommitInfo.FocusFiles info)
       = ["old.yaml"; "config.yaml"]%string
    /\ FocusStats.TotalFocusFiles (CommitInfo.FocusStats info) = 2
    /\ FocusStats.TotalFocusFiles (CommitInfo.FocusStats info)
       = FocusStats.MatchPatternFiles (CommitInfo.FocusStats info)
         + FocusStats.MatchContentFiles (CommitInfo.FocusStats info).
Proof.
  destruct (GetCommit examples.richWorld examples.readmeConfig None "./" "")
    as [info|e|] eqn:Hget;
    [|vm_compute in Hget; discriminate Hget..].
  pose proof (@focus_statistics_count_records examples.literalLib
                examples.richWorld examples.readmeConfig None "./" "" info
                Hget) as Hstats.
  exists info. split; [reflexivity|].
  vm_compute in Hget. injection Hget as <-.
  split; [reflexivity|]. split; [reflexivity|].
  exact (proj2 (proj2 (proj2 (proj2 (proj2 Hstats))))).
Defined.


Lemma fatal_errors_only_witness :
  (forall repo commit,
      PlainOpen examples.richWorld "./" = inr repo ->
      resolveCommit repo "" = inr commit ->
      8 <= len (Hash commit))
  /\ exists info,
       GetCommit examples.richWorld examples.readmeConfig None "./" ""
       = Ok info
       /\ exists repo commit tree,
            PlainOpen examples.richWorld "./" = inr repo
            /\ resolveCommit repo "" = inr commit
            /\ GetTree commit = inr tree
            /\ CommitInfo.Hash info = Hash commit
            /\ CommitInfo.TreeHash info = TreeHash tree.
Proof.
  split; [exact richWorld_hashes|].
  pose proof (@fatal_errors_only examples.literalLib examples.richWorld
                examples.readmeConfig None "./" "" richWorld_hashes)
    as Houtcome.
  destruct (GetCommit examples.richWorld examples.readmeConfig None "./" "")
    as [info|e|] eqn:Hget;
    [|vm_compute in Hget; discriminate Hget..].
  exists info. split; [reflexivity|exact Houtcome].
Defined.

End ReportInvariantRuns.

(** ** focus: the initialization *)

Section FocusInit.
Context `{GoLib}.
Import types config.
Local Open Scope list_scope.

(** One compile loop: all patterns compiled, in order, behind what was
    compiled before, or the error of the first pattern that fails. *)
Lemma compileList_eq what patterns compiled :
  match focus.compileList what patterns compiled with
  | inr res =>
      exists res',
        res = compiled ++ res'
        /\ map Compile patterns = map (@inr error Regexp) res'
  | inl e =>
      exists before pattern after err,
        patterns = before ++ pattern :: after
        /\ Forall (fun p => exists re, Compile p = inr re) before
        /\ Compile pattern = inl err
        /\ e = ("failed to compile " ++ what ++ " pattern: " ++ pattern
                ++ ", error: " ++ err)%string
  end.
Proof.
  revert compiled. induction patterns as [|p ps IH]; intros compiled.
  - cbn. exists []. now rewrite app_nil_r.
  - cbn [focus.compileList]. destruct (Compile p) as [err|re] eqn:Hp.
    + exists [], p, ps, err. repeat split; auto.
    + specialize (IH (compiled ++ [re])).
      destruct (focus.compileList what ps (compiled ++ [re])) as [e|res].
      * destruct IH as (before & pattern & after & err & -> & Hb & Hc & ->).
        exists (p :: before), pattern, after, err.
        repeat split; auto. constructor; eauto.
      * destruct IH as (res' & -> & Hm).
        exists (re :: res'). rewrite <- app_assoc. cbn.
        now rewrite Hp, Hm.
Qed.

Lemma compiled_all (patterns : list string) (res : list Regexp) :
  map Compile patterns = map (@inr error Regexp) res ->
  Forall (fun p => exists re, Compile p = inr re) patterns.
Proof.
  revert res. induction patterns as [|p ps IH]; intros [|re res] Hm;
    try discriminate; constructor.
  - injection Hm as Hp _. eauto.
  - injection Hm as _ Hm. eauto.
Qed.

Lemma prefix_append (p s : string) : String.prefix p (p ++ s) = true.
Proof.
  induction p as [|a p IH]; [now destruct s|].
  change (String a p ++ s)%string with (String a (p ++ s)).
  now rewrite prefix_String, Ascii.eqb_refl, IH.
Qed.

Lemma failing_not_all (before after : list string) pattern err :
  Compile pattern = inl err ->
  ~ Forall (fun p => exists re, Compile p = inr re)
           (before ++ pattern :: after).
Proof.
  intros Hp Hall. apply Forall_app in Hall as [_ Hall].
  inversion Hall as [|? ? [re Hre] _]. congruence.
Qed.

(** X22. [compilePatterns] compiles every file pattern and every ignore
    pattern of the configuration, in the order of the configuration; it
    fails at the first pattern that does not compile, the file patterns
    coming first, and its error names the kind of the pattern, the pattern
    and the error of the compiler. *)
Theorem compilePatterns_in_order focusConfig :
  let compiles p := exists re, Compile p = inr re in
  match focus.compilePatterns focusConfig with
  | inr compiled =>
      map Compile (FocusConfig.FilePatterns focusConfig)
      = map (@inr error Regexp) (focus.FilePatterns compiled)
      /\ map Compile (FocusConfig.IgnorePatterns focusConfig)
         = map (@inr error Regexp) (focus.IgnorePatterns compiled)
  | inl e =>
      exists what patterns before pattern after err,
        ((what = "file"%string
          /\ patterns = FocusConfig.FilePatterns focusConfig)
         \/ (what = "ignore"%string
             /\ patterns = FocusConfig.IgnorePatterns focusConfig
             /\ Forall compiles (FocusConfig.FilePatterns focusConfig)))
        /\ patterns = before ++ pattern :: after
        /\ Forall compiles before
        /\ Compile pattern = inl err
        /\ e = ("failed to compile " ++ what ++ " pattern: " ++ pattern
                ++ ", error: " ++ err)%string
  end.
Proof.
  intros compiles. unfold focus.compilePatterns.
  pose proof (compileList_eq "file" (FocusConfig.FilePatterns focusConfig) [])
    as Hf.
  destruct (focus.compileList "file" _ []) as [e|fps].
  - destruct Hf as (before & pattern & after & err & Hp & Hb & Hc & ->).
    exists "file"%string, (FocusConfig.FilePatterns focusConfig), before,
           pattern, after, err.
    repeat split; auto.
  - destruct Hf as (fps' & -> & Hfm). cbn [app] in *.
    pose proof (compileList_eq "ignore"
                  (FocusConfig.IgnorePatterns focusConfig) []) as Hi.
    destruct (focus.compileList "ignore" _ []) as [e|ips].
    + destruct Hi as (before & pattern & after & err & Hp & Hb & Hc & ->).
      exists "ignore"%string, (FocusConfig.IgnorePatterns focusConfig),
             before, pattern, after, err.
      split; [right; repeat split; eauto using compiled_all|].
      repeat split; auto.
    + destruct Hi as (ips' & -> & Him). cbn. split; assumption.
Qed.

(** X23. [Init] returns an error exactly when the focus feature is enabled
    and some file or ignore pattern does not compile; the package variable
    [compiledPatterns] is nil afterwards in that case, holds the compiled
    patterns of the configuration after a success with the feature
    enabled, and is left as it was when the feature is disabled. *)
Theorem Init_fails_iff_pattern_fails cfg compiledPatterns :
  let focusConfig := Config.Focus cfg in
  let allCompile :=
    Forall (fun p => exists re, Compile p = inr re)
           (FocusConfig.FilePatterns focusConfig
            ++ FocusConfig.IgnorePatterns focusConfig) in
  match focus.Init cfg compiledPatterns with
  | (after, Some e) =>
      FocusConfig.Enable focusConfig = true
      /\ ~ allCompile
      /\ after = None
      /\ String.prefix "failed to compile regular expressions: " e = true
  | (after, None) =>
      (FocusConfig.Enable focusConfig = false /\ after = compiledPatterns)
      \/ (FocusConfig.Enable focusConfig = true
          /\ allCompile
          /\ exists compiled,
               after = Some compiled
               /\ map Compile (FocusConfig.FilePatterns focusConfig)
                  = map (@inr error Regexp) (focus.FilePatterns compiled)
               /\ map Compile (FocusConfig.IgnorePatterns focusConfig)
                  = map (@inr error Regexp) (focus.IgnorePatterns compiled))
  end.
Proof.
  intros focusConfig allCompile. subst focusConfig allCompile.
  unfold focus.Init, focus.compilePatterns.
  destruct (FocusConfig.Enable (Config.Focus cfg)); cbn [negb];
    [|left; split; reflexivity].
  pose proof (compileList_eq "file"
                (FocusConfig.FilePatterns (Config.Focus cfg)) []) as Hf.
  destruct (focus.compileList "file" _ []) as [e|fps].
  { destruct Hf as (before & pattern & after & err & Hp & _ & Hc & _).
    split; [reflexivity|]. split; [|split; [reflexivity|apply prefix_append]].
    intros Hall. apply Forall_app in Hall as [Hall _]. rewrite Hp in Hall.
    exact (@failing_not_all before after pattern err Hc Hall). }
  destruct Hf as (fps' & -> & Hfm). cbn [app] in *.
  pose proof (compileList_eq "ignore"
                (FocusConfig.IgnorePatterns (Config.Focus cfg)) []) as Hi.
  destruct (focus.compileList "ignore" _ []) as [e|ips].
  { destruct Hi as (before & pattern & after & err & Hp & _ & Hc & _).
    split; [reflexivity|]. split; [|split; [reflexivity|apply prefix_append]].
    intros Hall. apply Forall_app in Hall as [_ Hall]. rewrite Hp in Hall.
    exact (@failing_not_all before after pattern err Hc Hall). }
  destruct Hi as (ips' & -> & Him). cbn [app] in *.
  right. split; [reflexivity|]. split.
  - apply Forall_app. split; eauto using compiled_all.
  - eexists. split; [reflexivity|]. split; assumption.
Qed.

End FocusInit.

(** ** GetCommit: the commit, its branches and its tags *)

Section Lookups.
Context `{GoLib}.
Import types config git object gogit.
Local Open Scope list_scope.

Lemma branches_fold hash refs branches :
  fold_left
    (fun branches ref =>
       if IsBranch (RefName ref)
          || strings.HasPrefix (RefName ref) "refs/remotes/"
       then
         if String.eqb (RefHash ref) hash
         then branches ++ [Short (RefName ref)]
         else branches
       else branches)
    refs branches
  = branches
    ++ map (fun ref => Short (RefName ref)) (filter (spec.branchAt hash) refs).
Proof.
  revert branches. induction refs as [|ref refs IH]; intros branches.
  - cbn. now rewrite app_nil_r.
  - cbn [fold_left]. rewrite IH.
    change (ref :: refs) with ([ref] ++ refs).
    rewrite filter_app, map_app, app_assoc. f_equal.
    cbn [filter]. unfold spec.branchAt.
    destruct (IsBranch (RefName ref)
              || strings.HasPrefix (RefName ref) "refs/remotes/");
      cbn [andb]; [|now rewrite app_nil_r].
    destruct (String.eqb (RefHash ref) hash); [reflexivity|].
    now rewrite app_nil_r.
Qed.

(** X24. When the references can be listed, [getBranchesContainingCommit]
    returns the short names of the local and remote branches whose tip is
    the commit, in the order of the iteration, with the error the
    iteration ended with; a branch that contains the commit further down
    its history is not listed. *)
Theorem branches_are_tips repo hash refs iterErr :
  References repo = inr (refs, iterErr) ->
  getBranchesContainingCommit repo hash
  = (map (fun ref => Short (RefName ref)) (filter (spec.branchAt hash) refs),
     iterErr).
Proof.
  intros Hrefs. unfold getBranchesContainingCommit. rewrite Hrefs.
  now rewrite branches_fold.
Qed.

Lemma tagsForEach_next repo hash ref refs iterErr tags :
  spec.tagLookupFails repo ref = false ->
  tagsForEach repo hash (ref :: refs) iterErr tags
  = tagsForEach repo hash refs iterErr
      (tags ++ map (fun ref => Short (RefName ref))
                   (filter (spec.tagAt repo hash) [ref])).
Proof.
  unfold spec.tagLookupFails, spec.tagAt. cbn [tagsForEach filter].
  destruct (IsTag (RefName ref)); cbn [andb];
    [|intros _; now rewrite app_nil_r].
  destruct (TagObject repo (RefHash ref)) as [target| |err];
    [| |discriminate]; intros _.
  - destruct (String.eqb target hash); [reflexivity|now rewrite app_nil_r].
  - destruct (String.eqb (RefHash ref) hash);
      [reflexivity|now rewrite app_nil_r].
Qed.

Lemma tagsForEach_stop repo hash ref refs iterErr tags :
  spec.tagLookupFails repo ref = true ->
  exists err,
    TagObject repo (RefHash ref) = TagFailed err
    /\ tagsForEach repo hash (ref :: refs) iterErr tags = (tags, Some err).
Proof.
  unfold spec.tagLookupFails. cbn [tagsForEach].
  destruct (IsTag (RefName ref)); cbn [andb]; [|discriminate].
  destruct (TagObject repo (RefHash ref)) as [target| |err];
    try discriminate.
  intros _. exists err. split; reflexivity.
Qed.

Lemma tagsForEach_eq repo hash refs iterErr tags :
  (Forall (fun ref => spec.tagLookupFails repo ref = false) refs ->
   tagsForEach repo hash refs iterErr tags
   = (tags ++ map (fun ref => Short (RefName ref))
                  (filter (spec.tagAt repo hash) refs),
      iterErr))
  /\ (forall before ref after,
         refs = before ++ ref :: after ->
         Forall (fun ref => spec.tagLookupFails repo ref = false) before ->
         spec.tagLookupFails repo ref = true ->
         exists err,
           TagObject repo (RefHash ref) = TagFailed err
           /\ tagsForEach repo hash refs iterErr tags
              = (tags ++ map (fun ref => Short (RefName ref))
                             (filter (spec.tagAt repo hash) before),
                 Some err)).
Proof.
  revert tags. induction refs as [|r refs IH]; intros tags.
  - split.
    + intros _. cbn. now rewrite app_nil_r.
    + intros [|? ?] ? ? Heq; discriminate.
  - split.
    + intros Hall. inversion Hall as [|? ? Hr Hrest]; subst.
      rewrite (@tagsForEach_next repo hash r refs iterErr tags Hr),
        (proj1 (IH _) Hrest).
      change (r :: refs) with ([r] ++ refs).
      now rewrite filter_app, map_app, app_assoc.
    + intros [|b before] ref after Heq Hbefore Hfail.
      * injection Heq as <- <-.
        destruct (@tagsForEach_stop repo hash r refs iterErr tags Hfail)
          as (err & Herr & ->).
        exists err. cbn. now rewrite app_nil_r.
      * injection Heq as <- Heq.
        inversion Hbefore as [|? ? Hb Hrest]; subst.
        rewrite (@tagsForEach_next repo hash r (before ++ ref :: after)
                   iterErr tags Hb).
        destruct (proj2 (IH (tags ++ map (fun ref => Short (RefName ref))
                                         (filter (spec.tagAt repo hash) [r])))
                        _ _ _ eq_refl Hrest Hfail)
          as (err & Herr & ->).
        exists err. split; [exact Herr|].
        change (r :: before) with ([r] ++ before).
        now rewrite filter_app, map_app, app_assoc.
Qed.

(** X25. When the references can be listed, [getTagsContainingCommit]
    returns the short names of the tags of the commit, in the order of
    the iteration: annotated tags whose target is the commit and
    lightweight tags that point to it. If the lookup of a tag object fails
    with an error other than "object not found", the iteration ends there:
    the tags found before are returned with that error, and the error of
    the iteration itself is not. *)
Theorem tags_point_to_commit repo hash refs iterErr :
  References repo = inr (refs, iterErr) ->
  (Forall (fun ref => spec.tagLookupFails repo ref = false) refs ->
   getTagsContainingCommit repo hash
   = (map (fun ref => Short (RefName ref))
          (filter (spec.tagAt repo hash) refs),
      iterErr))
  /\ (forall before ref after,
         refs = before ++ ref :: after ->
         Forall (fun ref => spec.tagLookupFails repo ref = false) before ->
         spec.tagLookupFails repo ref = true ->
         exists err,
           TagObject repo (RefHash ref) = TagFailed err
           /\ getTagsContainingCommit repo hash
              = (map (fun ref => Short (RefName ref))
                     (filter (spec.tagAt repo hash) before),
                 Some err)).
Proof.
  intros Hrefs. unfold getTagsContainingCommit. rewrite Hrefs.
  exact (tagsForEach_eq repo hash refs iterErr []).
Qed.

Lemma find_first {A} (f : A -> bool) l x :
  find f l = Some x ->
  exists before after,
    l = before ++ x :: after
    /\ f x = true
    /\ Forall (fun y => f y = false) before.
Proof.
  induction l as [|a l IH]; [discriminate|]. cbn.
  destruct (f a) eqn:Hfa.
  - intros Heq. injection Heq as <-. exists [], l. repeat split; auto.
  - intros Hfind. destruct (IH Hfind) as (before & after & -> & Hx & Hb).
    exists (a :: before), after. repeat split; auto.
Qed.

(** X26. The commit [GetCommit] reads. Without a commit hash it is the
    commit of HEAD. With one it is the commit object of that hash, and
    when there is none, the first commit of the iteration over all commit
    objects whose hash starts with the text given: of several commits
    with that prefix the first one is taken, without an error. *)
Theorem resolved_commit repo commitHash commit :
  resolveCommit repo commitHash = inr commit ->
  (commitHash = ""%string
   /\ exists ref,
        Head repo = inr ref /\ CommitObject repo (RefHash ref) = inr commit)
  \/ (commitHash <> ""%string
      /\ CommitObject repo (NewHash commitHash) = inr commit)
  \/ (commitHash <> ""%string
      /\ (exists err, CommitObject repo (NewHash commitHash) = inl err)
      /\ exists before after iterErr,
           CommitObjects repo = inr (before ++ commit :: after, iterErr)
           /\ strings.HasPrefix (Hash commit) commitHash = true
           /\ Forall (fun c => strings.HasPrefix (Hash c) commitHash = false)
                     before).
Proof.
  unfold resolveCommit. destruct (String.eqb commitHash "") eqn:He.
  - apply String.eqb_eq in He. subst commitHash.
    destruct (Head repo) as [err|ref]; [discriminate|].
    destruct (CommitObject repo (RefHash ref)) as [err|c] eqn:Hc;
      [discriminate|].
    intros Heq. injection Heq as <-. left. eauto.
  - apply String.eqb_neq in He.
    destruct (CommitObject repo (NewHash commitHash)) as [err|c] eqn:Hc.
    + destruct (CommitObjects repo) as [err'|[commits iterErr]] eqn:Hcs;
        [discriminate|].
      destruct (find _ commits) as [found|] eqn:Hfind.
      * intros Heq. injection Heq as <-.
        destruct (find_first _ _ Hfind) as (before & after & -> & Hp & Hb).
        right. right. split; [exact He|]. split; [eauto|].
        exists before, after, iterErr. auto.
      * destruct iterErr as [err'|]; [|discriminate].
        destruct (negb (String.eqb err' "found")); discriminate.
    + intros Heq. injection Heq as <-. right. left. auto.
Qed.

End Lookups.

Section LookupRuns.
Import types config git object gogit.
Local Open Scope list_scope.
#[local] Existing Instance examples.literalLib.

Lemma branches_are_tips_witness :
  let repo := examples.repositoryOf examples.richCommit examples.mainRefs in
  References repo = examples.mainRefs
  /\ getBranchesContainingCommit repo examples.hash1
     = (["refs/heads/main"%string], None).
Proof.
  intros repo. split; [reflexivity|].
  exact (@branches_are_tips examples.literalLib repo examples.hash1 _ None
           eq_refl).
Defined.

Lemma tags_point_to_commit_witness :
  let repo := examples.repositoryOf examples.richCommit examples.mainRefs in
  References repo = examples.mainRefs
  /\ Forall (fun ref => spec.tagLookupFails repo ref = false)
            [mkReference "refs/heads/main" examples.hash1;
             mkReference "refs/tags/v1" examples.hash1]
  /\ getTagsContainingCommit repo examples.hash1
     = (["refs/tags/v1"%string], None).
Proof.
  intros repo.
  assert (Hall : Forall (fun ref => spec.tagLookupFails repo ref = false)
                        [mkReference "refs/heads/main" examples.hash1;
                         mkReference "refs/tags/v1" examples.hash1])
    by (repeat constructor).
  split; [reflexivity|]. split; [exact Hall|].
  exact (proj1 (@tags_point_to_commit examples.literalLib repo examples.hash1
                  _ None eq_refl) Hall).
Defined.

Lemma resolved_commit_witness :
  let repo := examples.repositoryOf examples.richCommit examples.mainRefs in
  resolveCommit repo "18d7144" = inr examples.richCommit
  /\ (exists err, CommitObject repo (NewHash "18d7144") = inl err)
  /\ exists before after iterErr,
       CommitObjects repo = inr (before ++ examples.richCommit :: after,
                                 iterErr)
       /\ strings.HasPrefix (Hash examples.richCommit) "18d7144" = true
       /\ Forall (fun c => strings.HasPrefix (Hash c) "18d7144" = false)
                 before.
Proof.
  intros repo. split; [reflexivity|].
  destruct (@resolved_commit examples.literalLib repo "18d7144"
              examples.richCommit eq_refl)
    as [[Hempty _]|[[_ Hfull]|(_ & Herr & Hfirst)]].
  - discriminate Hempty.
  - discriminate Hfull.
  - split; [exact Herr|exact Hfirst].
Defined.

End LookupRuns.

(** ** types: file extensions and commit messages *)

Section TextHelpers.
Context `{GoLib}.
Import types.
Local Open Scope list_scope.

Lemma Split_without_sep s sep :
  spec.hasByte sep s = false -> strings.Split s sep = [s].
Proof.
  induction s as [|c s IH]; cbn; [reflexivity|].
  intros Hs. apply orb_false_iff in Hs as [Hc Hs].
  now rewrite Hc, (IH Hs).
Qed.

(** A text with the separator splits into two pieces at least, and ends
    with the separator and the last piece. *)
Lemma Split_with_sep s sep :
  spec.hasByte sep s = true ->
  (2 <= List.length (strings.Split s sep))%nat
  /\ exists base,
       s = (base ++ String sep (last (strings.Split s sep) ""))%string.
Proof.
  induction s as [|c s IH]; cbn [spec.hasByte strings.Split];
    [discriminate|].
  destruct (Ascii.eqb c sep) eqn:Hc; cbn [orb].
  - intros _. apply Ascii.eqb_eq in Hc. subst c.
    pose proof (Split_not_nil s sep) as Hnil.
    destruct (spec.hasByte sep s) eqn:Hs.
    + destruct (IH eq_refl) as (Hlen & base & Hbase).
      destruct (strings.Split s sep) as [|p ps]; [contradiction|].
      split; [cbn in *; lia|].
      exists (String sep base). cbn [append].
      change (last (EmptyString :: p :: ps) ""%string)
        with (last (p :: ps) ""%string).
      now rewrite <- Hbase.
    + rewrite (Split_without_sep _ _ Hs). split; [cbn; lia|].
      now exists ""%string.
  - intros Hs. destruct (IH Hs) as (Hlen & base & Hbase).
    destruct (strings.Split s sep) as [|p [|q ps]]; cbn in Hlen; try lia.
    split; [cbn; lia|].
    exists (String c base). cbn [append].
    change (last (String c p :: q :: ps) ""%string)
      with (last (p :: q :: ps) ""%string).
    now rewrite <- Hbase.
Qed.

Lemma last_In {A} (l : list A) d : l <> [] -> In (last l d) l.
Proof.
  induction l as [|a [|b l] IH]; intros Hl; [contradiction|now left|].
  right. apply IH. discriminate.
Qed.

(** X27. The extension [GetFileExtension] gives is what follows the last
    dot of the name: the name is some text, a dot and the extension, and
    the extension has no dot. A name without a dot has the empty
    extension. The dot may stand in a directory part of a path. *)
Theorem GetFileExtension_after_last_dot filename :
  let ext := GetFileExtension filename in
  if spec.hasByte "." filename
  then spec.hasByte "." ext = false
       /\ exists base, filename = (base ++ "." ++ ext)%string
  else ext = ""%string.
Proof.
  cbv zeta. unfold GetFileExtension.
  destruct (spec.hasByte "." filename) eqn:Hdot.
  - destruct (Split_with_sep _ _ Hdot) as (Hlen & base & Hbase).
    replace (1 <? llen (strings.Split filename "."))%Z with true
      by (symmetry; apply Z.ltb_lt; unfold llen; lia).
    split; [|exists base; exact Hbase].
    pose proof (Split_no_sep filename ".") as Hall.
    rewrite Forall_forall in Hall. apply Hall.
    apply last_In, Split_not_nil.
  - now rewrite (Split_without_sep _ _ Hdot).
Qed.

Lemma Split_Join line lines :
  Forall (fun l => spec.singleLine l = true) (line :: lines) ->
  strings.Split (strings.Join (line :: lines) LF) strings.nl = line :: lines.
Proof.
  revert line. induction lines as [|l ls IH]; intros line Hall;
    inversion Hall as [|? ? Hline Hrest]; subst.
  - cbn. apply Split_without_sep.
    unfold spec.singleLine in Hline. now apply negb_true_iff in Hline.
  - change (strings.Join (line :: l :: ls) LF)
      with (line ++ String strings.nl (strings.Join (l :: ls) LF))%string.
    rewrite Split_app_sep, (IH _ Hrest); [reflexivity|].
    unfold spec.singleLine in Hline. now apply negb_true_iff in Hline.
Qed.

(** X28. [SplitCommitMessage] on a message of the lines [subject] and
    [rest]: the subject is the first line, trimmed; the description is
    the other lines, each trimmed, joined by line breaks, without the
    second line of the message when that line is empty. One empty line is
    skipped and no more, and a message of one line has the empty
    description. *)
Theorem SplitCommitMessage_lines subject rest :
  Forall (fun l => spec.singleLine l = true) (subject :: rest) ->
  SplitCommitMessage (strings.Join (subject :: rest) LF)
  = (TrimSpace subject,
     strings.Join
       (map TrimSpace
            match rest with
            | [] => []
            | second :: others =>
                if String.eqb second "" then others else rest
            end)
       LF).
Proof.
  intros Hall. unfold SplitCommitMessage. rewrite (Split_Join Hall).
  destruct rest as [|second others]; reflexivity.
Qed.

End TextHelpers.

Section TextHelperRuns.
Import types.
Local Open Scope list_scope.
#[local] Existing Instance examples.literalLib.

Lemma SplitCommitMessage_lines_witness :
  Forall (fun l => spec.singleLine l = true)
         ["Fix parser"; ""; ""; "Details."]%string
  /\ SplitCommitMessage
       (strings.Join ["Fix parser"; ""; ""; "Details."]%string LF)
     = ("Fix parser", strings.Join [""; "Details."] LF)%string.
Proof.
  assert (Hall : Forall (fun l => spec.singleLine l = true)
                        ["Fix parser"; ""; ""; "Details."]%string)
    by (repeat constructor).
  split; [exact Hall|].
  exact (@SplitCommitMessage_lines examples.literalLib "Fix parser"
           [""; ""; "Details."]%string Hall).
Defined.

End TextHelperRuns.

(** ** main and config: the command line and the configuration file *)

Section CommandLine.
Import config.
Local Open Scope list_scope.

Lemma SetConfigFile_again g first second :
  SetConfigFile (SetConfigFile g first) second = SetConfigFile g second.
Proof. reflexivity. Qed.

(** Arguments that parse without error are read to their end, and what
    follows is read from the state they leave. *)
Lemma parseArgsFrom_app pre more :
  forall g g1,
    main.parseArgsFrom pre g = (g1, None) ->
    main.parseArgsFrom (pre ++ more) g = main.parseArgsFrom more g1.
Proof.
  assert (Hn : forall n pre, (List.length pre <= n)%nat ->
               forall g g1,
                 main.parseArgsFrom pre g = (g1, None) ->
                 main.parseArgsFrom (pre ++ more) g
                 = main.parseArgsFrom more g1).
  { induction n as [|n IH]; intros [|arg rest] Hlen g g1;
      cbn [List.length] in Hlen; try lia.
    - cbn. intros Heq. now injection Heq as <-.
    - cbn. intros Heq. now injection Heq as <-.
    - cbn [main.parseArgsFrom app].
      destruct (String.eqb arg "-h" || String.eqb arg "--help");
        [discriminate|].
      destruct (String.eqb arg "-v" || String.eqb arg "--version");
        [discriminate|].
      destruct (String.eqb arg "--config").
      + destruct rest as [|next rest']; [discriminate|].
        cbn [app]. apply IH. cbn [List.length] in Hlen. lia.
      + apply IH. lia. }
  intros g g1. exact (Hn (List.length pre) pre (le_n _) g g1).
Qed.

(** The command line changes the configuration file of [globalConfig]
    and nothing else. *)
Lemma parseArgsFrom_sets_file args :
  forall g g1 err,
    main.parseArgsFrom args g = (g1, err) ->
    g1 = g \/ exists file, g1 = SetConfigFile g file.
Proof.
  assert (Hn : forall n args, (List.length args <= n)%nat ->
               forall g g1 err,
                 main.parseArgsFrom args g = (g1, err) ->
                 g1 = g \/ exists file, g1 = SetConfigFile g file).
  { induction n as [|n IH]; intros [|arg rest] Hlen g g1 err;
      cbn [List.length] in Hlen; try lia.
    - cbn. intros Heq. injection Heq as <- _. now left.
    - cbn. intros Heq. injection Heq as <- _. now left.
    - cbn [main.parseArgsFrom].
      destruct (String.eqb arg "-h" || String.eqb arg "--help");
        [intros Heq; injection Heq as <- _; now left|].
      destruct (String.eqb arg "-v" || String.eqb arg "--version");
        [intros Heq; injection Heq as <- _; now left|].
      destruct (String.eqb arg "--config").
      + destruct rest as [|next rest'];
          [intros Heq; injection Heq as <- _; now left|].
        intros Heq. cbn [List.length] in Hlen.
        destruct (IH rest' ltac:(lia) _ _ _ Heq) as [->|[file ->]];
          right; [exists next|exists file]; reflexivity.
      + apply IH. lia. }
  intros g g1 err. exact (Hn (List.length args) args (le_n _) g g1 err).
Qed.

Lemma parseArgsFrom_no_option args g :
  Forall (fun arg => spec.isOption arg = false) args ->
  main.parseArgsFrom args g = (g, None).
Proof.
  induction 1 as [|arg args Harg _ IH]; [reflexivity|].
  cbn [main.parseArgsFrom]. unfold spec.isOption in Harg.
  cbn [types.Contains] in Harg.
  destruct (String.eqb "-h" arg) eqn:H1; [discriminate|].
  destruct (String.eqb "--help" arg) eqn:H2; [discriminate|].
  destruct (String.eqb "-v" arg) eqn:H3; [discriminate|].
  destruct (String.eqb "--version" arg) eqn:H4; [discriminate|].
  destruct (String.eqb "--config" arg) eqn:H5; [discriminate|].
  rewrite (String.eqb_sym arg "-h"), H1, (String.eqb_sym arg "--help"), H2,
    (String.eqb_sym arg "-v"), H3, (String.eqb_sym arg "--version"), H4,
    (String.eqb_sym arg "--config"), H5.
  exact IH.
Qed.

Lemma parseArgsFrom_last_config pre file rest g g1 :
  main.parseArgsFrom pre g = (g1, None) ->
  Forall (fun arg => spec.isOption arg = false) rest ->
  main.parseArgsFrom (pre ++ "--config"%string :: file :: rest) g
  = (SetConfigFile g file, None).
Proof.
  intros Hpre Hrest.
  rewrite (@parseArgsFrom_app pre ("--config"%string :: file :: rest) g g1
             Hpre).
  cbn [main.parseArgsFrom String.eqb Ascii.eqb Bool.eqb orb].
  rewrite (@parseArgsFrom_no_option rest (SetConfigFile g1 file) Hrest).
  destruct (@parseArgsFrom_sets_file pre g g1 None Hpre) as [->|[file' ->]];
    reflexivity.
Qed.

(** X29. The arguments are read from left to right, and the argument
    after [--config] is the configuration file whatever it is. After
    arguments that parse without error, a [--config file] followed by
    arguments that are no options leaves [file] as the configuration file
    of [globalConfig] and changes nothing else: the last [--config]
    counts, and an option name in the place of the file is taken as the
    file. *)
Theorem last_config_file_counts program pre file rest g g1 :
  main.parseArgs (program :: pre) g = (g1, None) ->
  Forall (fun arg => spec.isOption arg = false) rest ->
  main.parseArgs (program :: pre ++ "--config"%string :: file :: rest) g
  = (SetConfigFile g file, None).
Proof.
  unfold main.parseArgs. cbn [tl app]. apply parseArgsFrom_last_config.
Qed.

(** X30. The configuration [LoadConfig] returns after such a command
    line. It is read from [file], from config.json when [file] is empty;
    that path must exist. It is the configuration decoded from the
    content of the file with the path as its configuration file, and
    [globalConfig] is replaced by it: no default of [globalConfig] is
    kept for a field the file leaves out. *)
Theorem loaded_config_is_the_file fs program pre file rest g g1 cfg :
  main.parseArgs (program :: pre) g = (g1, None) ->
  Forall (fun arg => spec.isOption arg = false) rest ->
  let g2 :=
    fst (main.parseArgs
           (program :: pre ++ "--config"%string :: file :: rest) g) in
  snd (LoadConfig fs g2) = inr cfg ->
  let path := if String.eqb file "" then "config.json"%string else file in
  Stat fs path = true
  /\ exists data fileConfig,
       ReadFile fs path = inr data
       /\ Unmarshal fs data = inr fileConfig
       /\ cfg = SetConfigFile fileConfig path
       /\ fst (LoadConfig fs g2) = cfg.
Proof.
  intros Hpre Hrest g2. subst g2. unfold main.parseArgs. cbn [tl app].
  unfold main.parseArgs in Hpre. cbn [tl] in Hpre.
  rewrite (@parseArgsFrom_last_config pre file rest g g1 Hpre Hrest).
  cbn [fst].
  unfold LoadConfig, findConfigFile, loadConfigFromFile.
  change (Config.ConfigFile (SetConfigFile g file)) with file.
  destruct (String.eqb file "") eqn:Hfile; cbn [negb].
  - destruct (Stat fs "config.json") eqn:Hstat; [|discriminate].
    destruct (ReadFile fs "config.json") as [err|data] eqn:Hread;
      [discriminate|].
    destruct (Unmarshal fs data) as [err|fileConfig] eqn:Hdec;
      [discriminate|].
    cbn. intros Heq. injection Heq as <-. split; [reflexivity|].
    exists data, fileConfig. auto.
  - destruct (Stat fs file) eqn:Hstat; [|discriminate].
    destruct (ReadFile fs file) as [err|data] eqn:Hread; [discriminate|].
    destruct (Unmarshal fs data) as [err|fileConfig] eqn:Hdec;
      [discriminate|].
    cbn. intros Heq. injection Heq as <-. split; [reflexivity|].
    exists data, fileConfig. auto.
Qed.

End CommandLine.

Section CommandLineRuns.
Import config.
Local Open Scope list_scope.

Lemma last_config_file_counts_witness :
  main.parseArgs ["warmy"; "--config"; "a.json"]%string globalConfig
  = (SetConfigFile globalConfig "a.json", None)
  /\ Forall (fun arg => spec.isOption arg = false) ["extra"%string]
  /\ main.parseArgs
       ["warmy"; "--config"; "a.json"; "--config"; "--help"; "extra"]%string
       globalConfig
     = (SetConfigFile globalConfig "--help", None).
Proof.
  assert (Hrest : Forall (fun arg => spec.isOption arg = false)
                         ["extra"%string])
    by (repeat constructor).
  split; [reflexivity|]. split; [exact Hrest|].
  exact (@last_config_file_counts "warmy" ["--config"; "a.json"]%string
           "--help" ["extra"%string] globalConfig
           (SetConfigFile globalConfig "a.json") eq_refl Hrest).
Defined.

Lemma loaded_config_is_the_file_witness :
  let cfg := SetConfigFile examples.zeroConfig "warmy.json" in
  main.parseArgs ["warmy"%string] globalConfig = (globalConfig, None)
  /\ snd (LoadConfig examples.oneConfigFile
            (fst (main.parseArgs ["warmy"; "--config"; "warmy.json"]%string
                                 globalConfig)))
     = inr cfg
  /\ Config.MaxDiffSize globalConfig = (1024 * 1024)%Z
  /\ Config.MaxDiffSize cfg = 0%Z
  /\ Stat examples.oneConfigFile "warmy.json" = true
  /\ exists data fileConfig,
       ReadFile examples.oneConfigFile "warmy.json" = inr data
       /\ Unmarshal examples.oneConfigFile data = inr fileConfig
       /\ cfg = SetConfigFile fileConfig "warmy.json"
       /\ fst (LoadConfig examples.oneConfigFile
                 (fst (main.parseArgs
                         ["warmy"; "--config"; "warmy.json"]%string
                         globalConfig)))
          = cfg.
Proof.
  intros cfg.
  split; [reflexivity|]. split; [reflexivity|]. split; [reflexivity|].
  split; [reflexivity|].
  exact (@loaded_config_is_the_file examples.oneConfigFile "warmy" []
           "warmy.json" [] globalConfig globalConfig cfg eq_refl
           (Forall_nil _) eq_refl).
Defined.

End CommandLineRuns.
